(** * smart_logger: register protocol, calibration and compensation

    A shallow embedding of [smart_logger.cpp] (BOQU IOT-485-EC4A logger):
    the IEEE-754 arithmetic of the compensation engine, the ABCD float
    register codec, the write-then-verify helpers, the calibration
    sequence, port discovery and the sampling loop, with the properties
    of the design document stated and proved over them. *)

From Stdlib Require Import ZArith List String Ascii Bool Lia.
From Stdlib Require Import DecimalString.
From Stdlib Require Import Floats.SpecFloat.
Import ListNotations.

Open Scope Z_scope.

(** ** IEEE-754 arithmetic

    C++ [double] is binary64 and [float] is binary32.  Both are modelled
    by [spec_float] with the operations of [SpecFloat] (round to nearest,
    ties to even), instantiated at the two formats. *)

Module B64.
Definition prec : Z := 53.
Definition emax : Z := 1024.
Definition add := SFadd prec emax.
Definition sub := SFsub prec emax.
Definition mul := SFmul prec emax.
Definition div := SFdiv prec emax.
Definition leb := SFleb.
Definition ltb := SFltb.
Definition valid := valid_binary prec emax.
(** The [double] nearest to the integer [n]. *)
Definition of_Z (n : Z) : spec_float := binary_normalize prec emax n 0 false.
End B64.

Module B32.
Definition prec : Z := 24.
Definition emax : Z := 128.
Definition sub := SFsub prec emax.
Definition ltb := SFltb.
Definition valid := valid_binary prec emax.
Definition of_Z (n : Z) : spec_float := binary_normalize prec emax n 0 false.
End B32.

(** Decimal literals of the source, as the binary64 values a C++ compiler
    gives them (mantissa and exponent of the nearest double). *)
Module Lit.
Definition d1_0  := S754_finite false 4503599627370496 (-52).
Definition d5_0  := S754_finite false 5629499534213120 (-50).
Definition d10_0 := S754_finite false 5629499534213120 (-49).
Definition d15_0 := S754_finite false 8444249301319680 (-49).
Definition d25_0 := S754_finite false 7036874417766400 (-48).
Definition d30_0 := S754_finite false 8444249301319680 (-48).
Definition d0_0180 := S754_finite false 5188146770730811 (-58).
Definition d0_0184 := S754_finite false 5303438921191496 (-58).
Definition d0_0190 := S754_finite false 5476377146882523 (-58).
Definition d0_0192 := S754_finite false 5534023222112865 (-58).
Definition d0_0194 := S754_finite false 5591669297343208 (-58).
(** Inputs used in the examples. *)
Definition d12_0 := S754_finite false 6755399441055744 (-49).
Definition d13_0 := S754_finite false 7318349394477056 (-49).
Definition d5_01 := S754_finite false 5640758533281546 (-50).
Definition d25_01 := S754_finite false 7039689167533507 (-48).
Definition dm100_0 := S754_finite true 7036874417766400 (-46).
(** -30.55555555555556 (-0x1.e8e38e38e38e5p+4). *)
Definition zero_denominator_temp := S754_finite true 8600624288381157 (-48).
End Lit.

(** ** Dynamic coefficient lookup: [get_dynamic_k] *)

Definition get_dynamic_k (temp : spec_float) : spec_float :=
  if B64.leb temp Lit.d5_0 then Lit.d0_0180
  else if B64.leb temp Lit.d10_0 then Lit.d0_0184
  else if B64.leb temp Lit.d15_0 then Lit.d0_0190
  else if B64.leb temp Lit.d25_0 then Lit.d0_0190
  else if B64.leb temp Lit.d30_0 then Lit.d0_0192
  else Lit.d0_0194.

(** ** Smart algorithm: [calculate_smart_ec] *)

(** The divisor [1.0 + k * (temp - 25.0)] for a given coefficient. *)
Definition denominator_with (k temp : spec_float) : spec_float :=
  B64.add Lit.d1_0 (B64.mul k (B64.sub temp Lit.d25_0)).

Definition calculate_smart_ec (raw_ec temp : spec_float) : spec_float :=
  let k := get_dynamic_k temp in
  B64.div raw_ec (denominator_with k temp).

(** How a call of a C++ function ends: it returns a value or it throws.
    The source has no [throw] and no error out-parameter anywhere. *)
Inductive error := DomainError | IOError.

Inductive outcome (A : Type) :=
| Returns (v : A)
| Signals (e : error).
Arguments Returns {A} v.
Arguments Signals {A} e.

(** A call of [calculate_smart_ec]: the body is one division and one
    [return]. *)
Definition call_calculate_smart_ec (raw_ec temp : spec_float) : outcome spec_float :=
  Returns (calculate_smart_ec raw_ec temp).

(** ** Registers and the ABCD float codec *)

(** [uint16_t] and [uint32_t] values are integers reduced modulo the
    width; a C++ [float] object is its 32-bit pattern ([memcpy] copies
    the four bytes unchanged). *)
Definition u16 (z : Z) : Z := Z.land z 65535.
Definition u32 (z : Z) : Z := Z.land z 4294967295.

Definition is_u16 (z : Z) : Prop := 0 <= z < 65536.
Definition is_u32 (z : Z) : Prop := 0 <= z < 4294967296.

(** [modbus_get_float_abcd]: [i = (((uint32_t)src[0]) << 16) | src[1]],
    then the bits of [i] are copied into the result. *)
Definition modbus_get_float_abcd (src : Z * Z) : Z :=
  let i := Z.lor (u32 (Z.shiftl (u32 (u16 (fst src))) 16)) (u16 (snd src)) in
  u32 i.

(** Modelled from the spec: [encode], which the source takes from
    libmodbus ([modbus_set_float_abcd], not part of this repository's
    sources): "reinterpret the 32-bit IEEE-754 bit pattern of value;
    word0 = high 16 bits, word1 = low 16 bits". *)
Definition encode (value : Z) : Z * Z :=
  (u16 (Z.shiftr (u32 value) 16), u16 (u32 value)).

(** The numeric value of a binary32 bit pattern: sign bit 31, biased
    exponent in bits 30..23, fraction in bits 22..0. *)
Module Bits32.
Definition sign (b : Z) : bool := Z.testbit b 31.
Definition biased_exp (b : Z) : Z := Z.land (Z.shiftr b 23) 255.
Definition fraction (b : Z) : Z := Z.land b 8388607.

Definition to_float (b : Z) : spec_float :=
  let s := sign b in
  let e := biased_exp b in
  let m := fraction b in
  if e =? 0 then
    match m with
    | Zpos p => S754_finite s p (-149)
    | _ => S754_zero s
    end
  else if e =? 255 then
    if m =? 0 then S754_infinity s else S754_nan
  else
    match m + 8388608 with
    | Zpos p => S754_finite s p (e - 150)
    | _ => S754_nan
    end.
End Bits32.

(** The implicit conversion [float] to [double]: exact, the value is
    put in binary64 canonical form. *)
Definition double_of_float (x : spec_float) : spec_float :=
  match x with
  | S754_finite s m e => binary_normalize B64.prec B64.emax (cond_Zopp s (Zpos m)) e s
  | _ => x
  end.

(** ** Hex string converter: [to_hex_string] *)

Definition hex_digit (n : Z) : ascii :=
  nth (Z.to_nat n)
      ["0"; "1"; "2"; "3"; "4"; "5"; "6"; "7"; "8"; "9"; "A"; "B"; "C"; "D"; "E"; "F"]%char
      "0"%char.

(** [std::setw(4)] with fill ['0'] on a 16-bit value: four digits. *)
Definition hex4 (w : Z) : string :=
  let w := u16 w in
  String (hex_digit (Z.shiftr w 12 mod 16))
    (String (hex_digit (Z.shiftr w 8 mod 16))
       (String (hex_digit (Z.shiftr w 4 mod 16))
          (String (hex_digit (w mod 16)) EmptyString))).

Definition to_hex_string (reg_high reg_low : Z) : string :=
  (hex4 reg_high ++ hex4 reg_low)%string.

(** ** Calibration constants *)

Definition CALIBRATION_REG_MODE : Z := 13.
Definition CALIBRATION_REG_COEFF : Z := 28.
(** [const float CALIBRATION_COEFF_VALUE = 12880]: bits of 12880.0f. *)
Definition CALIBRATION_COEFF_VALUE : Z := 0x46494000.
Definition CAL_MODE_1_VALUE : Z := 2.
Definition CAL_MODE_2_VALUE : Z := 3.

Inductive CalibrationMode :=
| CAL_MODE_NONE
| CAL_MODE_1
| CAL_MODE_2
| CAL_MODE_3.

(** The [float] literal [0.001f]. *)
Definition f0_001 : spec_float := S754_finite false 8589935 (-33).

(** ** The environment: libmodbus, the clock and the console

    Every call that leaves the program is a [call]; the environment
    answers with a [reply].  A context ([modbus_t *]) is named by the
    device path it was created for. *)

Definition ctx_t := string.

Inductive call :=
| modbus_new_rtu (device : string) (baud : Z) (parity : ascii) (data_bit stop_bit : Z)
| modbus_set_slave (ctx : ctx_t) (slave : Z)
| modbus_set_response_timeout (ctx : ctx_t) (sec usec : Z)
| modbus_connect (ctx : ctx_t)
| modbus_read_registers (ctx : ctx_t) (addr nb : Z)
| modbus_write_register (ctx : ctx_t) (addr value : Z)
| modbus_write_registers (ctx : ctx_t) (addr nb : Z) (data : list Z)
| modbus_close (ctx : ctx_t)
| modbus_free (ctx : ctx_t)
| usleep (usec : Z)
| sleep (sec : Z)
| get_timestamp.

(** [Failed] is [NULL] for [modbus_new_rtu] and [-1] for the calls that
    return [int]; [Done regs] carries the words stored into the
    destination of a read, or the time for [get_timestamp]. *)
Inductive reply :=
| Failed
| Done (data : list Z).

Inductive message :=
| MsgScanning
| MsgFoundSensor (port : string)
| MsgWriteInt (reg value : Z)
| MsgWriteFloat (reg value : Z) (hex : string)
| MsgErrorWrite (reg : Z)
| MsgErrorWriteFloat (reg : Z)
| MsgVerifyInt (reg value : Z)
| MsgVerifyFloat (reg value : Z) (hex : string)
| MsgWriteVerified
| MsgWarnDiffersInt (expected got : Z)
| MsgWarnDiffersFloat (expected got : Z)
| MsgWarnNoReadBack
| MsgCalSkipped
| MsgCalBanner (mode : CalibrationMode)
| MsgCalStep (mode : CalibrationMode) (step : nat)
| MsgMode3Success
| MsgMode3Failed
| MsgCalCompleted (mode : CalibrationMode)
| MsgCalFailed
| MsgSensorNotFound
| MsgContextFailed
| MsgConnectionFailed
| MsgConnected (port : string)
| MsgFailedTemperature
| MsgFailedRawEc
| MsgFailedSensorEc.

(** The arguments of one call of [display_teacher_dashboard]; the
    rendering itself is outside the core. *)
Record dashboard := {
  dash_temp : spec_float;
  dash_raw_ec : spec_float;
  dash_sensor_ec : spec_float;
  dash_smart_ec : spec_float;
  dash_k_used : spec_float;
  dash_sample_count : Z;
  dash_port : string;
  dash_hex_temp : string;
  dash_hex_raw_ec : string
}.

(** One row appended to [ec_data_log.csv]. *)
Record csv_row := {
  csv_timestamp : list Z;
  csv_temp : spec_float;
  csv_hex_temp : string;
  csv_raw_ec : spec_float;
  csv_hex_raw_ec : string;
  csv_sensor_ec : spec_float;
  csv_smart_ec : spec_float;
  csv_deviation : spec_float
}.

Inductive output :=
| Cout (m : message)
| Cerr (m : message)
| Display (d : dashboard)
| Csv (r : csv_row).

Inductive event :=
| Lib (c : call) (r : reply)
| Out (o : output).

Definition trace := list event.

(** ** Programs

    A program runs against an environment state [W]; it returns its
    result, the new environment state and the events it produced, in
    order. *)

Definition prog (W A : Type) : Type := W -> A * W * trace.

Definition ret {W A : Type} (a : A) : prog W A := fun w => (a, w, []).

Definition bind {W A B : Type} (m : prog W A) (k : A -> prog W B) : prog W B :=
  fun w =>
    let '(a, w1, t1) := m w in
    let '(b, w2, t2) := k a w1 in
    (b, w2, t1 ++ t2).

Declare Scope prog_scope.
Delimit Scope prog_scope with prog.
Notation "x <- m ;; k" := (bind m (fun x => k))
  (at level 61, m at next level, right associativity) : prog_scope.
Notation "m ;; k" := (bind m (fun _ => k))
  (at level 61, right associativity) : prog_scope.
Open Scope prog_scope.

Definition result {W A : Type} (r : A * W * trace) : A := fst (fst r).
Definition final {W A : Type} (r : A * W * trace) : W := snd (fst r).
Definition events {W A : Type} (r : A * W * trace) : trace := snd r.

(** The first and second word stored by a read; a successful read of
    [nb] registers stores [nb] words. *)
Definition reg (regs : list Z) (i : nat) : Z := u16 (nth i regs 0).

(** How one pass through the body of [while (true)] ends. *)
Inductive cycle_end :=
| Continue
| FallThrough
| Break.

Record loop_state := {
  loop_count : Z;
  hex_temp : string;
  hex_raw_ec : string
}.

(** [std::to_string] on a non-negative [int]. *)
Definition to_string (i : nat) : string :=
  NilEmpty.string_of_uint (Nat.to_uint i).

(** The vector [ports] after the two filling loops of
    [find_sensor_port]: [/dev/ttyS0] to [/dev/ttyS20], then for each
    [i] from 0 to 4 the pair [/dev/ttyUSBi], [/dev/ttyACMi]. *)
Definition candidate_ports : list string :=
  map (fun i => ("/dev/ttyS" ++ to_string i)%string) (seq 0 21)
  ++ flat_map (fun i => [("/dev/ttyUSB" ++ to_string i)%string;
                         ("/dev/ttyACM" ++ to_string i)%string]) (seq 0 5).

Section Program.
Context {W : Type}.
(** The environment's answer to a call. *)
Variable respond : W -> call -> reply * W.
(** libmodbus's [modbus_set_float_abcd], declared in [modbus.h]. *)
Variable modbus_set_float_abcd : Z -> Z * Z.

Definition lib (c : call) : prog W reply :=
  fun w => let '(r, w') := respond w c in (r, w', [Lib c r]).

Definition out (o : output) : prog W unit :=
  fun w => (tt, w, [Out o]).

(** *** Port auto-discovery: [find_sensor_port] *)

(** The scan loop [for (const auto &port : ports)]. *)
Fixpoint scan_ports (ports : list string) : prog W string :=
  match ports with
  | [] => ret EmptyString
  | port :: rest =>
      ctx <- lib (modbus_new_rtu port 9600 "N" 8 1) ;;
      match ctx with
      | Failed => scan_ports rest
      | Done _ =>
          lib (modbus_set_slave port 4) ;;
          lib (modbus_set_response_timeout port 0 100000) ;;
          conn <- lib (modbus_connect port) ;;
          match conn with
          | Done _ =>
              rc <- lib (modbus_read_registers port 60 2) ;;
              match rc with
              | Done _ =>
                  out (Cout (MsgFoundSensor port)) ;;
                  lib (modbus_close port) ;;
                  lib (modbus_free port) ;;
                  ret port
              | Failed =>
                  lib (modbus_close port) ;;
                  lib (modbus_free port) ;;
                  scan_ports rest
              end
          | Failed =>
              lib (modbus_free port) ;;
              scan_ports rest
          end
      end
  end.

Definition find_sensor_port : prog W string :=
  out (Cout MsgScanning) ;;
  scan_ports candidate_ports.

(** *** [write_integer_register] *)

Definition write_integer_register (ctx : ctx_t) (reg_addr value : Z) : prog W bool :=
  let value := u16 value in
  out (Cout (MsgWriteInt reg_addr value)) ;;
  rc <- lib (modbus_write_register ctx reg_addr value) ;;
  match rc with
  | Failed =>
      out (Cerr (MsgErrorWrite reg_addr)) ;;
      ret false
  | Done _ =>
      rb <- lib (modbus_read_registers ctx reg_addr 1) ;;
      match rb with
      | Done regs =>
          let verify_value := reg regs 0 in
          out (Cout (MsgVerifyInt reg_addr verify_value)) ;;
          (if verify_value =? value
           then out (Cout MsgWriteVerified)
           else out (Cerr (MsgWarnDiffersInt value verify_value))) ;;
          ret true
      | Failed =>
          out (Cerr MsgWarnNoReadBack) ;;
          ret true
      end
  end.

(** *** [write_float_register] *)

(** The test [fabs(read_back - value) < 0.001f]: the subtraction is a
    [float] subtraction. *)
Definition float_close (read_back value : Z) : bool :=
  B32.ltb (SFabs (B32.sub (Bits32.to_float read_back) (Bits32.to_float value))) f0_001.

Definition write_float_register (ctx : ctx_t) (reg_addr value : Z) : prog W bool :=
  let reg_data := modbus_set_float_abcd value in
  out (Cout (MsgWriteFloat reg_addr value (to_hex_string (fst reg_data) (snd reg_data)))) ;;
  rc <- lib (modbus_write_registers ctx reg_addr 2 [fst reg_data; snd reg_data]) ;;
  match rc with
  | Failed =>
      out (Cerr (MsgErrorWriteFloat reg_addr)) ;;
      ret false
  | Done _ =>
      lib (usleep 100000) ;;
      rb <- lib (modbus_read_registers ctx reg_addr 2) ;;
      match rb with
      | Done regs =>
          let verify_data := (reg regs 0, reg regs 1) in
          let read_back := modbus_get_float_abcd verify_data in
          out (Cout (MsgVerifyFloat reg_addr read_back
                       (to_hex_string (fst verify_data) (snd verify_data)))) ;;
          (if float_close read_back value
           then out (Cout MsgWriteVerified)
           else out (Cerr (MsgWarnDiffersFloat value read_back))) ;;
          ret true
      | Failed =>
          out (Cerr MsgWarnNoReadBack) ;;
          ret true
      end
  end.

(** *** [execute_calibration] *)

Definition execute_calibration (ctx : ctx_t) (mode : CalibrationMode) : prog W bool :=
  match mode with
  | CAL_MODE_NONE =>
      out (Cout MsgCalSkipped) ;;
      ret true
  | _ =>
      out (Cout (MsgCalBanner mode)) ;;
      success <-
        match mode with
        | CAL_MODE_NONE => ret true
        | CAL_MODE_1 =>
            out (Cout (MsgCalStep mode 1)) ;;
            write_integer_register ctx CALIBRATION_REG_MODE CAL_MODE_1_VALUE
        | CAL_MODE_2 =>
            out (Cout (MsgCalStep mode 1)) ;;
            success <- write_float_register ctx CALIBRATION_REG_COEFF CALIBRATION_COEFF_VALUE ;;
            if success : bool then
              out (Cout (MsgCalStep mode 2)) ;;
              write_integer_register ctx CALIBRATION_REG_MODE CAL_MODE_2_VALUE
            else ret success
        | CAL_MODE_3 =>
            out (Cout (MsgCalStep mode 1)) ;;
            let test_k := 190 in
            success <- write_integer_register ctx 16 test_k ;;
            (if success : bool
             then out (Cout MsgMode3Success)
             else out (Cout MsgMode3Failed)) ;;
            ret success
        end ;;
      (if success : bool
       then out (Cout (MsgCalCompleted mode))
       else out (Cerr MsgCalFailed)) ;;
      lib (sleep 1) ;;
      ret success
  end.

(** *** [main], steps 1 and 2: discovery, then the session connection *)

(** Step 2, from the test [port.empty()] on. *)
Definition establish_connection (port : string) : prog W (Z + (string * ctx_t)) :=
  if String.eqb port EmptyString then
    out (Cerr MsgSensorNotFound) ;;
    ret (inl (-1))
  else
    ctx <- lib (modbus_new_rtu port 9600 "N" 8 1) ;;
    match ctx with
    | Failed =>
        out (Cerr MsgContextFailed) ;;
        ret (inl (-1))
    | Done _ =>
        lib (modbus_set_slave port 4) ;;
        lib (modbus_set_response_timeout port 1 0) ;;
        conn <- lib (modbus_connect port) ;;
        match conn with
        | Failed =>
            out (Cerr MsgConnectionFailed) ;;
            lib (modbus_free port) ;;
            ret (inl (-1))
        | Done _ =>
            out (Cout (MsgConnected port)) ;;
            ret (inr (port, port))
        end
    end.

(** Step 1 then step 2: the exit code [-1], or the port and the
    session context. *)
Definition open_session : prog W (Z + (string * ctx_t)) :=
  port <- find_sensor_port ;;
  establish_connection port.

(** *** [main], step 4: the data acquisition loop *)

(** The body of [while (true)].  [loop_count] is an [int]; it is kept
    unbounded here. *)
Definition sampling_cycle (ctx : ctx_t) (port : string) (s : loop_state)
  : prog W (cycle_end * loop_state) :=
  let s := {| loop_count := loop_count s + 1;
              hex_temp := hex_temp s; hex_raw_ec := hex_raw_ec s |} in
  r1 <- lib (modbus_read_registers ctx 60 2) ;;
  match r1 with
  | Failed =>
      out (Cerr MsgFailedTemperature) ;;
      lib (sleep 1) ;;
      ret (Continue, s)
  | Done regs1 =>
      let s := {| loop_count := loop_count s;
                  hex_temp := to_hex_string (reg regs1 0) (reg regs1 1);
                  hex_raw_ec := hex_raw_ec s |} in
      let temp := double_of_float
                    (Bits32.to_float (modbus_get_float_abcd (reg regs1 0, reg regs1 1))) in
      r2 <- lib (modbus_read_registers ctx 45 2) ;;
      match r2 with
      | Failed =>
          out (Cerr MsgFailedRawEc) ;;
          lib (sleep 1) ;;
          ret (Continue, s)
      | Done regs2 =>
          let s := {| loop_count := loop_count s;
                      hex_temp := hex_temp s;
                      hex_raw_ec := to_hex_string (reg regs2 0) (reg regs2 1) |} in
          let raw_ec := double_of_float
                          (Bits32.to_float (modbus_get_float_abcd (reg regs2 0, reg regs2 1))) in
          r3 <- lib (modbus_read_registers ctx 41 2) ;;
          match r3 with
          | Failed =>
              out (Cerr MsgFailedSensorEc) ;;
              lib (sleep 1) ;;
              ret (Continue, s)
          | Done regs3 =>
              let sensor_ec := double_of_float
                                 (Bits32.to_float (modbus_get_float_abcd (reg regs3 0, reg regs3 1))) in
              let smart_ec := calculate_smart_ec raw_ec temp in
              let k_used := get_dynamic_k temp in
              let deviation := B64.sub sensor_ec smart_ec in
              out (Display {| dash_temp := temp; dash_raw_ec := raw_ec;
                              dash_sensor_ec := sensor_ec; dash_smart_ec := smart_ec;
                              dash_k_used := k_used; dash_sample_count := loop_count s;
                              dash_port := port; dash_hex_temp := hex_temp s;
                              dash_hex_raw_ec := hex_raw_ec s |}) ;;
              now <- lib get_timestamp ;;
              out (Csv {| csv_timestamp := match now with Done t => t | Failed => [] end;
                          csv_temp := temp; csv_hex_temp := hex_temp s;
                          csv_raw_ec := raw_ec; csv_hex_raw_ec := hex_raw_ec s;
                          csv_sensor_ec := sensor_ec; csv_smart_ec := smart_ec;
                          csv_deviation := deviation |}) ;;
              lib (sleep 1) ;;
              ret (FallThrough, s)
          end
      end
  end.

(** [while (true) body], observed for [fuel] passes: [Some s] when the
    loop was left, [None] when it is still running. *)
Fixpoint while_true (fuel : nat) (body : loop_state -> prog W (cycle_end * loop_state))
         (s : loop_state) : prog W (option loop_state) :=
  match fuel with
  | O => ret None
  | S fuel' =>
      r <- body s ;;
      match fst r with
      | Break => ret (Some (snd r))
      | Continue | FallThrough => while_true fuel' body (snd r)
      end
  end.

Definition sampling_loop (fuel : nat) (ctx : ctx_t) (port : string)
  : prog W (option loop_state) :=
  while_true fuel (sampling_cycle ctx port)
             {| loop_count := 0; hex_temp := EmptyString; hex_raw_ec := EmptyString |}.

End Program.

(** ** Observations on traces *)

(** The register reads of a trace: context, address, count and answer. *)
Fixpoint reads (tr : trace) : list (ctx_t * Z * Z * reply) :=
  match tr with
  | [] => []
  | Lib (modbus_read_registers c a n) r :: tr' => (c, a, n, r) :: reads tr'
  | _ :: tr' => reads tr'
  end.

(** The register writes of a trace, single or multiple, with their
    answers. *)
Fixpoint writes (tr : trace) : list (call * reply) :=
  match tr with
  | [] => []
  | Lib (modbus_write_register c a v) r :: tr' =>
      (modbus_write_register c a v, r) :: writes tr'
  | Lib (modbus_write_registers c a n d) r :: tr' =>
      (modbus_write_registers c a n d, r) :: writes tr'
  | _ :: tr' => writes tr'
  end.

(** The records handed to the display and to the CSV file. *)
Fixpoint records (tr : trace) : list output :=
  match tr with
  | [] => []
  | Out (Display d) :: tr' => Display d :: records tr'
  | Out (Csv r) :: tr' => Csv r :: records tr'
  | _ :: tr' => records tr'
  end.

(** The warnings and errors written to [std::cerr]. *)
Fixpoint warnings (tr : trace) : list message :=
  match tr with
  | [] => []
  | Out (Cerr m) :: tr' => m :: warnings tr'
  | _ :: tr' => warnings tr'
  end.

(** The devices for which a context was requested, in order. *)
Fixpoint probed (tr : trace) : list string :=
  match tr with
  | [] => []
  | Lib (modbus_new_rtu d _ _ _ _) _ :: tr' => d :: probed tr'
  | _ :: tr' => probed tr'
  end.

(** The contexts whose handshake read succeeded, in order. *)
Fixpoint answered (tr : trace) : list ctx_t :=
  match tr with
  | [] => []
  | Lib (modbus_read_registers c _ _) (Done _) :: tr' => c :: answered tr'
  | _ :: tr' => answered tr'
  end.

(** Effect of an event on the number of open connections and on the
    number of live contexts. *)
Definition open_delta (e : event) : Z :=
  match e with
  | Lib (modbus_connect _) (Done _) => 1
  | Lib (modbus_close _) _ => -1
  | _ => 0
  end.

Definition live_delta (e : event) : Z :=
  match e with
  | Lib (modbus_new_rtu _ _ _ _ _) (Done _) => 1
  | Lib (modbus_free _) _ => -1
  | _ => 0
  end.

Definition count (delta : event -> Z) (tr : trace) : Z :=
  fold_left (fun n e => n + delta e) tr 0.

(** At every instant of the trace (after every prefix) the counter
    stays between 0 and 1. *)
Definition at_most_one (delta : event -> Z) (tr : trace) : Prop :=
  forall n : nat, 0 <= count delta (firstn n tr) <= 1.

(** The life cycle of the one connection slot: no context, a context
    that is not connected, a connected context.  [modbus_new_rtu] is
    only possible when no context exists, [modbus_connect] on an
    unconnected context, [modbus_close] on a connected one,
    [modbus_free] on an unconnected one, and register traffic on a
    connected one. *)
Inductive conn_state := Idle | Created | Connected.

Definition conn_step (s : conn_state) (e : event) : option conn_state :=
  match e with
  | Lib (modbus_new_rtu _ _ _ _ _) r =>
      match s, r with
      | Idle, Done _ => Some Created
      | Idle, Failed => Some Idle
      | _, _ => None
      end
  | Lib (modbus_set_slave _ _) _ | Lib (modbus_set_response_timeout _ _ _) _ =>
      match s with
      | Created => Some Created
      | _ => None
      end
  | Lib (modbus_connect _) r =>
      match s, r with
      | Created, Done _ => Some Connected
      | Created, Failed => Some Created
      | _, _ => None
      end
  | Lib (modbus_read_registers _ _ _) _
  | Lib (modbus_write_register _ _ _) _
  | Lib (modbus_write_registers _ _ _ _) _ =>
      match s with
      | Connected => Some Connected
      | _ => None
      end
  | Lib (modbus_close _) _ =>
      match s with
      | Connected => Some Created
      | _ => None
      end
  | Lib (modbus_free _) _ =>
      match s with
      | Created => Some Idle
      | _ => None
      end
  | _ => Some s
  end.

Fixpoint conn_run (s : conn_state) (tr : trace) : option conn_state :=
  match tr with
  | [] => Some s
  | e :: tr' =>
      match conn_step s e with
      | Some s' => conn_run s' tr'
      | None => None
      end
  end.

Definition open_in (s : conn_state) : Z :=
  match s with
  | Connected => 1
  | _ => 0
  end.

Definition live_in (s : conn_state) : Z :=
  match s with
  | Idle => 0
  | _ => 1
  end.

(** The last event of a trace is the [sleep(1)] call. *)
Definition ends_with_sleep (tr : trace) : Prop :=
  exists tr' r, tr = tr' ++ [Lib (sleep 1) r].

Definition read_failed (x : ctx_t * Z * Z * reply) : bool :=
  match snd x with
  | Failed => true
  | Done _ => false
  end.

(** What the design document asks of the events of one sampling cycle:
    either some read failed and no record was emitted, or the three
    reads succeeded and one dashboard and one CSV row were emitted;
    in both cases the pass ends with the wait. *)
Definition cycle_ok (ctx : ctx_t) (tr : trace) : Prop :=
  ends_with_sleep tr /\
  ((existsb read_failed (reads tr) = true /\ records tr = [])
   \/
   (existsb read_failed (reads tr) = false /\
    map (fun x => snd (fst x)) (reads tr) = [2; 2; 2] /\
    map (fun x => snd (fst (fst x))) (reads tr) = [60; 45; 41] /\
    exists d r, records tr = [Display d; Csv r])).

(** ** The lookup table and the candidate order as the design document
    words them (for comparison with the code) *)

(** "≤5→0.0180, ≤10→0.0184, ≤15→0.0190, ≤25→0.0190, ≤30→0.0192,
    else→0.0194", evaluated in order, first match wins. *)
Definition k_table : list (spec_float * spec_float) :=
  [ (Lit.d5_0, Lit.d0_0180); (Lit.d10_0, Lit.d0_0184); (Lit.d15_0, Lit.d0_0190);
    (Lit.d25_0, Lit.d0_0190); (Lit.d30_0, Lit.d0_0192) ].

Definition k_otherwise : spec_float := Lit.d0_0194.

Fixpoint first_match (table : list (spec_float * spec_float)) (otherwise temp : spec_float)
  : spec_float :=
  match table with
  | [] => otherwise
  | (threshold, k) :: rest =>
      if SFleb temp threshold then k else first_match rest otherwise temp
  end.

(** The coefficient values of the table. *)
Definition k_values : list spec_float := map snd k_table ++ [k_otherwise].

(** "one naming scheme's full numeric range, then a second naming
    scheme's range, repeated for any further scheme". *)
Definition scheme_range (scheme : string * nat) : list string :=
  map (fun i => (fst scheme ++ to_string i)%string) (seq 0 (snd scheme)).

Definition scheme_major (schemes : list (string * nat)) : list string :=
  flat_map scheme_range schemes.

Definition ttyS : string * nat := ("/dev/ttyS"%string, 21%nat).
Definition ttyUSB : string * nat := ("/dev/ttyUSB"%string, 5%nat).
Definition ttyACM : string * nat := ("/dev/ttyACM"%string, 5%nat).

(** ** Concrete environments *)

(** An environment without memory: the answer depends on the call
    only. *)
Definition stateless (answer : call -> reply) : unit -> call -> reply * unit :=
  fun w c => (answer c, w).

Definition mem (p : string) (l : list string) : bool :=
  existsb (String.eqb p) l.

(** Every device can be opened; exactly the devices of [present] answer
    the handshake read. *)
Definition bus_with (present : list string) (c : call) : reply :=
  match c with
  | modbus_read_registers ctx _ _ =>
      if mem ctx present then Done [0x41C8; 0] else Failed
  | _ => Done []
  end.

(** A device that accepts multi-register writes and rejects
    single-register writes; reads answer with zeros. *)
Definition rejects_single_write (c : call) : reply :=
  match c with
  | modbus_write_register _ _ _ => Failed
  | modbus_read_registers _ _ _ => Done [0; 0]
  | _ => Done []
  end.

(** A device whose registers keep what is written to them. *)
Definition regfile := list (Z * Z).

Fixpoint load (rf : regfile) (addr : Z) : Z :=
  match rf with
  | [] => 0
  | (a, v) :: rf' => if a =? addr then v else load rf' addr
  end.

Fixpoint store_words (rf : regfile) (addr : Z) (ws : list Z) : regfile :=
  match ws with
  | [] => rf
  | w :: ws' => store_words ((addr, u16 w) :: rf) (addr + 1) ws'
  end.

Definition storing_device (rf : regfile) (c : call) : reply * regfile :=
  match c with
  | modbus_write_register _ a v => (Done [], store_words rf a [v])
  | modbus_write_registers _ a _ d => (Done [], store_words rf a d)
  | modbus_read_registers _ a n =>
      (Done (map (fun i => load rf (a + Z.of_nat i)) (seq 0 (Z.to_nat n))), rf)
  | _ => (Done [], rf)
  end.

(** A device that accepts writes and never answers a read. *)
Definition mute_on_read (c : call) : reply :=
  match c with
  | modbus_read_registers _ _ _ => Failed
  | _ => Done []
  end.

(** A sensor at 25.0 degrees reporting 12.88 mS/cm on both EC
    registers. *)
Definition steady_sensor (c : call) : reply :=
  match c with
  | modbus_read_registers _ 60 _ => Done [0x41C8; 0x0000]
  | modbus_read_registers _ _ _ => Done [0x414E; 0x147B]
  | _ => Done []
  end.

(** The status of a reply as the [bool] the write helpers return. *)
Definition accepted (r : reply) : bool :=
  match r with
  | Failed => false
  | Done _ => true
  end.

(** An environment that answers the calls that return a status
    ([modbus_new_rtu], [modbus_connect], reads and writes) with the
    listed replies, one per call, and succeeds once the list is used
    up; the other calls always succeed. *)
Definition scripted (script : list reply) (c : call) : reply * list reply :=
  match c with
  | modbus_new_rtu _ _ _ _ _ | modbus_connect _
  | modbus_read_registers _ _ _
  | modbus_write_register _ _ _ | modbus_write_registers _ _ _ _ =>
      match script with
      | [] => (Done [], [])
      | r :: script' => (r, script')
      end
  | _ => (Done [], script)
  end.


(** ** Further functions of the logger *)

(** Reading a string of upper-case hexadecimal digits back as a number
    (what a reader of the log does with the hex columns). *)
Definition hex_digit_value (c : ascii) : option Z :=
  let n := Z.of_nat (nat_of_ascii c) in
  if (48 <=? n) && (n <=? 57) then Some (n - 48)
  else if (65 <=? n) && (n <=? 70) then Some (n - 55)
  else None.

Fixpoint hex_value_from (acc : Z) (s : string) : option Z :=
  match s with
  | EmptyString => Some acc
  | String c s' =>
      match hex_digit_value c with
      | Some d => hex_value_from (16 * acc + d) s'
      | None => None
      end
  end.

Definition hex_value (s : string) : option Z := hex_value_from 0 s.

(** *** Teacher mode: [get_temp_condition] *)

Definition get_temp_condition (temp : spec_float) : string :=
  if B64.leb temp Lit.d5_0 then "Very Cold Range (≤5°C)"%string
  else if B64.leb temp Lit.d10_0 then "Cold Range (5-10°C)"%string
  else if B64.leb temp Lit.d15_0 then "Cool Range (10-15°C)"%string
  else if B64.leb temp Lit.d25_0 then "Normal Range (15-25°C)"%string
  else "Warm Range (>25°C)"%string.

(** *** Teacher mode: the verdict of [display_teacher_dashboard]

    The figures the dashboard derives from the sensor's value and the
    recomputed one before printing. *)

Definition STANDARD_VALUE := S754_finite false 7250795400066499 (-49).
Definition TOLERANCE := S754_finite false 7205759403792794 (-56).
Definition d100_0 := S754_finite false 7036874417766400 (-46).
Definition d0_0 := S754_zero false.

(** The three lines the improvement score can end with. *)
Inductive verdict := SmartIsBetter | SensorIsBetter | NoDifference.

Record validation := {
  sensor_error : spec_float;
  smart_error : spec_float;
  improvement : spec_float;
  sensor_pass : bool;
  smart_pass : bool;
  judged : verdict;
  improvement_percent : spec_float
}.

Definition validate (sensor_ec smart_ec : spec_float) : validation :=
  let sensor_error := SFabs (B64.sub sensor_ec STANDARD_VALUE) in
  let smart_error := SFabs (B64.sub smart_ec STANDARD_VALUE) in
  let improvement := B64.sub sensor_error smart_error in
  {| sensor_error := sensor_error;
     smart_error := smart_error;
     improvement := improvement;
     sensor_pass := B64.leb sensor_error TOLERANCE;
     smart_pass := B64.leb smart_error TOLERANCE;
     judged := if B64.ltb d0_0 improvement then SmartIsBetter
               else if B64.ltb improvement d0_0 then SensorIsBetter
               else NoDifference;
     improvement_percent :=
       if B64.ltb d0_0 sensor_error
       then B64.mul (B64.div improvement sensor_error) d100_0
       else d0_0 |}.

(** A float that is a number: neither NaN nor an infinity. *)
Definition is_number (x : spec_float) : bool :=
  match x with
  | S754_zero _ | S754_finite _ _ _ => true
  | S754_infinity _ | S754_nan => false
  end.

(** A read that is the discovery handshake on one of [ports]: two
    registers from address 60. *)
Definition handshake_on (ports : list string) (x : ctx_t * Z * Z * reply) : Prop :=
  let '(c, a, n, _) := x in In c ports /\ a = 60 /\ n = 2.

(** A read of the sampling loop on [ctx]: two registers from address
    60, 45 or 41. *)
Definition sample_read (ctx : ctx_t) (x : ctx_t * Z * Z * reply) : Prop :=
  let '(c, a, n, _) := x in c = ctx /\ (a = 60 \/ a = 45 \/ a = 41) /\ n = 2.

(** ** The console, the terminal and the log file

    The interactive parts of the program make calls of their own, to
    the terminal, to [std::cin] and to the file system; they are
    answered by a second handler of the environment.  Their events
    wrap those of the register layer. *)

Inductive sys_call :=
| tcgetattr
| tcsetattr (raw : bool)
| read_stdin
| cin_int
| clear_screen
| access_csv
| open_csv
| close_csv.

Inductive note :=
| NoteDiagStart
| NoteDiagScreen (loop_count : Z) (now : reply)
| NoteRegister (addr : Z) (value : option Z)
| NoteRegisterFloat (addr : Z) (value : option (Z * string))
| NoteDiagFooter
| NoteDiagStopped
| NoteUsingMode (mode : Z)
| NoteInvalidMode (mode : Z)
| NoteUsage
| NoteMenu
| NoteInvalidChoice
| NoteCalibrationFailed
| NoteCsvHeader.

Inductive xevent :=
| Core (e : event)
| Sys (c : sys_call) (r : reply)
| Note (n : note).

Definition xprog (W A : Type) : Type := W -> A * W * list xevent.

Definition xret {W A : Type} (a : A) : xprog W A := fun w => (a, w, []).

Definition xbind {W A B : Type} (m : xprog W A) (k : A -> xprog W B) : xprog W B :=
  fun w =>
    let '(a, w1, t1) := m w in
    let '(b, w2, t2) := k a w1 in
    (b, w2, t1 ++ t2).

(** A program of the register layer run inside the outer layer. *)
Definition core {W A : Type} (p : prog W A) : xprog W A :=
  fun w => let '(a, w', t) := p w in (a, w', map Core t).

Definition xresult {W A : Type} (r : A * W * list xevent) : A := fst (fst r).
Definition xfinal {W A : Type} (r : A * W * list xevent) : W := snd (fst r).
Definition xevents {W A : Type} (r : A * W * list xevent) : list xevent := snd r.

(** The register-layer events of an outer trace. *)
Fixpoint core_events (tr : list xevent) : trace :=
  match tr with
  | [] => []
  | Core e :: tr' => e :: core_events tr'
  | _ :: tr' => core_events tr'
  end.

(** The terminal and console calls of an outer trace. *)
Fixpoint sys_events (tr : list xevent) : list (sys_call * reply) :=
  match tr with
  | [] => []
  | Sys c r :: tr' => (c, r) :: sys_events tr'
  | _ :: tr' => sys_events tr'
  end.

Fixpoint notes (tr : list xevent) : list note :=
  match tr with
  | [] => []
  | Note n :: tr' => n :: notes tr'
  | _ :: tr' => notes tr'
  end.

(** The result of choosing a calibration mode: a mode, or the end of
    the process by [exit]. *)
Inductive selection :=
| Selected (mode : CalibrationMode)
| Exit (code : Z).

(** [static_cast<CalibrationMode>] on a value between 0 and 3. *)
Definition mode_of_int (n : Z) : CalibrationMode :=
  match n with
  | 1 => CAL_MODE_1
  | 2 => CAL_MODE_2
  | 3 => CAL_MODE_3
  | _ => CAL_MODE_NONE
  end.

(** The key that ends the diagnostic monitor: Enter, Return or Space. *)
Definition stop_key (r : reply) : bool :=
  match r with
  | Done (c :: _) => (c =? 10) || (c =? 13) || (c =? 32)
  | _ => false
  end.

Definition is_flag (arg : string) : bool :=
  String.eqb arg "--mode" || String.eqb arg "--help" || String.eqb arg "-h".

(** The targets of the register reads of a trace, without the
    answers. *)
Definition read_targets (tr : trace) : list (ctx_t * Z * Z) := map fst (reads tr).

(** The five reads of one pass of the diagnostic monitor. *)
Definition diagnostic_reads (ctx : ctx_t) : list (ctx_t * Z * Z) :=
  [(ctx, 1, 1); (ctx, 2, 1); (ctx, 16, 1); (ctx, 13, 1); (ctx, 28, 2)].

(** The answers to the key polls of a trace, and its terminal-mode
    calls. *)
Fixpoint key_polls (tr : list xevent) : list reply :=
  match tr with
  | [] => []
  | Sys read_stdin r :: tr' => r :: key_polls tr'
  | _ :: tr' => key_polls tr'
  end.

Fixpoint terminal_calls (tr : list xevent) : list sys_call :=
  match tr with
  | [] => []
  | Sys tcgetattr _ :: tr' => tcgetattr :: terminal_calls tr'
  | Sys (tcsetattr raw) _ :: tr' => tcsetattr raw :: terminal_calls tr'
  | _ :: tr' => terminal_calls tr'
  end.

(** The CSV rows of an outer trace that come before the header is
    written. *)
Fixpoint rows_before_header (tr : list xevent) : list csv_row :=
  match tr with
  | [] => []
  | Note NoteCsvHeader :: _ => []
  | Core (Out (Csv r)) :: tr' => r :: rows_before_header tr'
  | _ :: tr' => rows_before_header tr'
  end.

(** Events that belong to the start-up of the session: everything but
    the calibration warning, the log file calls and the header. *)
Definition early (e : xevent) : bool :=
  match e with
  | Note NoteCalibrationFailed | Note NoteCsvHeader => false
  | Sys access_csv _ | Sys open_csv _ | Sys close_csv _ => false
  | _ => true
  end.

(** Events other than the header and the answer "no such file". *)
Definition header_free (e : xevent) : bool :=
  match e with
  | Note NoteCsvHeader | Sys access_csv Failed => false
  | _ => true
  end.

Definition is_calibration_warning (e : xevent) : bool :=
  match e with
  | Note NoteCalibrationFailed => true
  | _ => false
  end.

Definition is_help (arg : string) : Prop :=
  arg = "--help"%string \/ arg = "-h"%string.

(** The writes the calibration sequence can issue on [ctx], given the
    encoder. *)
Definition calibration_write (set_float : Z -> Z * Z) (c : call) : Prop :=
  exists ctx,
    c = modbus_write_register ctx 13 2 \/
    c = modbus_write_register ctx 13 3 \/
    c = modbus_write_register ctx 16 190 \/
    c = modbus_write_registers ctx 28 2
          [fst (set_float CALIBRATION_COEFF_VALUE); snd (set_float CALIBRATION_COEFF_VALUE)].

Section Console.
Context {W : Type}.
Variable respond : W -> call -> reply * W.
(** The answers of the terminal, of [std::cin] and of the file
    system. *)
Variable sys : W -> sys_call -> reply * W.
Variable modbus_set_float_abcd : Z -> Z * Z.
(** The C library's [atoi]. *)
Variable atoi : string -> Z.

Declare Scope xprog_scope.
Notation "x <- m ;; k" := (xbind m (fun x => k))
  (at level 61, m at next level, right associativity) : xprog_scope.
Notation "m ;; k" := (xbind m (fun _ => k))
  (at level 61, right associativity) : xprog_scope.
Local Open Scope xprog_scope.

Definition syscall (c : sys_call) : xprog W reply :=
  fun w => let '(r, w') := sys w c in (r, w', [Sys c r]).

Definition say (n : note) : xprog W unit :=
  fun w => (tt, w, [Note n]).

Definition bus (c : call) : xprog W reply := core (lib respond c).

(** *** [get_calibration_mode] *)

(** The loop over [argv[1]] to [argv[argc - 1]]: [Some] when the
    function returned or the process exited inside the loop. *)
Fixpoint scan_args (args : list string) : xprog W (option selection) :=
  match args with
  | [] => xret None
  | arg :: rest =>
      found <-
        (if String.eqb arg "--mode" then
           match rest with
           | next :: _ =>
               let mode := atoi next in
               if (0 <=? mode) && (mode <=? 3) then
                 say (NoteUsingMode mode) ;;
                 xret (Some (Selected (mode_of_int mode)))
               else
                 say (NoteInvalidMode mode) ;;
                 xret None
           | [] => xret None
           end
         else xret None) ;;
      match found with
      | Some sel => xret (Some sel)
      | None =>
          if String.eqb arg "--help" || String.eqb arg "-h" then
            say NoteUsage ;;
            xret (Some (Exit 0))
          else scan_args rest
      end
  end.

(** [std::cin >> choice]: the answer of the environment is the value
    [choice] holds afterwards (the number typed; 0 when what was typed
    is no number, C++11); an answer without a value is taken as 0. *)
Definition get_calibration_mode (argv : list string) : xprog W selection :=
  found <- scan_args (tl argv) ;;
  match found with
  | Some sel => xret sel
  | None =>
      say NoteMenu ;;
      answer <- syscall cin_int ;;
      let choice := match answer with
                    | Done (n :: _) => n
                    | _ => 0
                    end in
      if (0 <=? choice) && (choice <=? 3) then
        xret (Selected (mode_of_int choice))
      else
        say NoteInvalidChoice ;;
        xret (Selected CAL_MODE_NONE)
  end.

(** *** [display_sensor_diagnostics] *)

(** One register line of the monitor, integer or float. *)
Definition show_register (ctx : ctx_t) (addr : Z) : xprog W unit :=
  r <- bus (modbus_read_registers ctx addr 1) ;;
  say (NoteRegister addr match r with
                         | Done regs => Some (reg regs 0)
                         | Failed => None
                         end).

Definition show_float_register (ctx : ctx_t) (addr : Z) : xprog W unit :=
  r <- bus (modbus_read_registers ctx addr 2) ;;
  say (NoteRegisterFloat addr
         match r with
         | Done regs =>
             Some (modbus_get_float_abcd (reg regs 0, reg regs 1),
                   to_hex_string (reg regs 0) (reg regs 1))
         | Failed => None
         end).

(** One pass of the monitor; [loop_count] is the value after the
    increment. *)
Definition diagnostics_pass (ctx : ctx_t) (loop_count : Z) : xprog W cycle_end :=
  syscall clear_screen ;;
  now <- bus get_timestamp ;;
  say (NoteDiagScreen loop_count now) ;;
  show_register ctx 1 ;;
  show_register ctx 2 ;;
  show_register ctx 16 ;;
  show_register ctx 13 ;;
  show_float_register ctx 28 ;;
  say NoteDiagFooter ;;
  key <- syscall read_stdin ;;
  if stop_key key then xret Break
  else
    bus (sleep 1) ;;
    xret FallThrough.

(** The monitor loop observed for [fuel] passes: [true] when it was
    left by a key, [false] when it is still running. *)
Fixpoint monitor (fuel : nat) (ctx : ctx_t) (loop_count : Z) : xprog W bool :=
  match fuel with
  | O => xret false
  | S fuel' =>
      let loop_count := loop_count + 1 in
      e <- diagnostics_pass ctx loop_count ;;
      match e with
      | Break => xret true
      | Continue | FallThrough => monitor fuel' ctx loop_count
      end
  end.

Definition display_sensor_diagnostics (fuel : nat) (ctx : ctx_t) : xprog W bool :=
  say NoteDiagStart ;;
  bus (sleep 2) ;;
  syscall tcgetattr ;;
  syscall (tcsetattr true) ;;
  left <- monitor fuel ctx 0 ;;
  if left : bool then
    syscall (tcsetattr false) ;;
    say NoteDiagStopped ;;
    xret true
  else xret false.

(** *** [main]

    [Some code] when the process ended with that code, [None] when it
    is still running after the observed number of passes of the
    monitor and of the sampling loop. *)

(** Steps 2.5 to 4, with the session context open. *)
Definition run_session (fuel_diag fuel_loop : nat) (argv : list string)
           (port : string) (ctx : ctx_t) : xprog W (option Z) :=
  left <- display_sensor_diagnostics fuel_diag ctx ;;
  if left : bool then
    sel <- get_calibration_mode argv ;;
    match sel with
    | Exit code => xret (Some code)
    | Selected cal_mode =>
        ok <- core (execute_calibration respond modbus_set_float_abcd ctx cal_mode) ;;
        (if ok : bool then xret tt else say NoteCalibrationFailed) ;;
        bus (sleep 1) ;;
        file_exists <- syscall access_csv ;;
        syscall open_csv ;;
        (match file_exists with
         | Failed => say NoteCsvHeader
         | Done _ => xret tt
         end) ;;
        left_loop <- core (sampling_loop respond fuel_loop ctx port) ;;
        match left_loop with
        | Some _ =>
            syscall close_csv ;;
            bus (modbus_close ctx) ;;
            bus (modbus_free ctx) ;;
            xret (Some 0)
        | None => xret None
        end
    end
  else xret None.

Definition main_after (session : prog W (Z + (string * ctx_t)))
           (fuel_diag fuel_loop : nat) (argv : list string) : xprog W (option Z) :=
  s <- core session ;;
  match s with
  | inl code => xret (Some code)
  | inr (port, ctx) => run_session fuel_diag fuel_loop argv port ctx
  end.

Definition main (fuel_diag fuel_loop : nat) (argv : list string) : xprog W (option Z) :=
  main_after (open_session respond) fuel_diag fuel_loop argv.

End Console.

(** ** Concrete consoles *)

(** An environment whose register side has no memory, over any state. *)
Definition constant {W : Type} (answer : call -> reply) : W -> call -> reply * W :=
  fun w c => (answer c, w).

(** A console whose state is the keys still to come: each poll takes
    the next one (none when the list is used up); [std::cin] yields
    [cin] and the log file test yields [file]. *)
Definition console (cin file : reply) (keys : list reply) (c : sys_call)
  : reply * list reply :=
  match c with
  | read_stdin =>
      match keys with
      | [] => (Failed, [])
      | k :: keys' => (k, keys')
      end
  | cin_int => (cin, keys)
  | access_csv => (file, keys)
  | _ => (Done [], keys)
  end.

(** [atoi] on words of decimal digits: the digits up to the first other
    character. *)
Fixpoint atoi_from (acc : Z) (s : string) : Z :=
  match s with
  | EmptyString => acc
  | String c s' =>
      let n := Z.of_nat (nat_of_ascii c) in
      if (48 <=? n) && (n <=? 57) then atoi_from (10 * acc + (n - 48)) s' else acc
  end.

Definition atoi_digits (s : string) : Z := atoi_from 0 s.

(** A sensor on [/dev/ttyS0] that answers every read and rejects every
    write. *)
Definition read_only_sensor (c : call) : reply :=
  match c with
  | modbus_write_register _ _ _ | modbus_write_registers _ _ _ _ => Failed
  | _ => bus_with ["/dev/ttyS0"%string] c
  end.

(** ** The connection slot, context by context

    The life cycle of the one connection slot with the context named:
    a context can be requested only while none exists; it is
    configured, connected and freed under its own name; registers are
    read and written, and the connection closed, on the context that is
    connected.  A call that names another context is outside the life
    cycle. *)

Inductive slot :=
| Free
| Made (ctx : ctx_t)
| Open (ctx : ctx_t).

Definition slot_step (s : slot) (e : event) : option slot :=
  match e with
  | Lib (modbus_new_rtu d _ _ _ _) r =>
      match s, r with
      | Free, Done _ => Some (Made d)
      | Free, Failed => Some Free
      | _, _ => None
      end
  | Lib (modbus_set_slave c _) _ | Lib (modbus_set_response_timeout c _ _) _ =>
      match s with
      | Made c' => if String.eqb c c' then Some (Made c') else None
      | _ => None
      end
  | Lib (modbus_connect c) r =>
      match s with
      | Made c' =>
          if String.eqb c c' then
            Some match r with
                 | Done _ => Open c'
                 | Failed => Made c'
                 end
          else None
      | _ => None
      end
  | Lib (modbus_read_registers c _ _) _
  | Lib (modbus_write_register c _ _) _
  | Lib (modbus_write_registers c _ _ _) _ =>
      match s with
      | Open c' => if String.eqb c c' then Some (Open c') else None
      | _ => None
      end
  | Lib (modbus_close c) _ =>
      match s with
      | Open c' => if String.eqb c c' then Some (Made c') else None
      | _ => None
      end
  | Lib (modbus_free c) _ =>
      match s with
      | Made c' => if String.eqb c c' then Some Free else None
      | _ => None
      end
  | _ => Some s
  end.

Fixpoint slot_run (s : slot) (tr : trace) : option slot :=
  match tr with
  | [] => Some s
  | e :: tr' =>
      match slot_step s e with
      | Some s' => slot_run s' tr'
      | None => None
      end
  end.

(** The connections that are open, and the contexts that are live,
    after a trace.  A successful [modbus_connect] opens the connection
    of its context and [modbus_close] closes the connection of its
    context and of no other; a successful [modbus_new_rtu] makes a
    context and [modbus_free] frees the one it names. *)
Fixpoint remove_first (c : ctx_t) (l : list ctx_t) : list ctx_t :=
  match l with
  | [] => []
  | x :: l' => if String.eqb c x then l' else x :: remove_first c l'
  end.

Definition open_step (opened : list ctx_t) (e : event) : list ctx_t :=
  match e with
  | Lib (modbus_connect c) (Done _) => c :: opened
  | Lib (modbus_close c) _ => remove_first c opened
  | _ => opened
  end.

Definition live_step (live : list ctx_t) (e : event) : list ctx_t :=
  match e with
  | Lib (modbus_new_rtu d _ _ _ _) (Done _) => d :: live
  | Lib (modbus_free c) _ => remove_first c live
  | _ => live
  end.

Definition open_after (tr : trace) : list ctx_t := fold_left open_step tr [].
Definition live_after (tr : trace) : list ctx_t := fold_left live_step tr [].

Definition open_of (s : slot) : list ctx_t :=
  match s with
  | Open c => [c]
  | _ => []
  end.

Definition live_of (s : slot) : list ctx_t :=
  match s with
  | Free => []
  | Made c | Open c => [c]
  end.

(** Events that use the session context [ctx] and nothing else:
    register traffic on [ctx], waits, the clock and output. *)
Definition session_traffic (ctx : ctx_t) (e : event) : bool :=
  match e with
  | Lib (modbus_read_registers c _ _) _
  | Lib (modbus_write_register c _ _) _
  | Lib (modbus_write_registers c _ _ _) _ => String.eqb c ctx
  | Lib (usleep _) _ | Lib (sleep _) _ | Lib get_timestamp _ => true
  | Lib _ _ => false
  | Out _ => true
  end.

(** ** The probe of one candidate

    The events of the probe of [port], by its outcome: no context; a
    context that does not connect, freed; a connection whose handshake
    read of two registers at 60 fails, closed and freed; a connection
    whose handshake read succeeds, announced, closed and freed.  The
    flag tells whether the handshake was answered. *)
Inductive is_probe (port : string) : bool -> trace -> Prop :=
| probe_no_context :
    is_probe port false [Lib (modbus_new_rtu port 9600 "N" 8 1) Failed]
| probe_no_connection (d : list Z) (r1 r2 r3 : reply) :
    is_probe port false
      [Lib (modbus_new_rtu port 9600 "N" 8 1) (Done d);
       Lib (modbus_set_slave port 4) r1;
       Lib (modbus_set_response_timeout port 0 100000) r2;
       Lib (modbus_connect port) Failed;
       Lib (modbus_free port) r3]
| probe_no_answer (d c : list Z) (r1 r2 r3 r4 : reply) :
    is_probe port false
      [Lib (modbus_new_rtu port 9600 "N" 8 1) (Done d);
       Lib (modbus_set_slave port 4) r1;
       Lib (modbus_set_response_timeout port 0 100000) r2;
       Lib (modbus_connect port) (Done c);
       Lib (modbus_read_registers port 60 2) Failed;
       Lib (modbus_close port) r3;
       Lib (modbus_free port) r4]
| probe_answer (d c regs : list Z) (r1 r2 r3 r4 : reply) :
    is_probe port true
      [Lib (modbus_new_rtu port 9600 "N" 8 1) (Done d);
       Lib (modbus_set_slave port 4) r1;
       Lib (modbus_set_response_timeout port 0 100000) r2;
       Lib (modbus_connect port) (Done c);
       Lib (modbus_read_registers port 60 2) (Done regs);
       Out (Cout (MsgFoundSensor port));
       Lib (modbus_close port) r3;
       Lib (modbus_free port) r4].

(** A candidate that an environment without memory lets through: its
    context is made, it connects and the handshake read is answered. *)
Definition responds (answer : call -> reply) (port : string) : bool :=
  accepted (answer (modbus_new_rtu port 9600 "N" 8 1)) &&
  accepted (answer (modbus_connect port)) &&
  accepted (answer (modbus_read_registers port 60 2)).
(** * Properties *)

(** ** The compensation engine *)

(** The literals are the doubles nearest to the decimal numbers they
    are written as: each is the correctly rounded quotient of two
    integers. *)
Lemma literals_nearest :
  Lit.d1_0 = B64.of_Z 1 /\ Lit.d5_0 = B64.of_Z 5 /\ Lit.d10_0 = B64.of_Z 10 /\
  Lit.d15_0 = B64.of_Z 15 /\ Lit.d25_0 = B64.of_Z 25 /\ Lit.d30_0 = B64.of_Z 30 /\
  Lit.d12_0 = B64.of_Z 12 /\ Lit.d13_0 = B64.of_Z 13 /\ Lit.dm100_0 = B64.of_Z (-100) /\
  Lit.d0_0180 = B64.div (B64.of_Z 180) (B64.of_Z 10000) /\
  Lit.d0_0184 = B64.div (B64.of_Z 184) (B64.of_Z 10000) /\
  Lit.d0_0190 = B64.div (B64.of_Z 190) (B64.of_Z 10000) /\
  Lit.d0_0192 = B64.div (B64.of_Z 192) (B64.of_Z 10000) /\
  Lit.d0_0194 = B64.div (B64.of_Z 194) (B64.of_Z 10000) /\
  Lit.d5_01 = B64.div (B64.of_Z 501) (B64.of_Z 100) /\
  Lit.d25_01 = B64.div (B64.of_Z 2501) (B64.of_Z 100).
Proof. repeat split; vm_compute; reflexivity. Qed.

Lemma literals_valid :
  forallb B64.valid
    [Lit.d1_0; Lit.d5_0; Lit.d10_0; Lit.d15_0; Lit.d25_0; Lit.d30_0; Lit.d0_0180;
     Lit.d0_0184; Lit.d0_0190; Lit.d0_0192; Lit.d0_0194; Lit.d12_0; Lit.d13_0;
     Lit.d5_01; Lit.d25_01; Lit.dm100_0; Lit.zero_denominator_temp] = true.
Proof. vm_compute; reflexivity. Qed.

(** [<=] on floats is transitive (no NaN can occur on either side of a
    comparison that holds). *)
Lemma SFleb_trans (a b c : spec_float) :
  SFleb a b = true -> SFleb b c = true -> SFleb a c = true.
Proof.
  unfold SFleb, SFcompare.
  destruct a as [sa|sa| |sa ma ea], b as [sb|sb| |sb mb eb], c as [sc|sc| |sc mc ec];
    try destruct sa; try destruct sb; try destruct sc; simpl;
    try congruence; try reflexivity.
  all: change (Pos.compare_cont Eq) with Pos.compare.
  all: destruct (Z.compare_spec ea eb), (Z.compare_spec eb ec), (Z.compare_spec ea ec);
    try congruence; try lia; subst.
  all: destruct (Pos.compare_spec ma mb), (Pos.compare_spec mb mc), (Pos.compare_spec ma mc);
    simpl; try congruence; try lia.
Qed.

(** A temperature above a threshold stays above it when it grows. *)
Lemma above_threshold (t1 t2 c : spec_float) :
  SFleb t1 t2 = true -> SFleb t1 c = false -> SFleb t2 c = false.
Proof.
  intros H12 H1c.
  destruct (SFleb t2 c) eqn:H2c; [|reflexivity].
  rewrite (SFleb_trans _ _ _ H12 H2c) in H1c; discriminate.
Qed.

Lemma get_dynamic_k_monotone (t1 t2 : spec_float) :
  B64.leb t1 t2 = true ->
  B64.leb (get_dynamic_k t1) (get_dynamic_k t2) = true.
Proof.
  unfold get_dynamic_k; unfold B64.leb; intros H.
  repeat match goal with
         | |- context [SFleb t1 ?c] =>
             let E := fresh "E" in
             destruct (SFleb t1 c) eqn:E; [|rewrite (above_threshold _ _ _ H E)]
         end.
  all: repeat match goal with
         | |- context [if ?b then _ else _] => destruct b
         end; reflexivity.
Qed.

(** C6. For every temperature [get_dynamic_k] is the first-match lookup
    in the table ≤5→0.0180, ≤10→0.0184, ≤15→0.0190, ≤25→0.0190,
    ≤30→0.0192, else 0.0194; it is non-decreasing in the temperature;
    and it takes the four stated values at 5.0, 5.01, 25.0 and 25.01. *)
Theorem get_dynamic_k_lookup :
  (forall temp, get_dynamic_k temp = first_match k_table k_otherwise temp) /\
  (forall t1 t2, B64.leb t1 t2 = true ->
                 B64.leb (get_dynamic_k t1) (get_dynamic_k t2) = true) /\
  get_dynamic_k Lit.d5_0 = Lit.d0_0180 /\
  get_dynamic_k Lit.d5_01 = Lit.d0_0184 /\
  get_dynamic_k Lit.d25_0 = Lit.d0_0190 /\
  get_dynamic_k Lit.d25_01 = Lit.d0_0192.
Proof.
  split; [intros temp; reflexivity|].
  split; [exact get_dynamic_k_monotone|].
  repeat split; reflexivity.
Qed.

Lemma get_dynamic_k_lookup_witness :
  B64.leb Lit.d5_01 Lit.d25_01 = true /\
  B64.leb (get_dynamic_k Lit.d5_01) (get_dynamic_k Lit.d25_01) = true.
Proof.
  split; [reflexivity|].
  apply (proj1 (proj2 get_dynamic_k_lookup)); reflexivity.
Defined.

(** Not-a-number takes the last branch. *)
Example get_dynamic_k_nan : get_dynamic_k S754_nan = Lit.d0_0194.
Proof. reflexivity. Qed.

(** The worked example of the design document:
    13.0 / (1 + 0.0184 * (10 - 25)) = 17.955801104972377. *)
Example calculate_smart_ec_worked :
  calculate_smart_ec Lit.d13_0 Lit.d10_0 = S754_finite false 5054108697843271 (-48).
Proof. vm_compute; reflexivity. Qed.

(** Division by a zero denominator, as [SFdiv] defines it. *)
Lemma div_by_zero (raw : spec_float) (s : bool) :
  B64.div raw (S754_zero s) =
  match raw with
  | S754_nan | S754_zero _ => S754_nan
  | S754_infinity sr | S754_finite sr _ _ => S754_infinity (xorb sr s)
  end.
Proof. destruct raw; reflexivity. Qed.

(** C2, as the code has it.  [calculate_smart_ec] always returns the
    quotient of the raw value by [1 + k*(temp - 25)] and never signals
    an error; with a zero denominator the value returned is an infinity,
    or NaN when the raw value is zero or NaN. *)
Theorem calculate_smart_ec_unguarded (raw_ec temp : spec_float) :
  call_calculate_smart_ec raw_ec temp =
    Returns (B64.div raw_ec
               (B64.add Lit.d1_0
                  (B64.mul (get_dynamic_k temp) (B64.sub temp Lit.d25_0)))) /\
  (forall s, denominator_with (get_dynamic_k temp) temp = S754_zero s ->
     call_calculate_smart_ec raw_ec temp =
       Returns match raw_ec with
               | S754_nan | S754_zero _ => S754_nan
               | S754_infinity sr | S754_finite sr _ _ => S754_infinity (xorb sr s)
               end).
Proof.
  split; [reflexivity|].
  intros s Hs. unfold call_calculate_smart_ec, calculate_smart_ec.
  rewrite Hs, div_by_zero. reflexivity.
Qed.

Lemma calculate_smart_ec_unguarded_witness :
  denominator_with (get_dynamic_k Lit.zero_denominator_temp) Lit.zero_denominator_temp
    = S754_zero false /\
  call_calculate_smart_ec Lit.d12_0 Lit.zero_denominator_temp
    = Returns (S754_infinity false).
Proof.
  split; [vm_compute; reflexivity|].
  apply (proj2 (calculate_smart_ec_unguarded Lit.d12_0 Lit.zero_denominator_temp) false).
  vm_compute; reflexivity.
Defined.

(** C2, as stated, fails: at -30.55555555555556 degrees the denominator
    is zero and the call returns +infinity; at -100 degrees the
    denominator is -1.25 and the call returns -9.6.  Neither call
    signals [DomainError]. *)
Lemma calculate_smart_ec_no_domain_error :
  (B64.leb (denominator_with (get_dynamic_k Lit.zero_denominator_temp)
                             Lit.zero_denominator_temp) (S754_zero false) = true /\
   call_calculate_smart_ec Lit.d12_0 Lit.zero_denominator_temp
     = Returns (S754_infinity false) /\
   call_calculate_smart_ec Lit.d12_0 Lit.zero_denominator_temp <> Signals DomainError) /\
  (B64.leb (denominator_with (get_dynamic_k Lit.dm100_0) Lit.dm100_0)
           (S754_zero false) = true /\
   call_calculate_smart_ec Lit.d12_0 Lit.dm100_0
     = Returns (S754_finite true 5404319552844595 (-49)) /\
   call_calculate_smart_ec Lit.d12_0 Lit.dm100_0 <> Signals DomainError).
Proof.
  repeat split; try (vm_compute; reflexivity); discriminate.
Qed.

(** At the reference temperature the denominator is exactly 1 for every
    finite coefficient. *)
Lemma denominator_at_reference (s : bool) (m : positive) (e : Z) :
  denominator_with (S754_finite s m e) Lit.d25_0 = Lit.d1_0.
Proof. destruct s; reflexivity. Qed.

(** C9. [calculate_smart_ec 12.0 25.0 = 12.0]; and for every coefficient
    of the table the denominator at 25.0 is exactly 1 and the quotient
    of 12.0 by it is 12.0. *)
Theorem reference_point_identity :
  calculate_smart_ec Lit.d12_0 Lit.d25_0 = Lit.d12_0 /\
  forall k, In k k_values ->
    denominator_with k Lit.d25_0 = Lit.d1_0 /\
    B64.div Lit.d12_0 (denominator_with k Lit.d25_0) = Lit.d12_0.
Proof.
  split; [vm_compute; reflexivity|].
  intros k Hk.
  assert (Hd : denominator_with k Lit.d25_0 = Lit.d1_0).
  { simpl in Hk.
    repeat (destruct Hk as [Hk|Hk]; [subst k; apply denominator_at_reference|]).
    contradiction. }
  split; [exact Hd|].
  rewrite Hd. vm_compute; reflexivity.
Qed.

Lemma reference_point_identity_witness :
  In Lit.d0_0190 k_values /\
  denominator_with Lit.d0_0190 Lit.d25_0 = Lit.d1_0 /\
  B64.div Lit.d12_0 (denominator_with Lit.d0_0190 Lit.d25_0) = Lit.d12_0.
Proof.
  assert (H : In Lit.d0_0190 k_values) by (simpl; auto).
  split; [exact H|].
  exact (proj2 reference_point_identity Lit.d0_0190 H).
Defined.

(** ** The float register codec *)

Lemma u16_testbit (z : Z) (n : Z) :
  0 <= n -> Z.testbit (u16 z) n = Z.testbit z n && (n <? 16).
Proof.
  intros Hn. unfold u16. change 65535 with (Z.ones 16).
  rewrite Z.land_spec, Z.testbit_ones_nonneg by lia. reflexivity.
Qed.

Lemma u32_testbit (z : Z) (n : Z) :
  0 <= n -> Z.testbit (u32 z) n = Z.testbit z n && (n <? 32).
Proof.
  intros Hn. unfold u32. change 4294967295 with (Z.ones 32).
  rewrite Z.land_spec, Z.testbit_ones_nonneg by lia. reflexivity.
Qed.

(** Bits at and beyond position [k] of a number below [2^k] are clear. *)
Lemma testbit_above (z k n : Z) :
  0 <= z < 2 ^ k -> 0 <= k <= n -> Z.testbit z n = false.
Proof.
  intros Hz Hk.
  destruct (Z.eq_dec z 0) as [->|Hnz]; [apply Z.bits_0|].
  apply Z.bits_above_log2; [lia|].
  apply Z.lt_le_trans with k; [|lia].
  apply Z.log2_lt_pow2; lia.
Qed.

Lemma u16_range (z : Z) : is_u16 (u16 z).
Proof.
  unfold is_u16, u16. change 65535 with (Z.ones 16).
  rewrite Z.land_ones by lia. apply Z.mod_pos_bound. lia.
Qed.

Lemma u32_range (z : Z) : is_u32 (u32 z).
Proof.
  unfold is_u32, u32. change 4294967295 with (Z.ones 32).
  rewrite Z.land_ones by lia. apply Z.mod_pos_bound. lia.
Qed.

Lemma u16_id (z : Z) : is_u16 z -> u16 z = z.
Proof.
  unfold is_u16, u16; intros H. change 65535 with (Z.ones 16).
  rewrite Z.land_ones by lia. apply Z.mod_small. lia.
Qed.

Lemma u32_id (z : Z) : is_u32 z -> u32 z = z.
Proof.
  unfold is_u32, u32; intros H. change 4294967295 with (Z.ones 32).
  rewrite Z.land_ones by lia. apply Z.mod_small. lia.
Qed.

(** The decoder puts [src[0]] in the high half and [src[1]] in the low
    half of the pattern. *)
Lemma modbus_get_float_abcd_bits (w0 w1 : Z) (n : Z) :
  0 <= n ->
  Z.testbit (modbus_get_float_abcd (w0, w1)) n =
  if n <? 16 then Z.testbit w1 n
  else if n <? 32 then Z.testbit w0 (n - 16)
  else false.
Proof.
  intros Hn. unfold modbus_get_float_abcd; cbn [fst snd].
  rewrite u32_testbit, Z.lor_spec, u32_testbit, Z.shiftl_spec, u16_testbit by lia.
  destruct (Z.ltb_spec n 16), (Z.ltb_spec n 32); try lia.
  - rewrite (Z.testbit_neg_r _ (n - 16)) by lia.
    cbn. rewrite ?andb_true_r. reflexivity.
  - rewrite u32_testbit, u16_testbit by lia.
    destruct (Z.ltb_spec (n - 16) 16), (Z.ltb_spec (n - 16) 32); try lia.
    rewrite !andb_true_r, andb_false_r, orb_false_r. reflexivity.
Qed.

Lemma modbus_get_float_abcd_value (w0 w1 : Z) :
  is_u16 w0 -> is_u16 w1 ->
  modbus_get_float_abcd (w0, w1) = Z.lor (Z.shiftl w0 16) w1.
Proof.
  intros H0 H1. apply Z.bits_inj'; intros n Hn.
  rewrite modbus_get_float_abcd_bits, Z.lor_spec, Z.shiftl_spec by lia.
  destruct (Z.ltb_spec n 16), (Z.ltb_spec n 32); try lia.
  - rewrite (Z.testbit_neg_r _ (n - 16)) by lia. reflexivity.
  - rewrite (testbit_above w1 16 n) by (unfold is_u16 in *; lia).
    rewrite orb_false_r. reflexivity.
  - rewrite (testbit_above w1 16 n), (testbit_above w0 16 (n - 16))
      by (unfold is_u16 in *; lia).
    reflexivity.
Qed.

Lemma encode_bits (x : Z) (n : Z) :
  0 <= n ->
  Z.testbit (fst (encode x)) n = Z.testbit x (n + 16) && (n <? 16) /\
  Z.testbit (snd (encode x)) n = Z.testbit x n && (n <? 16).
Proof.
  intros Hn. unfold encode; cbn [fst snd].
  rewrite !u16_testbit, Z.shiftr_spec, !u32_testbit by lia.
  destruct (Z.ltb_spec n 16), (Z.ltb_spec n 32), (Z.ltb_spec (n + 16) 32);
    try lia; rewrite ?andb_true_r, ?andb_false_r; auto.
Qed.

(** C1. The decoder forms [(word0 << 16) | word1] from the two register
    words, and decoding the encoded pair of any 32-bit pattern [x]
    (finite, denormal, infinite or NaN alike) gives [x] back bit for
    bit. *)
Theorem decode_encode_roundtrip :
  (forall w0 w1, is_u16 w0 -> is_u16 w1 ->
     modbus_get_float_abcd (w0, w1) = Z.lor (Z.shiftl w0 16) w1) /\
  (forall x, is_u32 x -> modbus_get_float_abcd (encode x) = x).
Proof.
  split; [exact modbus_get_float_abcd_value|].
  intros x Hx. apply Z.bits_inj'; intros n Hn.
  destruct (encode x) as [w0 w1] eqn:E.
  rewrite modbus_get_float_abcd_bits by lia.
  pose proof (encode_bits x n Hn) as [_ Hlo].
  rewrite E in Hlo; cbn [fst snd] in Hlo.
  destruct (Z.ltb_spec n 16).
  - rewrite Hlo, andb_true_r. reflexivity.
  - destruct (Z.ltb_spec n 32).
    + pose proof (encode_bits x (n - 16) ltac:(lia)) as [Hhi _].
      rewrite E in Hhi; cbn [fst snd] in Hhi.
      rewrite Hhi. replace (n - 16 + 16) with n by lia.
      destruct (Z.ltb_spec (n - 16) 16); [|lia].
      rewrite andb_true_r. reflexivity.
    + symmetry. apply (testbit_above x 32 n); [exact Hx|lia].
Qed.

Lemma decode_encode_roundtrip_witness :
  is_u32 0x7FC00001 /\ modbus_get_float_abcd (encode 0x7FC00001) = 0x7FC00001.
Proof.
  assert (H : is_u32 0x7FC00001) by (unfold is_u32; lia).
  split; [exact H|].
  exact (proj2 decode_encode_roundtrip 0x7FC00001 H).
Defined.

(** The other direction: encoding a decoded pair gives the pair back. *)
Lemma encode_decode (w0 w1 : Z) :
  is_u16 w0 -> is_u16 w1 -> encode (modbus_get_float_abcd (w0, w1)) = (w0, w1).
Proof.
  intros H0 H1.
  assert (Hhi : fst (encode (modbus_get_float_abcd (w0, w1))) = w0).
  { apply Z.bits_inj'; intros n Hn.
    rewrite (proj1 (encode_bits _ n Hn)), modbus_get_float_abcd_bits by lia.
    destruct (Z.ltb_spec (n + 16) 16); [lia|].
    replace (n + 16 - 16) with n by lia.
    destruct (Z.ltb_spec n 16), (Z.ltb_spec (n + 16) 32); try lia.
    - apply andb_true_r.
    - symmetry. apply (testbit_above w0 16 n); unfold is_u16 in *; lia. }
  assert (Hlo : snd (encode (modbus_get_float_abcd (w0, w1))) = w1).
  { apply Z.bits_inj'; intros n Hn.
    rewrite (proj2 (encode_bits _ n Hn)), modbus_get_float_abcd_bits by lia.
    destruct (Z.ltb_spec n 16).
    - apply andb_true_r.
    - rewrite andb_false_r. symmetry.
      apply (testbit_above w1 16 n); unfold is_u16 in *; lia. }
  destruct (encode _) as [a b]; cbn [fst snd] in *; congruence.
Qed.

(** Special patterns: +infinity, a NaN with a payload, the smallest
    denormal, and the example of the source's comment. *)
Example roundtrip_patterns :
  modbus_get_float_abcd (encode 0x7F800000) = 0x7F800000 /\
  modbus_get_float_abcd (encode 0xFFC12345) = 0xFFC12345 /\
  modbus_get_float_abcd (encode 0x00000001) = 0x00000001 /\
  modbus_get_float_abcd (0x4135, 0x1A86) = 0x41351A86 /\
  to_hex_string 0x4135 0x1A86 = "41351A86"%string.
Proof. repeat split; reflexivity. Qed.

Example to_float_patterns :
  Bits32.to_float 0x7F800000 = S754_infinity false /\
  Bits32.to_float 0xFFC12345 = S754_nan /\
  Bits32.to_float 0x00000001 = S754_finite false 1 (-149) /\
  Bits32.to_float 0x80000000 = S754_zero true /\
  Bits32.to_float CALIBRATION_COEFF_VALUE = B32.of_Z 12880 /\
  double_of_float (Bits32.to_float 0x41C80000) = Lit.d25_0 /\
  f0_001 = SFdiv B32.prec B32.emax (B32.of_Z 1) (B32.of_Z 1000) /\
  B32.valid f0_001 = true /\
  B32.valid (Bits32.to_float CALIBRATION_COEFF_VALUE) = true.
Proof. repeat split; vm_compute; reflexivity. Qed.

(** ** Programs against an arbitrary environment *)

Section Properties.
Context {W : Type}.
Variable respond : W -> call -> reply * W.
Variable set_float : Z -> Z * Z.

(** Running a program: one environment answer at a time. *)
Ltac step :=
  match goal with
  | |- context [respond ?w ?c] =>
      is_var w; destruct (respond w c) as [[|?regs] ?w]; cbn
  end.

Ltac branch :=
  match goal with
  | |- context [if ?b then _ else _] => destruct b; cbn
  end.

Ltac run := cbv zeta; cbv [bind lib out ret result final events]; cbn.

(** What [write_integer_register] does, answer by answer. *)
Lemma write_integer_register_run (ctx : ctx_t) (reg_addr value : Z) (w : W) :
  let r := write_integer_register respond ctx reg_addr value w in
  let rc := respond w (modbus_write_register ctx reg_addr (u16 value)) in
  let rb := respond (snd rc) (modbus_read_registers ctx reg_addr 1) in
  result r = accepted (fst rc) /\
  writes (events r) = [(modbus_write_register ctx reg_addr (u16 value), fst rc)] /\
  match fst rc with
  | Failed =>
      final r = snd rc /\
      reads (events r) = [] /\
      warnings (events r) = [MsgErrorWrite reg_addr]
  | Done _ =>
      final r = snd rb /\
      reads (events r) = [(ctx, reg_addr, 1, fst rb)] /\
      warnings (events r) =
        match fst rb with
        | Failed => [MsgWarnNoReadBack]
        | Done regs =>
            if reg regs 0 =? u16 value then []
            else [MsgWarnDiffersInt (u16 value) (reg regs 0)]
        end
  end.
Proof.
  unfold write_integer_register. run.
  step; [auto|]. step; [auto|].
  match goal with |- context [?a =? ?b] => destruct (a =? b) end; cbn; auto.
Qed.

(** What [write_float_register] does, answer by answer. *)
Lemma write_float_register_run (ctx : ctx_t) (reg_addr value : Z) (w : W) :
  let r := write_float_register respond set_float ctx reg_addr value w in
  let words := [fst (set_float value); snd (set_float value)] in
  let rc := respond w (modbus_write_registers ctx reg_addr 2 words) in
  let settle := respond (snd rc) (usleep 100000) in
  let rb := respond (snd settle) (modbus_read_registers ctx reg_addr 2) in
  result r = accepted (fst rc) /\
  writes (events r) = [(modbus_write_registers ctx reg_addr 2 words, fst rc)] /\
  match fst rc with
  | Failed =>
      final r = snd rc /\
      reads (events r) = [] /\
      warnings (events r) = [MsgErrorWriteFloat reg_addr]
  | Done _ =>
      final r = snd rb /\
      reads (events r) = [(ctx, reg_addr, 2, fst rb)] /\
      warnings (events r) =
        match fst rb with
        | Failed => [MsgWarnNoReadBack]
        | Done regs =>
            let read_back := modbus_get_float_abcd (reg regs 0, reg regs 1) in
            if float_close read_back value then []
            else [MsgWarnDiffersFloat value read_back]
        end
  end.
Proof.
  unfold write_float_register. run.
  step; [auto|]. step; (step; [auto|]).
  all: match goal with |- context [float_close ?a ?b] => destruct (float_close a b) end; cbn; auto.
Qed.

(** C10. When the raw write succeeds and the read-back itself fails,
    both helpers return [true] with the single warning "could not
    verify"; the value returned is the one returned after any other
    successful raw write, verified or not. *)
Theorem unverified_write_accepted (ctx : ctx_t) (reg_addr value : Z) (w : W) :
  let ri := write_integer_register respond ctx reg_addr value w in
  let rf := write_float_register respond set_float ctx reg_addr value w in
  (fst (respond w (modbus_write_register ctx reg_addr (u16 value))) <> Failed ->
   reads (events ri) = [(ctx, reg_addr, 1, Failed)] ->
   result ri = true /\
   warnings (events ri) = [MsgWarnNoReadBack] /\
   forall w',
     fst (respond w' (modbus_write_register ctx reg_addr (u16 value))) <> Failed ->
     result (write_integer_register respond ctx reg_addr value w') = result ri) /\
  (fst (respond w (modbus_write_registers ctx reg_addr 2
                     [fst (set_float value); snd (set_float value)])) <> Failed ->
   reads (events rf) = [(ctx, reg_addr, 2, Failed)] ->
   result rf = true /\
   warnings (events rf) = [MsgWarnNoReadBack] /\
   forall w',
     fst (respond w' (modbus_write_registers ctx reg_addr 2
                        [fst (set_float value); snd (set_float value)])) <> Failed ->
     result (write_float_register respond set_float ctx reg_addr value w') = result rf).
Proof.
  cbv zeta. split.
  - intros Hok Hreads.
    pose proof (write_integer_register_run ctx reg_addr value w) as Hi.
    cbv zeta in Hi. destruct Hi as (Hri & _ & Hi).
    destruct (fst (respond w _)); [congruence|].
    destruct Hi as (_ & Hrd & Hw). rewrite Hrd in Hreads.
    injection Hreads as Hrb. rewrite Hrb in Hw.
    split; [exact Hri|]. split; [exact Hw|].
    intros w' Hok'.
    pose proof (write_integer_register_run ctx reg_addr value w') as Hi'.
    cbv zeta in Hi'. destruct Hi' as (Hri' & _).
    rewrite Hri, Hri'.
    destruct (fst (respond w' _)); [congruence|reflexivity].
  - intros Hok Hreads.
    pose proof (write_float_register_run ctx reg_addr value w) as Hf.
    cbv zeta in Hf. destruct Hf as (Hrf & _ & Hf).
    destruct (fst (respond w _)); [congruence|].
    destruct Hf as (_ & Hrd & Hw). rewrite Hrd in Hreads.
    injection Hreads as Hrb. rewrite Hrb in Hw.
    split; [exact Hrf|]. split; [exact Hw|].
    intros w' Hok'.
    pose proof (write_float_register_run ctx reg_addr value w') as Hf'.
    cbv zeta in Hf'. destruct Hf' as (Hrf' & _).
    rewrite Hrf, Hrf'.
    destruct (fst (respond w' _)); [congruence|reflexivity].
Qed.

(** ** The calibration sequence *)

(** C4. In mode 2 the first write issued is the float write of the
    calibration coefficient to register 28; if it fails nothing else
    is written and the result is failure; if it succeeds the only
    other write is the integer write of 3 to register 13, whose
    status is the result: when that one fails the result is failure
    and the two writes are all that was sent (no rollback). *)
Theorem execute_calibration_mode2 (ctx : ctx_t) (w : W) :
  let r := execute_calibration respond set_float ctx CAL_MODE_2 w in
  let coeff :=
    modbus_write_registers ctx CALIBRATION_REG_COEFF 2
      [fst (set_float CALIBRATION_COEFF_VALUE); snd (set_float CALIBRATION_COEFF_VALUE)] in
  let mode := modbus_write_register ctx CALIBRATION_REG_MODE CAL_MODE_2_VALUE in
  let wf := write_float_register respond set_float ctx
              CALIBRATION_REG_COEFF CALIBRATION_COEFF_VALUE w in
  let rc1 := fst (respond w coeff) in
  let rc2 := fst (respond (final wf) mode) in
  match rc1 with
  | Failed =>
      writes (events r) = [(coeff, Failed)] /\ result r = false
  | Done d =>
      writes (events r) = [(coeff, Done d); (mode, rc2)] /\
      result r = accepted rc2
  end.
Proof.
  unfold execute_calibration, write_float_register, write_integer_register.
  cbv [CAL_MODE_2_VALUE CALIBRATION_REG_MODE CALIBRATION_REG_COEFF].
  change (u16 3) with 3.
  run.
  repeat first [step | branch]; auto.
Qed.

(** The other modes: no write in mode 0, one integer write in modes 1
    and 3. *)
Lemma execute_calibration_single (ctx : ctx_t) (w : W) :
  writes (events (execute_calibration respond set_float ctx CAL_MODE_NONE w)) = [] /\
  result (execute_calibration respond set_float ctx CAL_MODE_NONE w) = true /\
  (let r := execute_calibration respond set_float ctx CAL_MODE_1 w in
   let c := modbus_write_register ctx 13 2 in
   writes (events r) = [(c, fst (respond w c))] /\
   result r = accepted (fst (respond w c))) /\
  (let r := execute_calibration respond set_float ctx CAL_MODE_3 w in
   let c := modbus_write_register ctx 16 190 in
   writes (events r) = [(c, fst (respond w c))] /\
   result r = accepted (fst (respond w c))).
Proof.
  unfold execute_calibration, write_integer_register.
  cbv [CAL_MODE_1_VALUE CALIBRATION_REG_MODE].
  change (u16 2) with 2. change (u16 190) with 190.
  run.
  split; [reflexivity|]. split; [reflexivity|].
  split; repeat first [step | branch]; auto.
Qed.

(** ** Connections *)

Lemma count_from (delta : event -> Z) (tr : trace) (n : Z) :
  fold_left (fun n e => n + delta e) tr n = n + count delta tr.
Proof.
  unfold count. revert n.
  induction tr as [|e tr IH]; intros n; cbn; [lia|].
  rewrite IH, (IH (delta e)). lia.
Qed.

Lemma count_cons (delta : event -> Z) (e : event) (tr : trace) :
  count delta (e :: tr) = delta e + count delta tr.
Proof. unfold count at 1; cbn. apply count_from. Qed.

Lemma count_app (delta : event -> Z) (a b : trace) :
  count delta (a ++ b) = count delta a + count delta b.
Proof.
  induction a as [|e a IH]; [reflexivity|].
  cbn [app]. rewrite !count_cons, IH. lia.
Qed.

Lemma conn_run_app (s : conn_state) (a b : trace) :
  conn_run s (a ++ b) =
  match conn_run s a with
  | Some s' => conn_run s' b
  | None => None
  end.
Proof.
  revert s. induction a as [|e a IH]; intros s; [reflexivity|].
  cbn. destruct (conn_step s e); [apply IH|reflexivity].
Qed.

(** One step of the life cycle moves the two counters as the event
    says. *)
Lemma conn_step_counts (s s' : conn_state) (e : event) :
  conn_step s e = Some s' ->
  open_in s' = open_in s + open_delta e /\
  live_in s' = live_in s + live_delta e.
Proof.
  destruct e as [c r|o]; [|cbn; intros [= <-]; lia].
  destruct c, r, s; cbn; intros [= <-]; cbn; lia.
Qed.

Lemma conn_run_counts (tr : trace) (s s' : conn_state) :
  conn_run s tr = Some s' ->
  open_in s' = open_in s + count open_delta tr /\
  live_in s' = live_in s + count live_delta tr.
Proof.
  revert s. induction tr as [|e tr IH]; intros s; cbn [conn_run].
  - intros [= <-]. unfold count; cbn. lia.
  - destruct (conn_step s e) as [s1|] eqn:E; [|discriminate].
    intros H. apply IH in H. apply conn_step_counts in E.
    rewrite !count_cons. lia.
Qed.

Lemma conn_run_prefix (tr : trace) (s s' : conn_state) (n : nat) :
  conn_run s tr = Some s' -> exists s1, conn_run s (firstn n tr) = Some s1.
Proof.
  revert s n. induction tr as [|e tr IH]; intros s n H.
  - rewrite firstn_nil. exists s. reflexivity.
  - destruct n as [|n]; [exists s; reflexivity|].
    cbn in *. destruct (conn_step s e) as [s1|]; [|discriminate].
    eapply IH; eassumption.
Qed.

(** A trace that follows the life cycle from the idle state never has
    more than one open connection, nor more than one live context. *)
Lemma life_cycle_at_most_one (tr : trace) (s' : conn_state) :
  conn_run Idle tr = Some s' ->
  at_most_one open_delta tr /\ at_most_one live_delta tr.
Proof.
  intros H. split; intros n;
    destruct (conn_run_prefix tr Idle s' n H) as [s1 H1];
    apply conn_run_counts in H1; cbn in H1;
    destruct s1; cbn in H1; lia.
Qed.

(** The scan loop leaves the connection slot idle, whatever the
    environment answers. *)
Lemma scan_ports_life_cycle (ports : list string) (w : W) :
  conn_run Idle (events (scan_ports respond ports w)) = Some Idle.
Proof.
  revert w. induction ports as [|port rest IH]; intros w; [reflexivity|].
  cbn [scan_ports]. run.
  repeat step;
    try (match goal with
         | |- context [scan_ports respond rest ?w'] =>
             specialize (IH w');
             destruct (scan_ports respond rest w') as [[p w''] tr]
         end; cbn in *; exact IH);
    reflexivity.
Qed.

Lemma announced_scan_life_cycle (ports : list string) (w : W) :
  conn_run Idle (events ((out (Cout MsgScanning) ;; scan_ports respond ports) w)) =
  Some Idle.
Proof.
  pose proof (scan_ports_life_cycle ports w) as H.
  cbv [bind out events] in *.
  destruct (scan_ports respond ports w) as [[p w'] tr].
  exact H.
Qed.

Lemma find_sensor_port_life_cycle (w : W) :
  conn_run Idle (events (find_sensor_port respond w)) = Some Idle.
Proof. exact (announced_scan_life_cycle candidate_ports w). Qed.

(** Step 2 on its own: it ends connected when it returns a context,
    idle when it returns the exit code. *)
Lemma establish_connection_life_cycle (port : string) (w : W) :
  conn_run Idle (events (establish_connection respond port w)) =
  Some match result (establish_connection respond port w) with
       | inr _ => Connected
       | inl _ => Idle
       end.
Proof.
  unfold establish_connection.
  destruct (String.eqb port EmptyString); run; [reflexivity|].
  repeat step; reflexivity.
Qed.

(** A program that runs [disc] and then step 2 produces the events of
    [disc] followed by those of step 2. *)
Lemma then_establish (disc : prog W string) (w : W) :
  let d := disc w in
  let r := (port <- disc ;; establish_connection respond port) w in
  let tail := events (establish_connection respond (result d) (final d)) in
  events r = events d ++ tail /\
  result r = result (establish_connection respond (result d) (final d)).
Proof.
  cbv zeta. cbv [bind result final events].
  destruct (disc w) as [[port w1] tr]. cbn [fst snd].
  destruct (establish_connection respond port w1) as [[x w2] tl].
  split; reflexivity.
Qed.

Lemma open_session_events (w : W) :
  let d := find_sensor_port respond w in
  let r := open_session respond w in
  let tail := events (establish_connection respond (result d) (final d)) in
  events r = events d ++ tail /\
  result r = result (establish_connection respond (result d) (final d)).
Proof. exact (then_establish (find_sensor_port respond) w). Qed.

(** Register traffic on the session context leaves it connected: the
    calibration sequence and the sampling loop open and close nothing. *)
Lemma execute_calibration_stays_connected (ctx : ctx_t) (mode : CalibrationMode) (w : W) :
  conn_run Connected (events (execute_calibration respond set_float ctx mode w)) =
  Some Connected.
Proof.
  unfold execute_calibration, write_float_register, write_integer_register.
  destruct mode; run; repeat first [step | branch]; reflexivity.
Qed.

Lemma while_true_stays_connected
      (body : loop_state -> prog W (cycle_end * loop_state)) :
  (forall s w, conn_run Connected (events (body s w)) = Some Connected) ->
  forall fuel s w,
    conn_run Connected (events (while_true fuel body s w)) = Some Connected.
Proof.
  intros Hbody. induction fuel as [|fuel IH]; intros s w; [reflexivity|].
  cbn [while_true]. cbv [bind events].
  specialize (Hbody s w). cbv [events] in Hbody.
  destruct (body s w) as [[[ce s'] w'] tr]. cbn [fst snd] in *.
  specialize (IH s' w'). cbv [events] in IH.
  destruct ce;
    try (destruct (while_true fuel body s' w') as [[res w''] tr2];
         cbn [fst snd] in *; rewrite conn_run_app, Hbody; exact IH).
  cbv [ret]. cbn [snd]. rewrite app_nil_r. exact Hbody.
Qed.

Lemma sampling_loop_stays_connected (fuel : nat) (ctx : ctx_t) (port : string) (w : W) :
  conn_run Connected (events (sampling_loop respond fuel ctx port w)) = Some Connected.
Proof.
  unfold sampling_loop. apply while_true_stays_connected.
  intros s w0. unfold sampling_cycle.
  cbv zeta; cbv [bind lib out ret events].
  cbn -[calculate_smart_ec get_dynamic_k double_of_float Bits32.to_float
        modbus_get_float_abcd to_hex_string B64.sub reg Z.add].
  repeat (match goal with
          | |- context [respond ?w ?c] =>
              is_var w; destruct (respond w c) as [[|?regs] ?w];
              cbn -[calculate_smart_ec get_dynamic_k double_of_float Bits32.to_float
                    modbus_get_float_abcd to_hex_string B64.sub reg Z.add]
          end); reflexivity.
Qed.

(** ** Discovery order *)

(** The scan loop over any list of ports: either no handshake read
    succeeded, every port was tried and the result is the empty
    string; or the result is a port of the list, the ports tried are
    those up to and including it, and its handshake read is the only
    one that succeeded. *)
Lemma scan_ports_first (ports : list string) (w : W) :
  let r := scan_ports respond ports w in
  (answered (events r) = [] /\ result r = EmptyString /\ probed (events r) = ports) \/
  (exists pre post,
      ports = pre ++ result r :: post /\
      probed (events r) = pre ++ [result r] /\
      answered (events r) = [result r]).
Proof.
  cbv zeta. revert w.
  induction ports as [|port rest IH]; intros w.
  - left. cbn. auto.
  - cbn [scan_ports]. run.
    repeat step;
      try (match goal with
           | |- context [scan_ports respond rest ?w'] =>
               specialize (IH w');
               destruct (scan_ports respond rest w') as [[p w''] tr]
           end; cbn in *;
           destruct IH as [(Ha & Hr & Hp)|(pre & post & Hports & Hp & Ha)];
           [left; rewrite Ha, Hr, Hp; auto
           |right; exists (port :: pre), post; rewrite Hports, Hp, Ha; auto]).
    all: right; exists [], rest; cbn; auto.
Qed.

Lemma announced_scan_first (ports : list string) (w : W) :
  let r := (out (Cout MsgScanning) ;; scan_ports respond ports) w in
  (answered (events r) = [] /\ result r = EmptyString /\ probed (events r) = ports) \/
  (exists pre post,
      ports = pre ++ result r :: post /\
      probed (events r) = pre ++ [result r] /\
      answered (events r) = [result r]).
Proof.
  pose proof (scan_ports_first ports w) as H.
  cbv zeta in *. cbv [bind out events result] in *.
  destruct (scan_ports respond ports w) as [[p w'] tr].
  exact H.
Qed.

(** ** The sampling loop *)

Lemma ends_with_sleep_one (r : reply) : ends_with_sleep [Lib (sleep 1) r].
Proof. exists [], r. reflexivity. Qed.

Lemma ends_with_sleep_cons (e : event) (tr : trace) :
  ends_with_sleep tr -> ends_with_sleep (e :: tr).
Proof. intros (tr' & r & ->). exists (e :: tr'), r. reflexivity. Qed.

Ltac sleeps :=
  repeat first [apply ends_with_sleep_one | apply ends_with_sleep_cons].

Ltac step_cycle :=
  match goal with
  | |- context [respond ?w ?c] =>
      is_var w; destruct (respond w c) as [[|?regs] ?w];
      cbn -[calculate_smart_ec get_dynamic_k double_of_float Bits32.to_float
            modbus_get_float_abcd to_hex_string B64.sub reg Z.add]
  end.

(** One pass through the loop body: its events are those of an
    abandoned or of a complete cycle, the pass does not leave the
    loop, and the cycle counter advances by one. *)
Lemma sampling_cycle_ok (ctx : ctx_t) (port : string) (s : loop_state) (w : W) :
  let r := sampling_cycle respond ctx port s w in
  cycle_ok ctx (events r) /\
  fst (result r) <> Break /\
  loop_count (snd (result r)) = loop_count s + 1.
Proof.
  unfold sampling_cycle, cycle_ok.
  cbv zeta; cbv [bind lib out ret result final events].
  cbn -[calculate_smart_ec get_dynamic_k double_of_float Bits32.to_float
        modbus_get_float_abcd to_hex_string B64.sub reg Z.add].
  repeat step_cycle.
  all: split; [split; [sleeps|]|split; [discriminate|reflexivity]].
  all: try (left; split; reflexivity).
  all: right; repeat split; eexists; eexists; reflexivity.
Qed.

(** A loop whose body never breaks is still running after any number
    of passes, and its events are those of the passes, one after the
    other. *)
Lemma while_true_runs (P : trace -> Prop)
      (body : loop_state -> prog W (cycle_end * loop_state)) :
  (forall s w, P (events (body s w)) /\ fst (result (body s w)) <> Break) ->
  forall fuel s w,
    result (while_true fuel body s w) = None /\
    exists cycles,
      List.length cycles = fuel /\
      events (while_true fuel body s w) = List.concat cycles /\
      Forall P cycles.
Proof.
  intros Hbody. induction fuel as [|fuel IH]; intros s w.
  - split; [reflexivity|]. exists []. repeat split. constructor.
  - cbn [while_true]. cbv [bind result events].
    destruct (Hbody s w) as [HP Hnb]. cbv [result events] in HP, Hnb.
    destruct (body s w) as [[[ce s'] w'] tr]. cbn [fst snd] in *.
    destruct (IH s' w') as (Hres & cycles & Hlen & Hev & Hall).
    cbv [result events] in Hres, Hev.
    destruct ce; [| |congruence];
      destruct (while_true fuel body s' w') as [[res w''] tr2];
      cbn [fst snd] in *;
      (split; [exact Hres|]);
      exists (tr :: cycles); cbn [List.length List.concat];
      (split; [congruence|]); (split; [congruence|]);
      constructor; assumption.
Qed.

(** C7. Observed for any number of passes, the sampling loop is still
    running, and it has made exactly that number of passes.  Each pass
    ends with the one-second wait and either contains a failed read
    and emits no record (no dashboard, no CSV row), or consists of the
    three successful reads of registers 60, 45 and 41 and emits one
    dashboard and one CSV row. *)
Theorem sampling_loop_never_stops (fuel : nat) (ctx : ctx_t) (port : string) (w : W) :
  let r := sampling_loop respond fuel ctx port w in
  result r = None /\
  exists cycles,
    List.length cycles = fuel /\
    events r = List.concat cycles /\
    Forall (cycle_ok ctx) cycles.
Proof.
  cbv zeta. unfold sampling_loop.
  apply (while_true_runs (cycle_ok ctx)).
  intros s w0.
  pose proof (sampling_cycle_ok ctx port s w0) as H. cbv zeta in H.
  tauto.
Qed.

End Properties.

(** ** The write helpers against the device *)

Section Connections.
Context {W : Type}.
Variable respond : W -> call -> reply * W.
Variable set_float : Z -> Z * Z.

Ltac step :=
  match goal with
  | |- context [respond ?w ?c] =>
      is_var w; destruct (respond w c) as [[|?regs] ?w]; cbn
  end.

Ltac branch :=
  match goal with
  | |- context [if ?b then _ else _] => destruct b; cbn
  end.

Ltac run := cbv zeta; cbv [bind lib out ret result final events]; cbn.

(** C3. Both write helpers return [false] exactly when the device
    rejects the raw write, and then issue no read.  When the device
    accepts the raw write they return [true] and read the register
    back, once, from the same context and address; whatever the device
    answers to that read, the result stays [true]: an integer that
    differs from the one written, or a float whose distance to the one
    written is not below 0.001f, produces the mismatch warning on
    [std::cerr] and nothing else. *)
Theorem write_and_verify (ctx : ctx_t) (reg_addr value : Z) (w : W) :
  let ri := write_integer_register respond ctx reg_addr value w in
  let rci := respond w (modbus_write_register ctx reg_addr (u16 value)) in
  let rbi := respond (snd rci) (modbus_read_registers ctx reg_addr 1) in
  let rf := write_float_register respond set_float ctx reg_addr value w in
  let rcf := respond w (modbus_write_registers ctx reg_addr 2
                          [fst (set_float value); snd (set_float value)]) in
  let rbf := respond (snd (respond (snd rcf) (usleep 100000)))
               (modbus_read_registers ctx reg_addr 2) in
  (result ri = false <-> fst rci = Failed) /\
  (fst rci = Failed -> reads (events ri) = []) /\
  (fst rci <> Failed ->
     result ri = true /\
     reads (events ri) = [(ctx, reg_addr, 1, fst rbi)] /\
     forall regs, fst rbi = Done regs ->
       warnings (events ri) =
         if reg regs 0 =? u16 value then []
         else [MsgWarnDiffersInt (u16 value) (reg regs 0)]) /\
  (result rf = false <-> fst rcf = Failed) /\
  (fst rcf = Failed -> reads (events rf) = []) /\
  (fst rcf <> Failed ->
     result rf = true /\
     reads (events rf) = [(ctx, reg_addr, 2, fst rbf)] /\
     forall regs, fst rbf = Done regs ->
       let read_back := modbus_get_float_abcd (reg regs 0, reg regs 1) in
       warnings (events rf) =
         if SFltb (SFabs (SFsub 24 128 (Bits32.to_float read_back) (Bits32.to_float value)))
                  (S754_finite false 8589935 (-33))
         then []
         else [MsgWarnDiffersFloat value read_back]).
Proof.
  cbv zeta.
  pose proof (write_integer_register_run respond ctx reg_addr value w) as Hi.
  pose proof (write_float_register_run respond set_float ctx reg_addr value w) as Hf.
  cbv zeta in Hi, Hf.
  destruct Hi as (Hri & _ & Hi). destruct Hf as (Hrf & _ & Hf).
  set (rci := fst (respond w (modbus_write_register ctx reg_addr (u16 value)))) in *.
  set (rcf := fst (respond w (modbus_write_registers ctx reg_addr 2 _))) in *.
  rewrite Hri, Hrf.
  split; [|split; [|split; [|split; [|split]]]].
  - destruct rci; cbn; split; congruence.
  - intros E. rewrite E in Hi. tauto.
  - intros Hok. destruct rci; [congruence|]. split; [reflexivity|].
    destruct Hi as (_ & Hrd & Hw). split; [exact Hrd|].
    intros regs Hrb. rewrite Hrb in Hw. exact Hw.
  - destruct rcf; cbn; split; congruence.
  - intros E. rewrite E in Hf. tauto.
  - intros Hok. destruct rcf; [congruence|]. split; [reflexivity|].
    destruct Hf as (_ & Hrd & Hw). split; [exact Hrd|].
    intros regs Hrb. rewrite Hrb in Hw. exact Hw.
Qed.

(** ** The connection slot *)

Lemma slot_run_app (s : slot) (a b : trace) :
  slot_run s (a ++ b) =
  match slot_run s a with
  | Some s' => slot_run s' b
  | None => None
  end.
Proof.
  revert s. induction a as [|e a IH]; intros s; [reflexivity|].
  cbn. destruct (slot_step s e); [apply IH|reflexivity].
Qed.

(** One step of the life cycle opens and closes, makes and frees, what
    the event says. *)
Lemma slot_step_after (s s' : slot) (e : event) :
  slot_step s e = Some s' ->
  open_step (open_of s) e = open_of s' /\
  live_step (live_of s) e = live_of s'.
Proof.
  destruct e as [c r|o]; [|cbn; intros [= <-]; auto].
  destruct c; cbn [slot_step]; destruct s as [|c0|c0]; try discriminate;
    try (intros [= <-]; auto; fail);
    try (destruct r; intros [= <-]; auto; fail).
  all: destruct (String.eqb_spec ctx c0) as [->|Hne]; [|discriminate].
  all: try (destruct r); intros [= <-]; cbn; rewrite ?String.eqb_refl; auto.
Qed.

Lemma slot_run_after (tr : trace) (s s' : slot) :
  slot_run s tr = Some s' ->
  fold_left open_step tr (open_of s) = open_of s' /\
  fold_left live_step tr (live_of s) = live_of s'.
Proof.
  revert s. induction tr as [|e tr IH]; intros s; cbn [slot_run fold_left].
  - intros [= <-]. auto.
  - destruct (slot_step s e) as [s1|] eqn:E; [|discriminate].
    intros H. apply slot_step_after in E. destruct E as [-> ->].
    exact (IH s1 H).
Qed.

Lemma slot_run_prefix (tr : trace) (s s' : slot) (n : nat) :
  slot_run s tr = Some s' -> exists s1, slot_run s (firstn n tr) = Some s1.
Proof.
  revert s n. induction tr as [|e tr IH]; intros s n H.
  - rewrite firstn_nil. exists s. reflexivity.
  - destruct n as [|n]; [exists s; reflexivity|].
    cbn in *. destruct (slot_step s e) as [s1|]; [|discriminate].
    eapply IH; eassumption.
Qed.

(** A trace that follows the life cycle from the free slot never has
    two connections open, nor two contexts live. *)
Lemma slot_at_most_one (tr : trace) (s' : slot) :
  slot_run Free tr = Some s' ->
  forall n, (List.length (open_after (firstn n tr)) <= 1)%nat /\
            (List.length (live_after (firstn n tr)) <= 1)%nat.
Proof.
  intros H n. destruct (slot_run_prefix tr Free s' n H) as [s1 H1].
  apply slot_run_after in H1. destruct H1 as [Ho Hl].
  unfold open_after, live_after. cbn [open_of live_of] in Ho, Hl.
  rewrite Ho, Hl. destruct s1; cbn; lia.
Qed.

(** In such a trace a context is requested only while no connection is
    open and no context is live. *)
Lemma slot_request (tr a b : trace) (s' : slot)
      (d : string) (baud : Z) (parity : ascii) (data_bit stop_bit : Z) (r : reply) :
  slot_run Free tr = Some s' ->
  tr = a ++ Lib (modbus_new_rtu d baud parity data_bit stop_bit) r :: b ->
  open_after a = [] /\ live_after a = [].
Proof.
  intros H ->. rewrite slot_run_app in H.
  destruct (slot_run Free a) as [s1|] eqn:Ha; [|discriminate].
  apply slot_run_after in Ha. unfold open_after, live_after.
  cbn [open_of live_of] in Ha.
  cbn [slot_run slot_step] in H.
  destruct s1; [exact Ha|destruct r; discriminate H|destruct r; discriminate H].
Qed.

Lemma traffic_keeps_slot (ctx : ctx_t) (tr : trace) :
  forallb (session_traffic ctx) tr = true ->
  slot_run (Open ctx) tr = Some (Open ctx).
Proof.
  induction tr as [|e tr IH]; [reflexivity|].
  cbn [forallb]. intros H. apply andb_true_iff in H. destruct H as [He Ht].
  cbn [slot_run].
  assert (Hs : slot_step (Open ctx) e = Some (Open ctx)).
  { destruct e as [c r|o]; [|reflexivity].
    destruct c; cbn in He |- *; try discriminate He; try reflexivity;
      rewrite He; reflexivity. }
  rewrite Hs. exact (IH Ht).
Qed.

(** ** Discovery, candidate by candidate *)

(** The probe of the first candidate: its events are those of a probe
    of that port; when its handshake is answered the scan returns the
    port, otherwise the scan goes on with the rest. *)
Lemma scan_ports_cons (port : string) (rest : list string) (w : W) :
  exists tr answer w',
    is_probe port answer tr /\
    scan_ports respond (port :: rest) w =
      if answer then (port, w', tr)
      else let '(p, w'', t) := scan_ports respond rest w' in (p, w'', tr ++ t).
Proof.
  cbn [scan_ports]. cbv [bind lib out ret]. cbn.
  repeat step.
  all: try (match goal with
            | |- context [scan_ports respond ?l ?w0] =>
                eexists; exists false, w0;
                destruct (scan_ports respond l w0) as [[? ?] ?];
                first
                  [ solve [split; [apply probe_no_context|reflexivity]]
                  | solve [split; [apply probe_no_connection|reflexivity]]
                  | solve [split; [apply probe_no_answer|reflexivity]] ]
            end).
  all: do 3 eexists; split; [apply probe_answer|reflexivity].
Qed.

Lemma scan_ports_probes (ports : list string) (w : W) :
  let r := scan_ports respond ports w in
  exists probes,
    events r = List.concat probes /\
    ((result r = EmptyString /\
      Forall2 (fun p tr => is_probe p false tr) ports probes) \/
     (exists pre post failed win,
         ports = pre ++ result r :: post /\
         probes = failed ++ [win] /\
         Forall2 (fun p tr => is_probe p false tr) pre failed /\
         is_probe (result r) true win)).
Proof.
  cbv zeta. revert w. induction ports as [|port rest IH]; intros w.
  - exists []. split; [reflexivity|]. left. split; [reflexivity|constructor].
  - destruct (scan_ports_cons port rest w) as (tr & a & w' & Hp & Heq).
    rewrite Heq. destruct a.
    + exists [tr]. cbv [result events]. cbn [fst snd List.concat].
      rewrite app_nil_r. split; [reflexivity|].
      right. exists [], rest, [], tr. repeat split; [constructor|exact Hp].
    + specialize (IH w'). cbv [result events] in IH |- *.
      destruct (scan_ports respond rest w') as [[p w''] t]. cbn [fst snd] in *.
      destruct IH as (probes & Hev & Hcase).
      exists (tr :: probes). cbn [List.concat]. rewrite Hev.
      split; [reflexivity|].
      destruct Hcase as [(Hr & Hall)|(pre & post & failed & win & Hports & Hpr & Hall & Hwin)].
      * left. split; [exact Hr|]. constructor; assumption.
      * right. exists (port :: pre), post, (tr :: failed), win.
        rewrite Hports, Hpr. repeat split; [constructor; assumption|exact Hwin].
Qed.

Lemma announced_scan_probes (ports : list string) (w : W) :
  let r := (out (Cout MsgScanning) ;; scan_ports respond ports) w in
  exists probes,
    events r = Out (Cout MsgScanning) :: List.concat probes /\
    ((result r = EmptyString /\
      Forall2 (fun p tr => is_probe p false tr) ports probes) \/
     (exists pre post failed win,
         ports = pre ++ result r :: post /\
         probes = failed ++ [win] /\
         Forall2 (fun p tr => is_probe p false tr) pre failed /\
         is_probe (result r) true win)).
Proof.
  pose proof (scan_ports_probes ports w) as H.
  cbv zeta in *. cbv [bind out events result] in *.
  destruct (scan_ports respond ports w) as [[p w'] tr]. cbn [fst snd] in *.
  destruct H as (probes & Hev & Hcase).
  exists probes. rewrite Hev. split; [reflexivity|exact Hcase].
Qed.

(** Against an environment without memory the scan returns the first
    candidate that the environment lets through, and the empty string
    when there is none. *)
Lemma scan_ports_constant (answer : call -> reply) (ports : list string) (w : W) :
  result (scan_ports (constant answer) ports w) =
  hd EmptyString (filter (responds answer) ports).
Proof.
  revert w. unfold constant.
  induction ports as [|port rest IH]; intros w; [reflexivity|].
  cbn [scan_ports filter]. unfold responds.
  cbv [bind lib out ret result]. cbn.
  specialize (IH w). cbv [result] in IH.
  destruct (answer (modbus_new_rtu port 9600 "N" 8 1)); cbn.
  - destruct (scan_ports _ rest w) as [[p w'] t]. exact IH.
  - destruct (answer (modbus_connect port)); cbn.
    + destruct (scan_ports _ rest w) as [[p w'] t]. exact IH.
    + destruct (answer (modbus_read_registers port 60 2)); cbn.
      * destruct (scan_ports _ rest w) as [[p w'] t]. exact IH.
      * reflexivity.
Qed.

Lemma announced_scan_constant (answer : call -> reply) (ports : list string) (w : W) :
  result ((out (Cout MsgScanning) ;; scan_ports (constant answer) ports) w) =
  hd EmptyString (filter (responds answer) ports).
Proof.
  rewrite <- (scan_ports_constant answer ports w).
  cbv [bind out result].
  destruct (scan_ports (constant answer) ports w) as [[p w'] t]. reflexivity.
Qed.

(** C5, as the code has it.  The candidates are [/dev/ttyS0] to
    [/dev/ttyS20] followed by [/dev/ttyUSBi], [/dev/ttyACMi] in
    alternation for [i] from 0 to 4.  [find_sensor_port] probes them in
    that order, one after the other: for each it requests a context
    and, when it gets one, connects and, when connected, issues the
    handshake read of two registers at 60.  It returns the first
    candidate whose handshake read succeeds, whatever was read, and
    probes nothing after it; when no handshake read succeeds it has
    probed all of them and returns the empty string.  Against an
    environment without memory the result is the first candidate that
    the environment lets through. *)
Theorem find_sensor_port_first_answer (w : W) :
  let r := find_sensor_port respond w in
  candidate_ports =
    ["/dev/ttyS0"; "/dev/ttyS1"; "/dev/ttyS2"; "/dev/ttyS3"; "/dev/ttyS4";
     "/dev/ttyS5"; "/dev/ttyS6"; "/dev/ttyS7"; "/dev/ttyS8"; "/dev/ttyS9";
     "/dev/ttyS10"; "/dev/ttyS11"; "/dev/ttyS12"; "/dev/ttyS13"; "/dev/ttyS14";
     "/dev/ttyS15"; "/dev/ttyS16"; "/dev/ttyS17"; "/dev/ttyS18"; "/dev/ttyS19";
     "/dev/ttyS20";
     "/dev/ttyUSB0"; "/dev/ttyACM0"; "/dev/ttyUSB1"; "/dev/ttyACM1";
     "/dev/ttyUSB2"; "/dev/ttyACM2"; "/dev/ttyUSB3"; "/dev/ttyACM3";
     "/dev/ttyUSB4"; "/dev/ttyACM4"]%string /\
  ((answered (events r) = [] /\ result r = EmptyString /\
    probed (events r) = candidate_ports) \/
   (exists pre post,
       candidate_ports = pre ++ result r :: post /\
       probed (events r) = pre ++ [result r] /\
       answered (events r) = [result r])) /\
  (exists probes,
      events r = Out (Cout MsgScanning) :: List.concat probes /\
      ((result r = EmptyString /\
        Forall2 (fun p tr => is_probe p false tr) candidate_ports probes) \/
       (exists pre post failed win,
           candidate_ports = pre ++ result r :: post /\
           probes = failed ++ [win] /\
           Forall2 (fun p tr => is_probe p false tr) pre failed /\
           is_probe (result r) true win))) /\
  (forall answer : call -> reply,
      result (find_sensor_port (constant answer) w) =
      hd EmptyString (filter (responds answer) candidate_ports)).
Proof.
  split; [vm_compute; reflexivity|].
  split; [exact (announced_scan_first respond candidate_ports w)|].
  split; [exact (announced_scan_probes candidate_ports w)|].
  intros answer. exact (announced_scan_constant answer candidate_ports w).
Qed.

(** ** One connection at a time *)

Lemma is_probe_slot (port : string) (answer : bool) (tr : trace) :
  is_probe port answer tr -> slot_run Free tr = Some Free.
Proof.
  intros H. destruct H.
  all: repeat (progress (cbn [slot_run slot_step]; rewrite ?String.eqb_refl)).
  all: reflexivity.
Qed.

Lemma probes_slot (ports : list string) (probes : list trace) :
  Forall2 (fun p tr => is_probe p false tr) ports probes ->
  slot_run Free (List.concat probes) = Some Free.
Proof.
  induction 1 as [|p tr ports probes Hp _ IH]; [reflexivity|].
  cbn [List.concat]. rewrite slot_run_app, (is_probe_slot _ _ _ Hp). exact IH.
Qed.

(** The scan leaves the slot free, whatever the environment answers:
    every probe closes and frees its own context. *)
Lemma announced_scan_slot (ports : list string) (w : W) :
  slot_run Free (events ((out (Cout MsgScanning) ;; scan_ports respond ports) w)) =
  Some Free.
Proof.
  destruct (announced_scan_probes ports w) as (probes & Hev & Hcase).
  rewrite Hev. cbn [slot_run slot_step].
  destruct Hcase as [(_ & Hall)|(pre & post & failed & win & _ & -> & Hall & Hwin)].
  - exact (probes_slot _ _ Hall).
  - rewrite concat_app, slot_run_app, (probes_slot _ _ Hall).
    cbn [List.concat]. rewrite app_nil_r. exact (is_probe_slot _ _ _ Hwin).
Qed.

Lemma find_sensor_port_slot (w : W) :
  slot_run Free (events (find_sensor_port respond w)) = Some Free.
Proof. exact (announced_scan_slot candidate_ports w). Qed.

(** Step 2 on its own: it ends with the session context connected when
    it returns one, and with the slot free when it returns the exit
    code. *)
Lemma establish_connection_slot (port : string) (w : W) :
  slot_run Free (events (establish_connection respond port w)) =
  Some match result (establish_connection respond port w) with
       | inr (_, ctx) => Open ctx
       | inl _ => Free
       end.
Proof.
  unfold establish_connection.
  destruct (String.eqb port EmptyString); run; [reflexivity|].
  repeat step.
  all: repeat (progress (cbn [slot_run slot_step]; rewrite ?String.eqb_refl)).
  all: reflexivity.
Qed.

Lemma then_establish_slot (disc : prog W string) (w : W) :
  slot_run Free (events (disc w)) = Some Free ->
  let r := (port <- disc ;; establish_connection respond port) w in
  exists tail,
    events r = events (disc w) ++ tail /\
    slot_run Free tail =
      Some match result r with
           | inr (_, ctx) => Open ctx
           | inl _ => Free
           end /\
    slot_run Free (events r) =
      Some match result r with
           | inr (_, ctx) => Open ctx
           | inl _ => Free
           end.
Proof.
  intros Hd. cbv zeta.
  pose proof (then_establish respond disc w) as H. cbv zeta in H.
  destruct H as [Hev Hres].
  pose proof (establish_connection_slot (result (disc w)) (final (disc w))) as Ht.
  rewrite <- Hres in Ht.
  eexists. split; [exact Hev|]. split; [exact Ht|].
  rewrite Hev, slot_run_app, Hd. exact Ht.
Qed.

Lemma open_session_slot (w : W) :
  let r := open_session respond w in
  exists tail,
    events r = events (find_sensor_port respond w) ++ tail /\
    slot_run Free tail =
      Some match result r with
           | inr (_, ctx) => Open ctx
           | inl _ => Free
           end /\
    slot_run Free (events r) =
      Some match result r with
           | inr (_, ctx) => Open ctx
           | inl _ => Free
           end.
Proof.
  exact (then_establish_slot (find_sensor_port respond) w (find_sensor_port_slot w)).
Qed.

(** C8. Discovery follows the life cycle of the connection slot,
    context by context, and ends with the slot free: every probe
    connection is closed, and its context freed, under its own name,
    before the context of the next candidate is requested and before
    [find_sensor_port] returns, the winner's included.  The session
    connection is opened by events that come after all events of the
    discovery.  At every instant of the opening of the session at most
    one connection is open and at most one context is live, and a
    context is requested only while there is none. *)
Theorem one_connection_at_a_time (w : W) :
  let d := find_sensor_port respond w in
  let r := open_session respond w in
  slot_run Free (events d) = Some Free /\
  open_after (events d) = [] /\
  live_after (events d) = [] /\
  conn_run Idle (events d) = Some Idle /\
  count open_delta (events d) = 0 /\
  count live_delta (events d) = 0 /\
  at_most_one open_delta (events d) /\
  at_most_one live_delta (events d) /\
  exists tail,
    events r = events d ++ tail /\
    slot_run Free tail =
      Some match result r with
           | inr (_, ctx) => Open ctx
           | inl _ => Free
           end /\
    (forall n, (List.length (open_after (firstn n (events r))) <= 1)%nat /\
               (List.length (live_after (firstn n (events r))) <= 1)%nat) /\
    (forall a b dev baud parity data_bit stop_bit rep,
        events r = a ++ Lib (modbus_new_rtu dev baud parity data_bit stop_bit) rep :: b ->
        open_after a = [] /\ live_after a = []) /\
    conn_run Idle (events r) =
      Some match result r with
           | inr _ => Connected
           | inl _ => Idle
           end /\
    at_most_one open_delta (events r) /\
    at_most_one live_delta (events r).
Proof.
  cbv zeta.
  pose proof (find_sensor_port_slot w) as Hs.
  pose proof (slot_run_after _ _ _ Hs) as [Hso Hsl].
  pose proof (find_sensor_port_life_cycle respond w) as Hd.
  pose proof (conn_run_counts _ _ _ Hd) as [Ho Hl].
  unfold open_in, live_in in Ho, Hl.
  pose proof (life_cycle_at_most_one _ _ Hd) as [Hao Hal].
  pose proof (open_session_events respond w) as He. cbv zeta in He.
  destruct He as [Hev Hres].
  pose proof (establish_connection_life_cycle respond
                (result (find_sensor_port respond w))
                (final (find_sensor_port respond w))) as Htail.
  rewrite <- Hres in Htail.
  assert (Hr : conn_run Idle (events (open_session respond w)) =
               Some match result (open_session respond w) with
                    | inr _ => Connected
                    | inl _ => Idle
                    end).
  { rewrite Hev, conn_run_app, Hd. exact Htail. }
  pose proof (life_cycle_at_most_one _ _ Hr) as [Hro Hrl].
  pose proof (open_session_slot w) as Hos. cbv zeta in Hos.
  destruct Hos as (tail & Htl & Hts & Hrs).
  split; [exact Hs|]. split; [exact Hso|]. split; [exact Hsl|].
  split; [exact Hd|]. split; [lia|]. split; [lia|].
  split; [exact Hao|]. split; [exact Hal|].
  exists tail. split; [exact Htl|]. split; [exact Hts|].
  split; [exact (slot_at_most_one _ _ Hrs)|].
  split; [intros a b dev baud parity data_bit stop_bit rep Hsplit;
          exact (slot_request _ a b _ dev baud parity data_bit stop_bit rep Hrs Hsplit)|].
  split; [exact Hr|]. split; assumption.
Qed.

(** The calibration sequence and the sampling loop use the session
    context and nothing else. *)
Lemma execute_calibration_traffic (ctx : ctx_t) (mode : CalibrationMode) (w : W) :
  forallb (session_traffic ctx) (events (execute_calibration respond set_float ctx mode w))
  = true.
Proof.
  unfold execute_calibration, write_float_register, write_integer_register.
  destruct mode; run; repeat first [step | branch];
    cbn [forallb session_traffic]; rewrite ?String.eqb_refl; reflexivity.
Qed.

Lemma sampling_cycle_session_traffic (ctx : ctx_t) (port : string) (s : loop_state) (w : W) :
  forallb (session_traffic ctx) (events (sampling_cycle respond ctx port s w)) = true.
Proof.
  unfold sampling_cycle.
  cbv zeta; cbv [bind lib out ret events].
  cbn -[calculate_smart_ec get_dynamic_k double_of_float Bits32.to_float
        modbus_get_float_abcd to_hex_string B64.sub reg Z.add].
  repeat (match goal with
          | |- context [respond ?w ?c] =>
              is_var w; destruct (respond w c) as [[|?regs] ?w];
              cbn -[calculate_smart_ec get_dynamic_k double_of_float Bits32.to_float
                    modbus_get_float_abcd to_hex_string B64.sub reg Z.add]
          end).
  all: cbn [forallb session_traffic]; rewrite ?String.eqb_refl; reflexivity.
Qed.

Lemma forallb_concat {A : Type} (f : A -> bool) (ls : list (list A)) :
  Forall (fun l => forallb f l = true) ls -> forallb f (List.concat ls) = true.
Proof.
  induction 1 as [|l ls Hl _ IH]; [reflexivity|].
  cbn [List.concat]. rewrite forallb_app, Hl, IH. reflexivity.
Qed.

Lemma sampling_loop_traffic (fuel : nat) (ctx : ctx_t) (port : string) (w : W) :
  forallb (session_traffic ctx) (events (sampling_loop respond fuel ctx port w)) = true.
Proof.
  unfold sampling_loop.
  destruct (while_true_runs
              (fun tr => forallb (session_traffic ctx) tr = true)
              (sampling_cycle respond ctx port)) with
    (fuel := fuel)
    (s := {| loop_count := 0; hex_temp := EmptyString; hex_raw_ec := EmptyString |})
    (w := w) as (_ & cycles & _ & Hev & Hall).
  - intros s w0. split; [apply sampling_cycle_session_traffic|].
    apply (sampling_cycle_ok respond ctx port s w0).
  - rewrite Hev. apply forallb_concat. exact Hall.
Qed.

End Connections.

(** ** Runs against concrete environments *)

(** C3 at a device that accepts the write and reads back something
    else: 7 instead of 3, and for the coefficient 12880.0 the next
    float but one (a distance of 0.002), which is reported, and the
    next float (a distance below 0.001), which is not. *)
Lemma write_and_verify_witness :
  (result (write_integer_register scripted "/dev/ttyUSB0"%string 13 3 [Done []; Done [7]])
   = true /\
   reads (events (write_integer_register scripted "/dev/ttyUSB0"%string 13 3
                    [Done []; Done [7]])) = [("/dev/ttyUSB0"%string, 13, 1, Done [7])] /\
   warnings (events (write_integer_register scripted "/dev/ttyUSB0"%string 13 3
                       [Done []; Done [7]])) = [MsgWarnDiffersInt 3 7]) /\
  (result (write_float_register scripted encode "/dev/ttyUSB0"%string 28
             CALIBRATION_COEFF_VALUE [Done []; Done [0x4649; 0x4002]]) = true /\
   reads (events (write_float_register scripted encode "/dev/ttyUSB0"%string 28
                    CALIBRATION_COEFF_VALUE [Done []; Done [0x4649; 0x4002]])) =
     [("/dev/ttyUSB0"%string, 28, 2, Done [0x4649; 0x4002])] /\
   warnings (events (write_float_register scripted encode "/dev/ttyUSB0"%string 28
                       CALIBRATION_COEFF_VALUE [Done []; Done [0x4649; 0x4002]])) =
     [MsgWarnDiffersFloat 0x46494000 0x46494002]) /\
  warnings (events (write_float_register scripted encode "/dev/ttyUSB0"%string 28
                      CALIBRATION_COEFF_VALUE [Done []; Done [0x4649; 0x4001]])) = [].
Proof.
  destruct (write_and_verify scripted encode "/dev/ttyUSB0"%string 13 3
              [Done []; Done [7]]) as (_ & _ & Hint & _).
  destruct (write_and_verify scripted encode "/dev/ttyUSB0"%string 28
              CALIBRATION_COEFF_VALUE [Done []; Done [0x4649; 0x4002]])
    as (_ & _ & _ & _ & _ & Hflt).
  destruct (write_and_verify scripted encode "/dev/ttyUSB0"%string 28
              CALIBRATION_COEFF_VALUE [Done []; Done [0x4649; 0x4001]])
    as (_ & _ & _ & _ & _ & Hnear).
  destruct Hint as (Hir & Hird & Hiw); [vm_compute; discriminate|].
  destruct Hflt as (Hfr & Hfrd & Hfw); [vm_compute; discriminate|].
  destruct Hnear as (_ & _ & Hnw); [vm_compute; discriminate|].
  specialize (Hiw [7] eq_refl).
  specialize (Hfw [0x4649; 0x4002] eq_refl).
  specialize (Hnw [0x4649; 0x4001] eq_refl).
  split; [split; [exact Hir|split; [exact Hird|exact Hiw]]|].
  split; [split; [exact Hfr|split; [exact Hfrd|exact Hfw]]|].
  exact Hnw.
Defined.

Example mismatch_is_a_warning :
  warnings (events (write_integer_register scripted "/dev/ttyUSB0"%string 13 3
                      [Done []; Done [7]])) = [MsgWarnDiffersInt 3 7] /\
  warnings (events (write_float_register scripted encode "/dev/ttyUSB0"%string 28
                      CALIBRATION_COEFF_VALUE [Done []; Done [0x4649; 0x5000]]))
    = [MsgWarnDiffersFloat 0x46494000 0x46495000] /\
  float_close 0x46495000 0x46494000 = false /\
  float_close 0x46494000 0x46494000 = true.
Proof. vm_compute. repeat split; reflexivity. Qed.

(** A device that keeps what is written reads back the value: no
    warning. *)
Example stored_write_is_verified :
  let r := write_float_register storing_device encode "/dev/ttyUSB0"%string 28
             CALIBRATION_COEFF_VALUE [] in
  result r = true /\
  warnings (events r) = [] /\
  final r = [(29, 0x4000); (28, 0x4649)] /\
  In (Out (Cout MsgWriteVerified)) (events r).
Proof. vm_compute. repeat split; auto 10. Qed.

(** C10 at a device that accepts the write and does not answer the
    read-back. *)
Lemma unverified_write_accepted_witness :
  (result (write_integer_register scripted "/dev/ttyUSB0"%string 13 3 [Done []; Failed]) = true /\
   warnings (events (write_integer_register scripted "/dev/ttyUSB0"%string 13 3
                       [Done []; Failed])) = [MsgWarnNoReadBack] /\
   result (write_integer_register scripted "/dev/ttyUSB0"%string 13 3 [Done []; Done [3]])
   = result (write_integer_register scripted "/dev/ttyUSB0"%string 13 3 [Done []; Failed])) /\
  (result (write_float_register scripted encode "/dev/ttyUSB0"%string 28 CALIBRATION_COEFF_VALUE
             [Done []; Failed]) = true /\
   warnings (events (write_float_register scripted encode "/dev/ttyUSB0"%string 28
                       CALIBRATION_COEFF_VALUE [Done []; Failed])) = [MsgWarnNoReadBack] /\
   result (write_float_register scripted encode "/dev/ttyUSB0"%string 28 CALIBRATION_COEFF_VALUE
             [Done []; Done [0x4649; 0x4000]])
   = result (write_float_register scripted encode "/dev/ttyUSB0"%string 28 CALIBRATION_COEFF_VALUE
               [Done []; Failed])).
Proof.
  pose proof (unverified_write_accepted scripted encode "/dev/ttyUSB0"%string 13 3
                [Done []; Failed]) as Hi.
  pose proof (unverified_write_accepted scripted encode "/dev/ttyUSB0"%string 28
                CALIBRATION_COEFF_VALUE [Done []; Failed]) as Hf.
  cbv zeta in Hi, Hf.
  destruct Hi as [Hi _]. destruct Hf as [_ Hf].
  specialize (Hi ltac:(vm_compute; discriminate) ltac:(vm_compute; reflexivity)).
  specialize (Hf ltac:(vm_compute; discriminate) ltac:(vm_compute; reflexivity)).
  destruct Hi as (Hi1 & Hi2 & Hi3). destruct Hf as (Hf1 & Hf2 & Hf3).
  split.
  - split; [exact Hi1|]. split; [exact Hi2|].
    apply Hi3. vm_compute; discriminate.
  - split; [exact Hf1|]. split; [exact Hf2|].
    apply Hf3. vm_compute; discriminate.
Defined.

(** C4 at a device that accepts the coefficient and rejects the mode
    write: failure, and the two writes are all that was sent. *)
Example mode2_partial_application :
  let r := execute_calibration (stateless rejects_single_write) encode
             "/dev/ttyUSB0"%string CAL_MODE_2 tt in
  result r = false /\
  writes (events r) =
    [(modbus_write_registers "/dev/ttyUSB0"%string 28 2 [0x4649; 0x4000], Done []);
     (modbus_write_register "/dev/ttyUSB0"%string 13 3, Failed)].
Proof. vm_compute. split; reflexivity. Qed.

(** When the coefficient write fails the mode register is not
    touched. *)
Example mode2_short_circuit :
  let r := execute_calibration scripted encode "/dev/ttyUSB0"%string CAL_MODE_2 [Failed] in
  result r = false /\
  writes (events r) =
    [(modbus_write_registers "/dev/ttyUSB0"%string 28 2 [0x4649; 0x4000], Failed)] /\
  reads (events r) = [].
Proof. vm_compute. repeat split; reflexivity. Qed.

(** C5, as stated, fails.  With [/dev/ttyUSB1] and [/dev/ttyACM0] both
    answering, the code returns [/dev/ttyACM0], while a scan of the
    whole USB range before the ACM range would return [/dev/ttyUSB1];
    with [/dev/ttyUSB0] and [/dev/ttyACM1] both answering, it returns
    [/dev/ttyUSB0], while a scan of the whole ACM range before the USB
    range would return [/dev/ttyACM1]. *)
Lemma find_sensor_port_not_scheme_major :
  (result (find_sensor_port (stateless (bus_with ["/dev/ttyUSB1"%string; "/dev/ttyACM0"%string]%string)) tt)
     = "/dev/ttyACM0"%string /\
   find (fun p => mem p ["/dev/ttyUSB1"%string; "/dev/ttyACM0"%string]%string)
        (scheme_major [ttyS; ttyUSB; ttyACM]) = Some "/dev/ttyUSB1"%string) /\
  (result (find_sensor_port (stateless (bus_with ["/dev/ttyUSB0"%string; "/dev/ttyACM1"%string]%string)) tt)
     = "/dev/ttyUSB0"%string /\
   find (fun p => mem p ["/dev/ttyUSB0"%string; "/dev/ttyACM1"%string]%string)
        (scheme_major [ttyS; ttyACM; ttyUSB]) = Some "/dev/ttyACM1"%string).
Proof. vm_compute. repeat split; reflexivity. Qed.

(** Only the second of two candidates answers: the events of the scan,
    with the first probe closed and freed before the second begins. *)
Example second_candidate_answers :
  scan_ports (stateless (bus_with ["/dev/ttyS1"%string]%string))
             ["/dev/ttyS0"%string; "/dev/ttyS1"%string]%string tt =
  ("/dev/ttyS1"%string, tt,
   [Lib (modbus_new_rtu "/dev/ttyS0"%string 9600 "N"%char 8 1) (Done []);
    Lib (modbus_set_slave "/dev/ttyS0"%string 4) (Done []);
    Lib (modbus_set_response_timeout "/dev/ttyS0"%string 0 100000) (Done []);
    Lib (modbus_connect "/dev/ttyS0"%string) (Done []);
    Lib (modbus_read_registers "/dev/ttyS0"%string 60 2) Failed;
    Lib (modbus_close "/dev/ttyS0"%string) (Done []);
    Lib (modbus_free "/dev/ttyS0"%string) (Done []);
    Lib (modbus_new_rtu "/dev/ttyS1"%string 9600 "N"%char 8 1) (Done []);
    Lib (modbus_set_slave "/dev/ttyS1"%string 4) (Done []);
    Lib (modbus_set_response_timeout "/dev/ttyS1"%string 0 100000) (Done []);
    Lib (modbus_connect "/dev/ttyS1"%string) (Done []);
    Lib (modbus_read_registers "/dev/ttyS1"%string 60 2) (Done [0x41C8; 0]);
    Out (Cout (MsgFoundSensor "/dev/ttyS1"%string));
    Lib (modbus_close "/dev/ttyS1"%string) (Done []);
    Lib (modbus_free "/dev/ttyS1"%string) (Done [])]).
Proof. vm_compute. reflexivity. Qed.

(** No device at all: every candidate is tried and the session is not
    opened. *)
Example nothing_answers :
  let r := open_session (stateless (bus_with [])) tt in
  result r = inl (-1) /\
  probed (events r) = candidate_ports /\
  answered (events r) = [] /\
  warnings (events r) = [MsgSensorNotFound].
Proof. vm_compute. repeat split; reflexivity. Qed.

(** Two cycles against a steady sensor at 25.0 degrees and 12.88 mS/cm:
    two dashboards and two CSV rows, the smart value equal to the raw
    one. *)
Example steady_cycles :
  let r := sampling_loop (stateless steady_sensor) 2 "/dev/ttyUSB0"%string "/dev/ttyUSB0"%string tt in
  result r = None /\
  map (fun o => match o with
                | Csv row => (csv_hex_temp row, csv_hex_raw_ec row,
                              SFeqb (csv_smart_ec row) (csv_raw_ec row))
                | _ => (EmptyString, EmptyString, false)
                end) (records (events r)) =
    [(EmptyString, EmptyString, false); ("41C80000"%string, "414E147B"%string, true);
     (EmptyString, EmptyString, false); ("41C80000"%string, "414E147B"%string, true)].
Proof. vm_compute. split; reflexivity. Qed.

(** A sensor that stops answering: cycles go on, nothing is recorded. *)
Example mute_cycles :
  let r := sampling_loop (stateless mute_on_read) 3 "/dev/ttyUSB0"%string "/dev/ttyUSB0"%string tt in
  result r = None /\
  records (events r) = [] /\
  warnings (events r) = [MsgFailedTemperature; MsgFailedTemperature; MsgFailedTemperature] /\
  List.length (reads (events r)) = 3%nat.
Proof. vm_compute. repeat split; reflexivity. Qed.

(** * Further properties *)

(** ** The hex columns *)

Lemma hex_digit_roundtrip (n : Z) :
  0 <= n < 16 -> hex_digit_value (hex_digit n) = Some n.
Proof.
  intros H. destruct n as [|p|p]; [reflexivity| |lia].
  do 4 (try destruct p as [p|p|]); try reflexivity; lia.
Qed.

Lemma hex4_value (acc w : Z) (s : string) :
  hex_value_from acc (hex4 w ++ s) = hex_value_from (65536 * acc + u16 w) s.
Proof.
  pose proof (u16_range w) as Hr. unfold is_u16 in Hr.
  unfold hex4. cbn [String.append hex_value_from].
  set (v := u16 w) in *.
  rewrite !Z.shiftr_div_pow2 by lia.
  change (2 ^ 12) with 4096. change (2 ^ 8) with 256. change (2 ^ 4) with 16.
  rewrite !hex_digit_roundtrip by (apply Z.mod_pos_bound; lia).
  f_equal.
  pose proof (Z.div_mod v 16 ltac:(lia)).
  pose proof (Z.div_mod v 256 ltac:(lia)).
  pose proof (Z.div_mod v 4096 ltac:(lia)).
  pose proof (Z.div_mod (v / 16) 16 ltac:(lia)).
  pose proof (Z.div_mod (v / 256) 16 ltac:(lia)).
  pose proof (Z.div_mod (v / 4096) 16 ltac:(lia)).
  rewrite Z.div_div in * by lia.
  change (16 * 16) with 256 in *. change (256 * 16) with 4096 in *.
  change (4096 * 16) with 65536 in *.
  assert (v / 65536 = 0) by (apply Z.div_small; lia).
  pose proof (Z.mod_pos_bound v 16 ltac:(lia)).
  lia.
Qed.

Lemma modbus_get_float_abcd_sum (w0 w1 : Z) :
  modbus_get_float_abcd (w0, w1) = 65536 * u16 w0 + u16 w1.
Proof.
  pose proof (u16_range w0) as H0. pose proof (u16_range w1) as H1.
  assert (E : modbus_get_float_abcd (w0, w1) = modbus_get_float_abcd (u16 w0, u16 w1)).
  { unfold modbus_get_float_abcd; cbn [fst snd].
    rewrite !(u16_id (u16 _)) by apply u16_range. reflexivity. }
  rewrite E, modbus_get_float_abcd_value by assumption.
  rewrite <- Z.lxor_lor, <- Z.add_nocarry_lxor.
  - rewrite Z.shiftl_mul_pow2 by lia. change (2 ^ 16) with 65536. lia.
  - apply Z.bits_inj'; intros n Hn.
    rewrite Z.land_spec, Z.shiftl_spec, Z.bits_0 by lia.
    destruct (Z.ltb_spec n 16).
    + rewrite (Z.testbit_neg_r _ (n - 16)) by lia. reflexivity.
    + rewrite (testbit_above (u16 w1) 16 n) by (unfold is_u16 in *; lia).
      apply andb_false_r.
  - apply Z.bits_inj'; intros n Hn.
    rewrite Z.land_spec, Z.shiftl_spec, Z.bits_0 by lia.
    destruct (Z.ltb_spec n 16).
    + rewrite (Z.testbit_neg_r _ (n - 16)) by lia. reflexivity.
    + rewrite (testbit_above (u16 w1) 16 n) by (unfold is_u16 in *; lia).
      apply andb_false_r.
Qed.

Lemma to_hex_string_value (reg_high reg_low : Z) :
  hex_value (to_hex_string reg_high reg_low) =
    Some (modbus_get_float_abcd (reg_high, reg_low)).
Proof.
  unfold hex_value, to_hex_string.
  rewrite hex4_value.
  replace (hex4 reg_low) with (hex4 reg_low ++ EmptyString)%string by reflexivity.
  rewrite hex4_value, modbus_get_float_abcd_sum.
  cbn [hex_value_from]. f_equal; lia.
Qed.

(** X1. The hex string of two register words always has eight
    characters, and read back as a hexadecimal number it is exactly the
    32-bit pattern that [modbus_get_float_abcd] decodes from the same
    two words. *)
Theorem to_hex_string_is_decoded_pattern (reg_high reg_low : Z) :
  String.length (to_hex_string reg_high reg_low) = 8%nat /\
  hex_value (to_hex_string reg_high reg_low) =
    Some (modbus_get_float_abcd (reg_high, reg_low)).
Proof. split; [reflexivity|apply to_hex_string_value]. Qed.

(** X2. Two pairs of words have the same hex string exactly when they
    agree as 16-bit values. *)
Theorem to_hex_string_injective (a b c d : Z) :
  to_hex_string a b = to_hex_string c d <-> u16 a = u16 c /\ u16 b = u16 d.
Proof.
  split.
  - intros H.
    pose proof (to_hex_string_value a b) as H1.
    pose proof (to_hex_string_value c d) as H2.
    rewrite H, H2 in H1. injection H1 as H1.
    rewrite !modbus_get_float_abcd_sum in H1.
    pose proof (u16_range a). pose proof (u16_range b).
    pose proof (u16_range c). pose proof (u16_range d).
    unfold is_u16 in *. lia.
  - intros [Ha Hb]. unfold to_hex_string, hex4. cbv zeta.
    rewrite Ha, Hb. reflexivity.
Qed.

(** ** The verdict of the dashboard *)

(** X21. A reading that is not a number never passes and is never
    ranked: when the sensor's value or the recomputed value is NaN, that
    value is marked FAIL and the improvement line reads "No difference",
    whatever the other value is; for a NaN sensor value the improvement
    percentage shown is 0.0. *)
Theorem nan_is_no_difference (other : spec_float) :
  (sensor_pass (validate S754_nan other) = false /\
   judged (validate S754_nan other) = NoDifference /\
   improvement_percent (validate S754_nan other) = d0_0) /\
  (smart_pass (validate other S754_nan) = false /\
   judged (validate other S754_nan) = NoDifference).
Proof.
  unfold validate; cbn [sensor_pass smart_pass judged improvement_percent].
  split.
  - repeat split; reflexivity.
  - generalize (SFabs (B64.sub other STANDARD_VALUE)). intros e.
    change (SFabs (B64.sub S754_nan STANDARD_VALUE)) with S754_nan.
    assert (H : B64.sub e S754_nan = S754_nan) by (destruct e; reflexivity).
    rewrite H. split; reflexivity.
Qed.

(** The verdict at 13.0 against a recomputed value on the standard: the
    sensor fails the tolerance, the recomputed value passes and is
    declared better. *)
Example validate_example :
  sensor_pass (validate Lit.d13_0 STANDARD_VALUE) = false /\
  smart_pass (validate Lit.d13_0 STANDARD_VALUE) = true /\
  judged (validate Lit.d13_0 STANDARD_VALUE) = SmartIsBetter.
Proof. vm_compute. repeat split; reflexivity. Qed.

(** ** The compensation engine, further *)

(** X3. The range shown on the dashboard and the coefficient used agree:
    "Very Cold" goes with 0.0180, "Cold" with 0.0184, "Cool" and
    "Normal" both with 0.0190, and "Warm" with 0.0192 or 0.0194 (the
    label does not tell the two apart).  A NaN temperature is labelled
    "Warm" and gets 0.0194. *)
Theorem condition_matches_coefficient (temp : spec_float) :
  (get_temp_condition temp = "Very Cold Range (≤5°C)"%string <->
   get_dynamic_k temp = Lit.d0_0180) /\
  (get_temp_condition temp = "Cold Range (5-10°C)"%string <->
   get_dynamic_k temp = Lit.d0_0184) /\
  (get_temp_condition temp = "Cool Range (10-15°C)"%string \/
   get_temp_condition temp = "Normal Range (15-25°C)"%string <->
   get_dynamic_k temp = Lit.d0_0190) /\
  (get_temp_condition temp = "Warm Range (>25°C)"%string <->
   get_dynamic_k temp = Lit.d0_0192 \/ get_dynamic_k temp = Lit.d0_0194) /\
  get_temp_condition S754_nan = "Warm Range (>25°C)"%string.
Proof.
  unfold get_temp_condition, get_dynamic_k.
  destruct (B64.leb temp Lit.d5_0);
    [|destruct (B64.leb temp Lit.d10_0);
      [|destruct (B64.leb temp Lit.d15_0);
        [|destruct (B64.leb temp Lit.d25_0);
          [|destruct (B64.leb temp Lit.d30_0)]]]].
  all: repeat split; try (intros [H|H]); try intros H;
    try discriminate H; try reflexivity; auto.
Qed.

(** X4. Not-a-number goes through the compensation unchanged, and an
    infinite temperature gives a zero: [calculate_smart_ec] returns NaN
    when the temperature or the raw value is NaN, and for an infinite
    temperature it returns a signed zero for every raw value that is a
    number (NaN for an infinite raw value). *)
Theorem calculate_smart_ec_non_numbers (raw_ec temp : spec_float) (s : bool) :
  calculate_smart_ec raw_ec S754_nan = S754_nan /\
  calculate_smart_ec S754_nan temp = S754_nan /\
  calculate_smart_ec raw_ec (S754_infinity s) =
    match raw_ec with
    | S754_nan | S754_infinity _ => S754_nan
    | S754_zero sr | S754_finite sr _ _ => S754_zero (xorb sr s)
    end.
Proof.
  split; [destruct raw_ec; reflexivity|].
  split; [reflexivity|].
  destruct s, raw_ec; reflexivity.
Qed.

(** The read-back test on a value read back bit for bit: it passes
    exactly for numbers. *)
Lemma float_close_same (b : Z) :
  float_close b b = is_number (Bits32.to_float b).
Proof.
  unfold float_close, B32.ltb, B32.sub.
  destruct (Bits32.to_float b) as [s|s| |s m e]; cbn [is_number].
  - destruct s; reflexivity.
  - destruct s; reflexivity.
  - reflexivity.
  - unfold SFsub. rewrite Z.sub_diag. reflexivity.
Qed.

Section MoreProperties.
Context {W : Type}.
Variable respond : W -> call -> reply * W.
Variable set_float : Z -> Z * Z.

Ltac step :=
  match goal with
  | |- context [respond ?w ?c] =>
      is_var w; destruct (respond w c) as [[|?regs] ?w]; cbn
  end.

Ltac branch :=
  match goal with
  | |- context [if ?b then _ else _] => destruct b; cbn
  end.

Ltac run := cbv zeta; cbv [bind lib out ret result final events]; cbn.

(** ** The write helpers and the calibration sequence, further *)

(** X5. When the device returns exactly the pattern that was written,
    [write_float_register] reports the write as verified if the value is
    a number, and warns of a mismatch if it is an infinity or a NaN
    (for which the difference test can never pass). *)
Theorem exact_read_back (ctx : ctx_t) (reg_addr value : Z) (w : W) (regs : list Z) :
  let r := write_float_register respond set_float ctx reg_addr value w in
  reads (events r) = [(ctx, reg_addr, 2, Done regs)] ->
  modbus_get_float_abcd (reg regs 0, reg regs 1) = value ->
  result r = true /\
  warnings (events r) =
    if is_number (Bits32.to_float value) then []
    else [MsgWarnDiffersFloat value value].
Proof.
  cbv zeta. intros Hreads Hsame.
  pose proof (write_float_register_run respond set_float ctx reg_addr value w) as H.
  cbv zeta in H. destruct H as (Hres & _ & H).
  destruct (fst (respond w _)).
  - destruct H as (_ & Hrd & _). rewrite Hrd in Hreads. discriminate.
  - destruct H as (_ & Hrd & Hw). rewrite Hrd in Hreads.
    injection Hreads as Hrb. rewrite Hrb in Hw. cbv zeta in Hw.
    rewrite Hsame, float_close_same in Hw.
    split; [exact Hres|exact Hw].
Qed.

(** X6. In every mode [execute_calibration] returns [true] exactly when
    every write it issued was accepted, and it reads back once per
    accepted write and never after a rejected one. *)
Theorem execute_calibration_result (ctx : ctx_t) (mode : CalibrationMode) (w : W) :
  let r := execute_calibration respond set_float ctx mode w in
  result r = forallb (fun x => accepted (snd x)) (writes (events r)) /\
  List.length (reads (events r)) =
    List.length (filter (fun x => accepted (snd x)) (writes (events r))).
Proof.
  unfold execute_calibration, write_float_register, write_integer_register.
  destruct mode; run; repeat first [step | branch]; split; reflexivity.
Qed.

(** ** Discovery, further *)

Lemma scan_ports_traffic (ports : list string) (w : W) :
  let r := scan_ports respond ports w in
  writes (events r) = [] /\
  records (events r) = [] /\
  Forall (handshake_on ports)
         (reads (events r)).
Proof.
  cbv zeta. revert w.
  induction ports as [|port rest IH]; intros w.
  - split; [reflexivity|]. split; [reflexivity|constructor].
  - assert (Hweak : forall l,
               Forall (handshake_on rest) l -> Forall (handshake_on (port :: rest)) l).
    { intros l Hl. eapply Forall_impl; [|exact Hl].
      intros [[[c a] n] r] (Hin & H1 & H2). cbn. auto. }
    cbn [scan_ports]. run.
    repeat step;
      try (match goal with
           | |- context [scan_ports respond rest ?w'] =>
               specialize (IH w');
               destruct (scan_ports respond rest w') as [[p w''] tr]
           end; cbn in *; destruct IH as (IHw & IHc & IHr));
      (split; [assumption || reflexivity|]);
      (split; [assumption || reflexivity|]);
      repeat (constructor; [cbn; auto|]); auto; constructor.
Qed.

Lemma find_sensor_port_traffic (w : W) :
  let r := find_sensor_port respond w in
  writes (events r) = [] /\
  records (events r) = [] /\
  Forall (handshake_on candidate_ports) (reads (events r)).
Proof.
  assert (G : forall ports,
             let r := (out (Cout MsgScanning) ;; scan_ports respond ports) w in
             writes (events r) = [] /\
             records (events r) = [] /\
             Forall (handshake_on ports) (reads (events r))).
  { intros ports. pose proof (scan_ports_traffic ports w) as H.
    cbv zeta in *. cbv [bind out events] in *.
    destruct (scan_ports respond ports w) as [[p w'] tr]. exact H. }
  exact (G candidate_ports).
Qed.

(** X7. Discovery never writes a register, and every read it issues is
    the handshake: two registers from address 60, on a context of one
    of the candidate ports. *)
Theorem discovery_only_handshakes (w : W) :
  let r := find_sensor_port respond w in
  writes (events r) = [] /\
  Forall (handshake_on candidate_ports) (reads (events r)).
Proof.
  pose proof (find_sensor_port_traffic w) as H. cbv zeta in *. tauto.
Qed.

Lemma candidate_ports_named :
  Forall (fun p => p <> EmptyString) candidate_ports.
Proof. vm_compute. repeat constructor; discriminate. Qed.

Lemma announced_scan_not_found (ports : list string) (w : W) :
  Forall (fun p => p <> EmptyString) ports ->
  let r := (out (Cout MsgScanning) ;; scan_ports respond ports) w in
  result r = EmptyString <-> answered (events r) = [].
Proof.
  intros Hn. cbv zeta.
  pose proof (announced_scan_first respond ports w) as H. cbv zeta in H.
  destruct H as [(Ha & Hr & _)|(pre & post & Hports & _ & Ha)].
  - tauto.
  - split.
    + intros Hr. exfalso.
      rewrite Hports in Hn. apply Forall_app in Hn. destruct Hn as [_ Hn].
      inversion Hn; subst. congruence.
    + rewrite Ha. discriminate.
Qed.

(** X8. [find_sensor_port] returns the empty string exactly when no
    handshake read succeeded, so the test [port.empty()] in [main] is
    the test for "no sensor". *)
Theorem not_found_is_empty_string (w : W) :
  let r := find_sensor_port respond w in
  result r = EmptyString <-> answered (events r) = [].
Proof. exact (announced_scan_not_found candidate_ports w candidate_ports_named). Qed.

(** ** The sampling loop, further *)

Ltac step_cycle :=
  match goal with
  | |- context [respond ?w ?c] =>
      is_var w; destruct (respond w c) as [[|?regs] ?w];
      cbn -[calculate_smart_ec get_dynamic_k double_of_float Bits32.to_float
            modbus_get_float_abcd to_hex_string B64.sub reg Z.add]
  end.

Ltac run_cycle :=
  unfold sampling_cycle;
  cbv zeta; cbv [bind lib out ret result final events];
  cbn -[calculate_smart_ec get_dynamic_k double_of_float Bits32.to_float
        modbus_get_float_abcd to_hex_string B64.sub reg Z.add].

(** A read of the sampling loop: two registers from 60, 45 or 41 on the
    session context. *)
Lemma sampling_cycle_traffic (ctx : ctx_t) (port : string) (s : loop_state) (w : W) :
  let r := sampling_cycle respond ctx port s w in
  writes (events r) = [] /\
  Forall (sample_read ctx) (reads (events r)) /\
  (forall d, In (Out (Display d)) (events r) ->
             dash_sample_count d = loop_count s + 1).
Proof.
  run_cycle. repeat step_cycle.
  all: split; [reflexivity|]; split;
    [repeat (apply Forall_cons; [cbn; auto 6|]); apply Forall_nil|].
  all: intros d Hin; cbn [In] in Hin;
    repeat (destruct Hin as [Hin|Hin]; [try discriminate Hin|]);
    try contradiction.
  all: apply (f_equal (fun e => match e with
                                  | Out (Display d0) => dash_sample_count d0
                                  | _ => 0
                                  end)) in Hin;
    cbn [dash_sample_count] in Hin; symmetry; exact Hin.
Qed.

(** X9. What a pass reads, displays and logs depends on the earlier
    passes only through the pass counter: the hex strings kept from
    earlier passes never reach a record, and after a pass whose three
    reads succeeded they are those of that pass. *)
Theorem sampling_cycle_uses_fresh_reads
        (ctx : ctx_t) (port : string) (s s' : loop_state) (w : W) :
  loop_count s = loop_count s' ->
  events (sampling_cycle respond ctx port s w) =
  events (sampling_cycle respond ctx port s' w) /\
  (existsb read_failed (reads (events (sampling_cycle respond ctx port s w))) = false ->
   result (sampling_cycle respond ctx port s w) =
   result (sampling_cycle respond ctx port s' w)).
Proof.
  destruct s as [c h1 h2], s' as [c' h1' h2']. cbn [loop_count]. intros <-.
  run_cycle. repeat step_cycle; split; try reflexivity; discriminate.
Qed.

Lemma writes_app (a b : trace) : writes (a ++ b) = writes a ++ writes b.
Proof.
  induction a as [|e a IH]; [reflexivity|].
  destruct e as [c r|o]; [destruct c|]; cbn; rewrite ?IH; reflexivity.
Qed.

Lemma reads_app (a b : trace) : reads (a ++ b) = reads a ++ reads b.
Proof.
  induction a as [|e a IH]; [reflexivity|].
  destruct e as [c r|o]; [destruct c|]; cbn; rewrite ?IH; reflexivity.
Qed.

(** The passes of the loop, one by one. *)
Lemma sampling_passes (fuel : nat) (ctx : ctx_t) (port : string) (s : loop_state) (w : W) :
  let r := while_true fuel (sampling_cycle respond ctx port) s w in
  exists cycles,
    List.length cycles = fuel /\
    events r = List.concat cycles /\
    Forall (cycle_ok ctx) cycles /\
    writes (events r) = [] /\
    Forall (sample_read ctx) (reads (events r)) /\
    (forall i tr d,
        nth_error cycles i = Some tr -> In (Out (Display d)) tr ->
        dash_sample_count d = loop_count s + Z.of_nat i + 1).
Proof.
  cbv zeta. revert s w. induction fuel as [|fuel IH]; intros s w.
  - exists []. repeat split; try constructor.
    intros [|i] tr d H; discriminate H.
  - cbn [while_true]. cbv [bind events].
    pose proof (sampling_cycle_ok respond ctx port s w) as Hok.
    pose proof (sampling_cycle_traffic ctx port s w) as Htr.
    cbv zeta in Hok, Htr. cbv [result events] in Hok, Htr.
    destruct (sampling_cycle respond ctx port s w) as [[[ce s'] w'] tr].
    cbn [fst snd] in *.
    destruct Hok as (Hc & Hnb & Hcount). destruct Htr as (Hw & Hr & Hd).
    destruct (IH s' w') as (cycles & Hlen & Hev & Hall & Hws & Hrs & Hds).
    cbv [events] in Hev, Hws, Hrs.
    destruct ce; [| |congruence].
    all: cbn beta iota;
      destruct (while_true fuel (sampling_cycle respond ctx port) s' w')
        as [[res w''] tr2];
      cbn [fst snd] in *;
      exists (tr :: cycles); cbn [List.length List.concat].
    all: split; [congruence|]; split; [congruence|].
    all: split; [constructor; assumption|].
    all: split; [rewrite writes_app, Hw, Hws; reflexivity|].
    all: split; [rewrite reads_app; apply Forall_app; split; assumption|].
    all: intros [|i] tr0 d Hnth Hin; cbn [nth_error] in Hnth.
    all: try (injection Hnth as <-; rewrite (Hd d Hin); lia).
    all: rewrite (Hds i tr0 d Hnth Hin), Hcount; lia.
Qed.

(** X10. The sampling loop only reads: it never writes a register,
    never opens or closes anything, and every read is of two registers
    at 60, 45 or 41 on the session context. *)
Theorem sampling_loop_read_only (fuel : nat) (ctx : ctx_t) (port : string) (w : W) :
  let r := sampling_loop respond fuel ctx port w in
  writes (events r) = [] /\
  Forall (sample_read ctx) (reads (events r)) /\
  conn_run Connected (events r) = Some Connected.
Proof.
  cbv zeta. unfold sampling_loop.
  destruct (sampling_passes fuel ctx port
              {| loop_count := 0; hex_temp := EmptyString; hex_raw_ec := EmptyString |} w)
    as (cycles & _ & _ & _ & Hw & Hr & _).
  split; [exact Hw|]. split; [exact Hr|].
  exact (sampling_loop_stays_connected respond fuel ctx port w).
Qed.

(** X11. The sample number on the dashboard counts passes, abandoned
    ones included.  [loop_count] is an [int]: for as many passes as an
    [int] can count (2147483647), a dashboard emitted in the [i]-th
    pass (counted from 1) shows [i], and the counter has not left the
    range of [int]. *)
Theorem sample_count_counts_every_pass
        (fuel : nat) (ctx : ctx_t) (port : string) (w : W) :
  Z.of_nat fuel <= 2147483647 ->
  let r := sampling_loop respond fuel ctx port w in
  exists cycles,
    List.length cycles = fuel /\
    events r = List.concat cycles /\
    Forall (cycle_ok ctx) cycles /\
    (forall i tr d,
        nth_error cycles i = Some tr -> In (Out (Display d)) tr ->
        dash_sample_count d = Z.of_nat i + 1 /\
        1 <= dash_sample_count d <= 2147483647).
Proof.
  intros Hfuel. cbv zeta. unfold sampling_loop.
  destruct (sampling_passes fuel ctx port
              {| loop_count := 0; hex_temp := EmptyString; hex_raw_ec := EmptyString |} w)
    as (cycles & Hlen & Hev & Hall & _ & _ & Hd).
  exists cycles. split; [exact Hlen|]. split; [exact Hev|]. split; [exact Hall|].
  intros i tr d Hnth Hin.
  pose proof (Hd i tr d Hnth Hin) as Hc. cbn [loop_count] in Hc.
  assert (Hi : (i < List.length cycles)%nat)
    by (apply nth_error_Some; rewrite Hnth; discriminate).
  split; lia.
Qed.

End MoreProperties.

(** ** The interactive parts *)

Section ConsoleProperties.
Context {W : Type}.
Variable respond : W -> call -> reply * W.
Variable sys : W -> sys_call -> reply * W.
Variable set_float : Z -> Z * Z.
Variable atoi : string -> Z.

(** *** Choosing the calibration mode *)

Lemma is_flag_false (arg : string) :
  is_flag arg = false ->
  String.eqb arg "--mode" = false /\
  (String.eqb arg "--help" || String.eqb arg "-h") = false.
Proof.
  unfold is_flag. intros H.
  destruct (String.eqb arg "--mode"); [discriminate|].
  split; [reflexivity|exact H].
Qed.

(** Arguments that are not flags are skipped without a trace. *)
Lemma scan_args_skips (pre rest : list string) (w : W) :
  Forall (fun a => is_flag a = false) pre ->
  scan_args atoi (pre ++ rest) w = scan_args atoi rest w.
Proof.
  induction 1 as [|arg pre Harg _ IH]; [reflexivity|].
  apply is_flag_false in Harg. destruct Harg as [Hm Hh].
  cbn [app scan_args]. rewrite Hm. cbv [xbind xret]. rewrite Hh.
  destruct (scan_args atoi (pre ++ rest) w) as [[x w'] t].
  rewrite <- IH. reflexivity.
Qed.

(** X12. The first flag on the command line decides.  After arguments
    that are not flags: [--mode v] with [atoi v] between 0 and 3
    selects that mode without a prompt; [--help] or [-h] ends the
    process with code 0; and [--mode v] with another number is
    reported and the scan goes on with [v] itself as the next
    argument. *)
Theorem first_flag_decides (argv0 : string) (pre post : list string) (v : string) (w : W) :
  Forall (fun a => is_flag a = false) pre ->
  (0 <= atoi v <= 3 ->
   get_calibration_mode sys atoi (argv0 :: pre ++ "--mode"%string :: v :: post) w =
   (Selected (mode_of_int (atoi v)), w, [Note (NoteUsingMode (atoi v))])) /\
  (get_calibration_mode sys atoi (argv0 :: pre ++ "--help"%string :: post) w =
   (Exit 0, w, [Note NoteUsage])) /\
  (get_calibration_mode sys atoi (argv0 :: pre ++ "-h"%string :: post) w =
   (Exit 0, w, [Note NoteUsage])) /\
  (~ 0 <= atoi v <= 3 ->
   scan_args atoi (pre ++ "--mode"%string :: v :: post) w =
   let '(r, w', t) := scan_args atoi (v :: post) w in
   (r, w', Note (NoteInvalidMode (atoi v)) :: t)).
Proof.
  intros Hpre. unfold get_calibration_mode. cbn [tl].
  repeat split.
  - intros Hv. cbv [xbind]. rewrite (scan_args_skips pre _ w Hpre).
    cbn [scan_args]. cbn [String.eqb Ascii.eqb Bool.eqb andb].
    replace ((0 <=? atoi v) && (atoi v <=? 3)) with true
      by (symmetry; apply andb_true_intro; split; apply Z.leb_le; lia).
    reflexivity.
  - cbv [xbind]. rewrite (scan_args_skips pre _ w Hpre). reflexivity.
  - cbv [xbind]. rewrite (scan_args_skips pre _ w Hpre). reflexivity.
  - intros Hv. rewrite (scan_args_skips pre _ w Hpre).
    cbn [scan_args]. cbn [String.eqb Ascii.eqb Bool.eqb andb].
    replace ((0 <=? atoi v) && (atoi v <=? 3)) with false
      by (symmetry; apply andb_false_iff;
          destruct (Z.leb_spec 0 (atoi v)); [right; apply Z.leb_gt; lia|left; reflexivity]).
    cbv [xbind xret say]. cbn [orb].
    destruct (scan_args atoi (v :: post) w) as [[r w'] t]. reflexivity.
Qed.

(** X13. Without a flag on the command line the prompt decides: a
    number between 0 and 3 selects that mode, any other answer selects
    mode 0, the console is asked exactly once and the call never ends
    the process. *)
Theorem prompt_decides (argv : list string) (w : W) :
  Forall (fun a => is_flag a = false) (tl argv) ->
  let answer := fst (sys w cin_int) in
  let choice := match answer with
                | Done (n :: _) => n
                | _ => 0
                end in
  let r := get_calibration_mode sys atoi argv w in
  xresult r = Selected (if (0 <=? choice) && (choice <=? 3)
                        then mode_of_int choice else CAL_MODE_NONE) /\
  sys_events (xevents r) = [(cin_int, answer)] /\
  xfinal r = snd (sys w cin_int).
Proof.
  intros Hargs. cbv zeta. unfold get_calibration_mode.
  cbv [xbind].
  pose proof (scan_args_skips (tl argv) [] w Hargs) as Hs.
  rewrite app_nil_r in Hs. rewrite Hs. cbn [scan_args].
  cbv [xret say syscall xresult xevents xfinal].
  destruct (sys w cin_int) as [answer w1]. cbn [fst snd].
  destruct ((0 <=? match answer with Done (n :: _) => n | _ => 0 end) &&
            (match answer with Done (n :: _) => n | _ => 0 end <=? 3));
    cbn; auto.
Qed.

(** *** Traces of the outer layer *)

Lemma core_events_app (a b : list xevent) :
  core_events (a ++ b) = core_events a ++ core_events b.
Proof.
  induction a as [|e a IH]; [reflexivity|].
  destruct e; cbn; rewrite ?IH; reflexivity.
Qed.

Lemma core_events_core (t : trace) : core_events (map Core t) = t.
Proof. induction t as [|e t IH]; [reflexivity|]. cbn. rewrite IH. reflexivity. Qed.

Lemma key_polls_app (a b : list xevent) :
  key_polls (a ++ b) = key_polls a ++ key_polls b.
Proof.
  induction a as [|e a IH]; [reflexivity|].
  destruct e as [e|c r|n]; [|destruct c|]; cbn; rewrite ?IH; reflexivity.
Qed.

Lemma terminal_calls_app (a b : list xevent) :
  terminal_calls (a ++ b) = terminal_calls a ++ terminal_calls b.
Proof.
  induction a as [|e a IH]; [reflexivity|].
  destruct e as [e|c r|n]; [|destruct c|]; cbn; rewrite ?IH; reflexivity.
Qed.

Lemma sys_events_app (a b : list xevent) :
  sys_events (a ++ b) = sys_events a ++ sys_events b.
Proof.
  induction a as [|e a IH]; [reflexivity|].
  destruct e; cbn; rewrite ?IH; reflexivity.
Qed.

Lemma notes_app (a b : list xevent) : notes (a ++ b) = notes a ++ notes b.
Proof.
  induction a as [|e a IH]; [reflexivity|].
  destruct e; cbn; rewrite ?IH; reflexivity.
Qed.

Lemma outer_of_core (t : trace) :
  key_polls (map Core t) = [] /\ terminal_calls (map Core t) = [] /\
  sys_events (map Core t) = [] /\ notes (map Core t) = [].
Proof. induction t as [|e t IH]; [auto|]. cbn. exact IH. Qed.

Lemma records_app (a b : trace) : records (a ++ b) = records a ++ records b.
Proof.
  induction a as [|e a IH]; [reflexivity|].
  destruct e as [c r|o]; [|destruct o]; cbn; rewrite ?IH; reflexivity.
Qed.

Lemma read_targets_app (a b : trace) :
  read_targets (a ++ b) = read_targets a ++ read_targets b.
Proof. unfold read_targets. rewrite reads_app, map_app. reflexivity. Qed.

(** *** The diagnostic monitor *)

Ltac xstep :=
  match goal with
  | |- context [respond ?w ?c] =>
      is_var w; destruct (respond w c) as [[|?regs] ?w]; cbn
  | |- context [sys ?w ?c] =>
      is_var w; destruct (sys w c) as [?key ?w]; cbn
  end.

(** One pass: the five reads in order whatever their answers, one poll
    of the keyboard, and the loop is left exactly on a stop key. *)
Lemma diagnostics_pass_run (ctx : ctx_t) (n : Z) (w : W) :
  let r := diagnostics_pass respond sys ctx n w in
  read_targets (core_events (xevents r)) = diagnostic_reads ctx /\
  writes (core_events (xevents r)) = [] /\
  records (core_events (xevents r)) = [] /\
  conn_run Connected (core_events (xevents r)) = Some Connected /\
  terminal_calls (xevents r) = [] /\
  exists key,
    key_polls (xevents r) = [key] /\
    xresult r = if stop_key key then Break else FallThrough.
Proof.
  unfold diagnostics_pass, show_register, show_float_register, bus.
  cbv zeta; cbv [xbind xret core syscall say lib xresult xevents]. cbn.
  repeat xstep.
  all: match goal with
       | |- context [stop_key ?k] => destruct (stop_key k) eqn:Ek; cbn
       end.
  all: try (destruct (respond _ (sleep 1)) as [[|?] ?]; cbn).
  all: repeat split; eexists; split; [reflexivity|]; rewrite Ek; reflexivity.
Qed.

Lemma monitor_run (fuel : nat) (ctx : ctx_t) (n : Z) (w : W) :
  let r := monitor respond sys fuel ctx n w in
  read_targets (core_events (xevents r)) =
    List.concat (repeat (diagnostic_reads ctx) (List.length (key_polls (xevents r)))) /\
  writes (core_events (xevents r)) = [] /\
  records (core_events (xevents r)) = [] /\
  conn_run Connected (core_events (xevents r)) = Some Connected /\
  terminal_calls (xevents r) = [] /\
  (List.length (key_polls (xevents r)) <= fuel)%nat /\
  (xresult r = true ->
   exists ks k, key_polls (xevents r) = ks ++ [k] /\ stop_key k = true /\
                Forall (fun k => stop_key k = false) ks) /\
  (xresult r = false ->
   List.length (key_polls (xevents r)) = fuel /\
   Forall (fun k => stop_key k = false) (key_polls (xevents r))).
Proof.
  cbv zeta. revert n w. induction fuel as [|fuel IH]; intros n w.
  - cbn. repeat split; try discriminate; auto.
  - cbn [monitor]. cbv zeta. cbv [xbind xresult xevents].
    pose proof (diagnostics_pass_run ctx (n + 1) w) as Hp.
    cbv zeta in Hp. cbv [xresult xevents] in Hp.
    destruct (diagnostics_pass respond sys ctx (n + 1) w) as [[e w1] t1].
    cbn [fst snd] in *.
    destruct Hp as (Hrt & Hwr & Hrc & Hcn & Htc & key & Hkp & He).
    specialize (IH (n + 1) w1). cbv [xresult xevents] in IH.
    destruct (stop_key key) eqn:Ek; subst e.
    + cbv [xret]. cbn [fst snd]. rewrite !app_nil_r, Hkp, Hrt, Hwr, Hrc, Hcn, Htc.
      cbn [List.length repeat List.concat]. rewrite app_nil_r.
      repeat split; try discriminate; try lia.
      exists [], key. repeat split; auto.
    + destruct (monitor respond sys fuel ctx (n + 1) w1) as [[b w2] t2].
      cbn [fst snd] in *.
      destruct IH as (IHrt & IHwr & IHrc & IHcn & IHtc & IHlen & IHt & IHf).
      rewrite core_events_app, key_polls_app, terminal_calls_app,
        read_targets_app, writes_app, records_app, conn_run_app.
      rewrite Hkp, Hrt, Hwr, Hrc, Hcn, Htc, IHrt, IHwr, IHrc, IHtc.
      cbn [app List.length repeat List.concat].
      repeat split; try assumption; try lia.
      * intros Hb. destruct (IHt Hb) as (ks & k & Hks & Hk & Hall).
        exists (key :: ks), k. rewrite Hks. repeat split; auto.
      * destruct (IHf H) as [Hl _]. lia.
      * destruct (IHf H) as [_ Hall]. constructor; assumption.
Qed.

Lemma display_sensor_diagnostics_run (fuel : nat) (ctx : ctx_t) (w : W) :
  let r := display_sensor_diagnostics respond sys fuel ctx w in
  read_targets (core_events (xevents r)) =
    List.concat (repeat (diagnostic_reads ctx) (List.length (key_polls (xevents r)))) /\
  (List.length (key_polls (xevents r)) <= fuel)%nat /\
  writes (core_events (xevents r)) = [] /\
  records (core_events (xevents r)) = [] /\
  conn_run Connected (core_events (xevents r)) = Some Connected /\
  (xresult r = true ->
   (exists ks k, key_polls (xevents r) = ks ++ [k] /\ stop_key k = true /\
                 Forall (fun k => stop_key k = false) ks) /\
   terminal_calls (xevents r) = [tcgetattr; tcsetattr true; tcsetattr false]) /\
  (xresult r = false ->
   List.length (key_polls (xevents r)) = fuel /\
   Forall (fun k => stop_key k = false) (key_polls (xevents r)) /\
   terminal_calls (xevents r) = [tcgetattr; tcsetattr true]).
Proof.
  cbv zeta. unfold display_sensor_diagnostics, bus.
  cbv [xbind xret core syscall say lib xresult xevents].
  destruct (respond w (sleep 2)) as [r0 w0].
  destruct (sys w0 tcgetattr) as [r1 w1].
  destruct (sys w1 (tcsetattr true)) as [r2 w2].
  pose proof (monitor_run fuel ctx 0 w2) as Hm.
  cbv zeta in Hm. cbv [xresult xevents] in Hm.
  destruct (monitor respond sys fuel ctx 0 w2) as [[b w3] t].
  cbn [fst snd] in *.
  destruct Hm as (Hrt & Hwr & Hrec & Hcn & Htc & Hlen & Ht & Hf).
  destruct b; [destruct (sys w3 (tcsetattr false)) as [r4 w4]|];
    cbn [map app core_events key_polls terminal_calls fst snd].
  all: rewrite ?core_events_app, ?key_polls_app, ?terminal_calls_app, ?app_nil_r;
    cbn [map app core_events key_polls terminal_calls fst snd]; rewrite ?app_nil_r.
  all: change (Lib (sleep 2) r0 :: core_events t)
         with ([Lib (sleep 2) r0] ++ core_events t).
  all: rewrite read_targets_app, writes_app, records_app, conn_run_app, Hrt, Hwr, Hrec, Htc.
  all: cbn [read_targets reads writes records map app conn_run conn_step].
  all: repeat (split; [assumption || reflexivity|]).
  - split; [|discriminate]. intros _. split; [apply Ht; reflexivity|reflexivity].
  - split; [discriminate|]. intros _.
    destruct (Hf eq_refl) as [Hl Hall]. auto.
Qed.

(** X14. Every pass of the diagnostic monitor reads registers 1, 2, 16,
    13 and the pair 28-29, in that order and whatever the earlier reads
    answered, and polls the keyboard once; the monitor never writes a
    register and never opens or closes the connection. *)
Theorem diagnostics_traffic (fuel : nat) (ctx : ctx_t) (w : W) :
  let r := display_sensor_diagnostics respond sys fuel ctx w in
  read_targets (core_events (xevents r)) =
    List.concat (repeat (diagnostic_reads ctx) (List.length (key_polls (xevents r)))) /\
  (List.length (key_polls (xevents r)) <= fuel)%nat /\
  writes (core_events (xevents r)) = [] /\
  conn_run Connected (core_events (xevents r)) = Some Connected.
Proof.
  pose proof (display_sensor_diagnostics_run fuel ctx w) as H. cbv zeta in *.
  tauto.
Qed.

(** X15. The monitor is left only by Enter, Return or Space: when it
    returns, the last key polled is one of these and no earlier one
    was, and the terminal settings have been restored; while no such
    key arrives it keeps running with the terminal in raw mode, one
    poll per pass. *)
Theorem diagnostics_leaves_on_stop_key (fuel : nat) (ctx : ctx_t) (w : W) :
  let r := display_sensor_diagnostics respond sys fuel ctx w in
  (xresult r = true ->
   (exists ks k, key_polls (xevents r) = ks ++ [k] /\ stop_key k = true /\
                 Forall (fun k => stop_key k = false) ks) /\
   terminal_calls (xevents r) = [tcgetattr; tcsetattr true; tcsetattr false]) /\
  (xresult r = false ->
   List.length (key_polls (xevents r)) = fuel /\
   Forall (fun k => stop_key k = false) (key_polls (xevents r)) /\
   terminal_calls (xevents r) = [tcgetattr; tcsetattr true]).
Proof.
  pose proof (display_sensor_diagnostics_run fuel ctx w) as H. cbv zeta in *.
  tauto.
Qed.

(** *** The whole run *)

Lemma sampling_loop_running (fuel : nat) (ctx : ctx_t) (port : string) (w : W) :
  result (sampling_loop respond fuel ctx port w) = None.
Proof.
  unfold sampling_loop.
  apply (while_true_runs (fun _ => True) (sampling_cycle respond ctx port)).
  intros s w0. split; [exact I|].
  apply (sampling_cycle_ok respond ctx port s w0).
Qed.

(** Choosing the mode makes no register traffic and touches neither the
    terminal mode nor the log file; it can end the process only with
    code 0 and only for a help flag. *)
Lemma scan_args_quiet (args : list string) (w : W) :
  let r := scan_args atoi args w in
  core_events (xevents r) = [] /\
  forallb early (xevents r) = true /\
  sys_events (xevents r) = [] /\
  xfinal r = w /\
  (forall c, xresult r = Some (Exit c) -> c = 0 /\ Exists is_help args).
Proof.
  cbv zeta. induction args as [|arg rest IH].
  - cbn. repeat split; discriminate.
  - cbn [scan_args]. cbv [xbind xret say xresult xevents xfinal] in *.
    destruct (String.eqb arg "--mode") eqn:Em.
    + destruct rest as [|next rest'].
      * apply String.eqb_eq in Em. subst arg. cbn. repeat split; discriminate.
      * destruct ((0 <=? atoi next) && (atoi next <=? 3)).
        -- cbn. repeat split; discriminate.
        -- apply String.eqb_eq in Em. subst arg. cbn [String.eqb Ascii.eqb Bool.eqb orb].
           destruct (scan_args atoi (next :: rest') w) as [[x w'] t].
           cbn [fst snd app core_events forallb early sys_events andb] in *.
           destruct IH as (H1 & H2 & H3 & H4 & H5).
           repeat split; try assumption.
           ++ apply (H5 c H).
           ++ apply Exists_cons_tl. apply (H5 c H).
    + destruct (String.eqb arg "--help" || String.eqb arg "-h") eqn:Eh.
      * cbn. repeat split; try (injection H as <-; reflexivity).
        apply Exists_cons_hd. apply orb_true_iff in Eh.
        destruct Eh as [Eh|Eh]; apply String.eqb_eq in Eh; [left|right]; exact Eh.
      * destruct (scan_args atoi rest w) as [[x w'] t].
        cbn [fst snd app] in *.
        destruct IH as (H1 & H2 & H3 & H4 & H5).
        repeat split; try assumption.
        -- apply (H5 c H).
        -- apply Exists_cons_tl. apply (H5 c H).
Qed.

Lemma get_calibration_mode_quiet (argv : list string) (w : W) :
  let r := get_calibration_mode sys atoi argv w in
  core_events (xevents r) = [] /\
  forallb early (xevents r) = true /\
  (forall c, xresult r = Exit c -> c = 0 /\ Exists is_help (tl argv)).
Proof.
  cbv zeta. unfold get_calibration_mode. cbv [xbind].
  pose proof (scan_args_quiet (tl argv) w) as Hs.
  cbv zeta in Hs. cbv [xresult xevents xfinal] in *.
  destruct (scan_args atoi (tl argv) w) as [[found w1] t].
  cbn [fst snd] in *. destruct Hs as (H1 & H2 & _ & _ & H5).
  destruct found as [sel|].
  - cbv [xret]. cbn [fst snd]. rewrite app_nil_r.
    repeat split; try assumption.
    + subst sel. apply (H5 c eq_refl).
    + subst sel. apply (H5 c eq_refl).
  - cbv [xret say syscall].
    destruct (sys w1 cin_int) as [answer w2].
    destruct ((0 <=? match answer with Done (n :: _) => n | _ => 0 end) &&
              (match answer with Done (n :: _) => n | _ => 0 end <=? 3));
      cbn [fst snd]; rewrite ?core_events_app, ?forallb_app, H1, H2; cbn;
      repeat split; discriminate.
Qed.

Lemma display_sensor_diagnostics_early (fuel : nat) (ctx : ctx_t) (w : W) :
  forallb early (xevents (display_sensor_diagnostics respond sys fuel ctx w)) = true.
Proof.
  assert (Hpass : forall n w0,
             forallb early (xevents (diagnostics_pass respond sys ctx n w0)) = true).
  { intros n w0.
    unfold diagnostics_pass, show_register, show_float_register, bus.
    cbv zeta; cbv [xbind xret core syscall say lib xresult xevents]. cbn.
    repeat xstep.
    all: match goal with
         | |- context [stop_key ?k] => destruct (stop_key k); cbn
         end.
    all: try (destruct (respond _ (sleep 1)) as [[|?] ?]; cbn).
    all: reflexivity. }
  assert (Hmon : forall f n w0,
             forallb early (xevents (monitor respond sys f ctx n w0)) = true).
  { induction f as [|f IH]; intros n w0; [reflexivity|].
    cbn [monitor]. cbv zeta. cbv [xbind xevents].
    specialize (Hpass (n + 1) w0). cbv [xevents] in Hpass.
    destruct (diagnostics_pass respond sys ctx (n + 1) w0) as [[e w1] t1].
    cbn [snd] in Hpass.
    specialize (IH (n + 1) w1). cbv [xevents] in IH.
    destruct e; cbv [xret]; cbn [snd];
      try (destruct (monitor respond sys f ctx (n + 1) w1) as [[b w2] t2];
           cbn [snd] in *);
      rewrite forallb_app, Hpass; cbn; auto. }
  unfold display_sensor_diagnostics, bus.
  cbv [xbind xret core syscall say lib xresult xevents].
  destruct (respond w (sleep 2)) as [r0 w0].
  destruct (sys w0 tcgetattr) as [r1 w1].
  destruct (sys w1 (tcsetattr true)) as [r2 w2].
  specialize (Hmon fuel 0 w2). cbv [xevents] in Hmon.
  destruct (monitor respond sys fuel ctx 0 w2) as [[b w3] t].
  cbn [snd] in Hmon.
  destruct b; [destruct (sys w3 (tcsetattr false)) as [r4 w4]|];
    cbn [map app forallb early snd andb];
    rewrite ?forallb_app, Hmon; reflexivity.
Qed.

(** What [run_session] does, part by part. *)
Lemma run_session_shape (fuel_diag fuel_loop : nat) (argv : list string)
      (port : string) (ctx : ctx_t) (w : W) :
  let r := run_session respond sys set_float atoi fuel_diag fuel_loop argv port ctx w in
  let d := display_sensor_diagnostics respond sys fuel_diag ctx w in
  let g := get_calibration_mode sys atoi argv (xfinal d) in
  if xresult d then
    match xresult g with
    | Exit code =>
        xresult r = Some code /\ xevents r = xevents d ++ xevents g
    | Selected mode =>
        let c := execute_calibration respond set_float ctx mode (xfinal g) in
        let s1 := respond (final c) (sleep 1) in
        let a := sys (snd s1) access_csv in
        let o := sys (snd a) open_csv in
        let l := sampling_loop respond fuel_loop ctx port (snd o) in
        xresult r = None /\
        xevents r =
          xevents d ++ xevents g ++ map Core (events c) ++
          (if result c then [] else [Note NoteCalibrationFailed]) ++
          [Core (Lib (sleep 1) (fst s1)); Sys access_csv (fst a); Sys open_csv (fst o)] ++
          match fst a with
          | Failed => [Note NoteCsvHeader]
          | Done _ => []
          end ++
          map Core (events l)
    end
  else xresult r = None /\ xevents r = xevents d.
Proof.
  cbv zeta. unfold run_session. cbv [xbind xresult xfinal xevents].
  destruct (display_sensor_diagnostics respond sys fuel_diag ctx w) as [[left w1] td].
  cbn [fst snd]. destruct left.
  - destruct (get_calibration_mode sys atoi argv w1) as [[sel w2] tg].
    cbn [fst snd]. destruct sel as [mode|code].
    + cbv [core bus lib syscall say xret result final events].
      destruct (execute_calibration respond set_float ctx mode w2) as [[ok w3] tc].
      cbv beta iota zeta. cbn [fst snd].
      destruct ok; cbv beta iota zeta.
      all: destruct (respond w3 (sleep 1)) as [r1 w4]; cbv beta iota zeta; cbn [fst snd].
      all: destruct (sys w4 access_csv) as [a w5]; cbv beta iota zeta; cbn [fst snd].
      all: destruct (sys w5 open_csv) as [o w6]; cbv beta iota zeta; cbn [fst snd].
      all: destruct a; cbv beta iota zeta.
      all: pose proof (sampling_loop_running fuel_loop ctx port w6) as Hl;
        cbv [result] in Hl;
        destruct (sampling_loop respond fuel_loop ctx port w6) as [[l w7] tl];
        cbn [fst snd] in *; subst l; cbv beta iota zeta; cbn [fst snd map app].
      all: rewrite ?app_nil_r; split; [reflexivity|].
      all: rewrite <- ?app_assoc; reflexivity.
    + cbv [xret]. cbn [fst snd]. rewrite app_nil_r. split; reflexivity.
  - cbv [xret]. cbn [fst snd]. rewrite app_nil_r. split; reflexivity.
Qed.

Lemma main_after_shape (session : prog W (Z + (string * ctx_t)))
      (fuel_diag fuel_loop : nat) (argv : list string) (w : W) :
  let o := session w in
  let m := main_after respond sys set_float atoi session fuel_diag fuel_loop argv w in
  match result o with
  | inl code => xresult m = Some code /\ xevents m = map Core (events o)
  | inr (port, ctx) =>
      let r := run_session respond sys set_float atoi fuel_diag fuel_loop argv
                 port ctx (final o) in
      xresult m = xresult r /\ xevents m = map Core (events o) ++ xevents r
  end.
Proof.
  cbv zeta. unfold main_after. cbv [xbind core xresult xevents result final events].
  destruct (session w) as [[s w1] t]. cbn [fst snd].
  destruct s as [code|[port ctx]].
  - cbv [xret]. cbn [fst snd]. rewrite app_nil_r. split; reflexivity.
  - destruct (run_session respond sys set_float atoi fuel_diag fuel_loop argv port ctx w1)
      as [[x w2] t2].
    split; reflexivity.
Qed.

Lemma establish_connection_quiet (port : string) (w : W) :
  let r := establish_connection respond port w in
  writes (events r) = [] /\
  records (events r) = [] /\
  (forall c, result r = inl c -> c = -1).
Proof.
  unfold establish_connection.
  destruct (String.eqb port EmptyString);
    cbv zeta; cbv [bind lib out ret result final events]; cbn.
  - repeat split. intros c [= <-]. reflexivity.
  - repeat (match goal with
            | |- context [respond ?w ?c] =>
                is_var w; destruct (respond w c) as [[|?regs] ?w]; cbn
            end);
      repeat split; intros c H; try discriminate H;
      injection H as <-; reflexivity.
Qed.

(** What the rest of the program relies on from steps 1 and 2. *)
Lemma open_session_facts (w : W) :
  let o := open_session respond w in
  conn_run Idle (events o) =
    Some match result o with
         | inr _ => Connected
         | inl _ => Idle
         end /\
  writes (events o) = [] /\
  records (events o) = [] /\
  (forall c, result o = inl c -> c = -1).
Proof.
  cbv zeta.
  pose proof (open_session_events respond w) as He. cbv zeta in He.
  destruct He as [Hev Hres].
  pose proof (find_sensor_port_life_cycle respond w) as Hd.
  pose proof (find_sensor_port_traffic respond w) as Ht. cbv zeta in Ht.
  destruct Ht as (Hdw & Hdr & _).
  pose proof (establish_connection_life_cycle respond
                (result (find_sensor_port respond w))
                (final (find_sensor_port respond w))) as Hl.
  pose proof (establish_connection_quiet
                (result (find_sensor_port respond w))
                (final (find_sensor_port respond w))) as Hq.
  cbv zeta in Hq. destruct Hq as (Hew & Her & Hec).
  rewrite <- Hres in Hl, Hec.
  rewrite Hev, conn_run_app, Hd, writes_app, records_app, Hdw, Hdr, Hew, Her.
  repeat split; assumption.
Qed.

Lemma execute_calibration_writes (ctx : ctx_t) (mode : CalibrationMode) (w : W) :
  let r := execute_calibration respond set_float ctx mode w in
  Forall (fun x => calibration_write set_float (fst x)) (writes (events r)) /\
  (List.length (writes (events r)) <= 2)%nat /\
  records (events r) = [].
Proof.
  unfold execute_calibration, write_float_register, write_integer_register.
  cbv [CAL_MODE_1_VALUE CAL_MODE_2_VALUE CALIBRATION_REG_MODE CALIBRATION_REG_COEFF].
  change (u16 2) with 2. change (u16 3) with 3. change (u16 190) with 190.
  destruct mode; cbv zeta; cbv [bind lib out ret result final events]; cbn.
  all: repeat first
         [ match goal with
           | |- context [respond ?w ?c] =>
               is_var w; destruct (respond w c) as [[|?regs] ?w]; cbn
           end
         | match goal with
           | |- context [if ?b then _ else _] => destruct b; cbn
           end ].
  all: split; [|split; [lia|reflexivity]].
  all: repeat (apply Forall_cons; [exists ctx; cbn; auto 6|]); apply Forall_nil.
Qed.

Lemma core_events_warning (b : bool) :
  core_events (if b then [] else [Note NoteCalibrationFailed]) = [].
Proof. destruct b; reflexivity. Qed.

Lemma core_events_header (a : reply) :
  core_events match a with
              | Failed => [Note NoteCsvHeader]
              | Done _ => []
              end = [].
Proof. destruct a; reflexivity. Qed.

(** The register-layer events of a run of [main_after]: those of the
    opening of the session, then those of the monitor, then (when a
    mode was selected) those of the calibration, the pause and the
    sampling loop. *)
Lemma main_core_events (session : prog W (Z + (string * ctx_t)))
      (fuel_diag fuel_loop : nat) (argv : list string) (w : W) :
  let o := session w in
  let m := main_after respond sys set_float atoi session fuel_diag fuel_loop argv w in
  match result o with
  | inl _ => core_events (xevents m) = events o
  | inr (port, ctx) =>
      exists td tail,
        core_events (xevents m) = events o ++ td ++ tail /\
        writes td = [] /\ records td = [] /\
        conn_run Connected td = Some Connected /\
        (tail = [] \/
         exists mode w2 r1 w6,
           tail = events (execute_calibration respond set_float ctx mode w2) ++
                  [Lib (sleep 1) r1] ++
                  events (sampling_loop respond fuel_loop ctx port w6))
  end.
Proof.
  cbv zeta.
  pose proof (main_after_shape session fuel_diag fuel_loop argv w) as Hm.
  cbv zeta in Hm.
  destruct (result (session w)) as [code|[port ctx]].
  - destruct Hm as [_ Hev]. rewrite Hev. apply core_events_core.
  - destruct Hm as [_ Hev]. rewrite Hev, core_events_app, core_events_core.
    pose proof (run_session_shape fuel_diag fuel_loop argv port ctx (final (session w)))
      as Hr. cbv zeta in Hr.
    pose proof (display_sensor_diagnostics_run fuel_diag ctx (final (session w))) as Hd.
    cbv zeta in Hd. destruct Hd as (_ & _ & Hdw & Hdr & Hdc & _).
    exists (core_events
              (xevents (display_sensor_diagnostics respond sys fuel_diag ctx
                          (final (session w))))).
    destruct (xresult (display_sensor_diagnostics respond sys fuel_diag ctx
                         (final (session w)))).
    + pose proof (get_calibration_mode_quiet argv
                    (xfinal (display_sensor_diagnostics respond sys fuel_diag ctx
                               (final (session w))))) as Hg.
      cbv zeta in Hg. destruct Hg as (Hgc & _).
      destruct (xresult (get_calibration_mode sys atoi argv _)) as [mode|code].
      * destruct Hr as [_ Hr]. rewrite Hr.
        eexists. split; [|split; [exact Hdw|split; [exact Hdr|split; [exact Hdc|]]]].
        -- rewrite !core_events_app, Hgc, !core_events_core,
             core_events_warning, core_events_header.
           cbn [core_events app]. reflexivity.
        -- right. do 4 eexists. reflexivity.
      * destruct Hr as [_ Hr]. rewrite Hr, core_events_app, Hgc, app_nil_r.
        exists []. rewrite app_nil_r. auto 10.
    + destruct Hr as [_ Hr]. rewrite Hr.
      exists []. rewrite app_nil_r. auto 10.
Qed.

Lemma early_in (tr : list xevent) (e : xevent) :
  forallb early tr = true -> In e tr -> early e = true.
Proof. intros H Hin. rewrite forallb_forall in H. apply H. exact Hin. Qed.

Lemma early_core (t : trace) : forallb early (map Core t) = true.
Proof. induction t as [|e t IH]; [reflexivity|exact IH]. Qed.

Lemma early_no_access (tr : list xevent) (r : reply) :
  forallb early tr = true -> ~ In (access_csv, r) (sys_events tr).
Proof.
  induction tr as [|e tr IH]; [intros _ []|].
  cbn [forallb]. intros H. apply andb_true_iff in H. destruct H as [He Ht].
  destruct e as [e|c r0|n]; cbn [sys_events]; [auto| |auto].
  intros [Heq|Hin]; [|exact (IH Ht Hin)].
  injection Heq as -> ->. discriminate He.
Qed.

Lemma sampling_loop_quiet (fuel : nat) (ctx : ctx_t) (port : string) (w : W) :
  writes (events (sampling_loop respond fuel ctx port w)) = [].
Proof.
  unfold sampling_loop.
  destruct (sampling_passes respond fuel ctx port
              {| loop_count := 0; hex_temp := EmptyString; hex_raw_ec := EmptyString |} w)
    as (cycles & _ & _ & _ & Hw & _).
  exact Hw.
Qed.

(** X16. [main] ends with code -1 exactly when no session could be
    opened (no sensor found, or the session context or connection
    failed); the only other way it ends is with code 0 for a help flag
    on the command line.  In particular no failure of the monitor, of
    the calibration or of a sampling read ends it. *)
Theorem main_exit_codes (fuel_diag fuel_loop : nat) (argv : list string) (w : W) :
  let o := open_session respond w in
  let m := main respond sys set_float atoi fuel_diag fuel_loop argv w in
  (xresult m = Some (-1) <-> exists code, result o = inl code) /\
  (forall c, xresult m = Some c -> c = -1 \/ (c = 0 /\ Exists is_help (tl argv))).
Proof.
  cbv zeta. unfold main.
  pose proof (main_after_shape (open_session respond) fuel_diag fuel_loop argv w) as Hm.
  pose proof (open_session_facts w) as Ho.
  cbv zeta in Hm, Ho. destruct Ho as (_ & _ & _ & Hcode).
  destruct (result (open_session respond w)) as [code|[port ctx]].
  - destruct Hm as [Hres _]. rewrite Hres. rewrite (Hcode code eq_refl).
    split; [split; eauto|]. intros c [= <-]. left. reflexivity.
  - destruct Hm as [Hres _]. rewrite Hres.
    pose proof (run_session_shape fuel_diag fuel_loop argv port ctx
                  (final (open_session respond w))) as Hr.
    cbv zeta in Hr.
    destruct (xresult (display_sensor_diagnostics respond sys fuel_diag ctx _)).
    + pose proof (get_calibration_mode_quiet argv
                    (xfinal (display_sensor_diagnostics respond sys fuel_diag ctx
                               (final (open_session respond w))))) as Hg.
      cbv zeta in Hg. destruct Hg as (_ & _ & Hexit).
      destruct (xresult (get_calibration_mode sys atoi argv _)) as [mode|code].
      * destruct Hr as [Hr _]. rewrite Hr.
        split; [split; [discriminate|intros [c Hc]; discriminate Hc]|discriminate].
      * destruct Hr as [Hr _]. rewrite Hr.
        destruct (Hexit code eq_refl) as [-> Hhelp].
        split; [split; [discriminate|intros [c Hc]; discriminate Hc]|].
        intros c [= <-]. right. auto.
    + destruct Hr as [Hr _]. rewrite Hr.
      split; [split; [discriminate|intros [c Hc]; discriminate Hc]|discriminate].
Qed.

(** X17. A failed calibration is not fatal: whenever the warning
    "calibration failed, continuing" is printed, the program goes on
    into the sampling loop. *)
Theorem calibration_failure_is_not_fatal
        (fuel_diag fuel_loop : nat) (argv : list string) (w : W) :
  let m := main respond sys set_float atoi fuel_diag fuel_loop argv w in
  In (Note NoteCalibrationFailed) (xevents m) ->
  xresult m = None /\
  exists pre port ctx w',
    xevents m = pre ++ map Core (events (sampling_loop respond fuel_loop ctx port w')).
Proof.
  cbv zeta. unfold main.
  pose proof (main_after_shape (open_session respond) fuel_diag fuel_loop argv w) as Hm.
  cbv zeta in Hm.
  destruct (result (open_session respond w)) as [code|[port ctx]].
  - destruct Hm as [_ Hev]. rewrite Hev. intros Hin.
    apply (early_in _ _ (early_core _)) in Hin. discriminate Hin.
  - destruct Hm as [Hres Hev]. rewrite Hres, Hev.
    pose proof (run_session_shape fuel_diag fuel_loop argv port ctx
                  (final (open_session respond w))) as Hr.
    cbv zeta in Hr.
    pose proof (display_sensor_diagnostics_early fuel_diag ctx
                  (final (open_session respond w))) as Hde.
    destruct (xresult (display_sensor_diagnostics respond sys fuel_diag ctx _)).
    + pose proof (get_calibration_mode_quiet argv
                    (xfinal (display_sensor_diagnostics respond sys fuel_diag ctx
                               (final (open_session respond w))))) as Hg.
      cbv zeta in Hg. destruct Hg as (_ & Hge & _).
      destruct (xresult (get_calibration_mode sys atoi argv _)) as [mode|code].
      * destruct Hr as [Hr1 Hr2]. rewrite Hr1, Hr2. intros _.
        split; [reflexivity|].
        eexists. exists port, ctx. eexists.
        rewrite !app_assoc. reflexivity.
      * destruct Hr as [_ Hr2]. rewrite Hr2. intros Hin. exfalso.
        assert (He : forallb early
                       (map Core (events (open_session respond w)) ++
                        xevents (display_sensor_diagnostics respond sys fuel_diag ctx
                                   (final (open_session respond w))) ++
                        xevents (get_calibration_mode sys atoi argv
                                   (xfinal (display_sensor_diagnostics respond sys
                                              fuel_diag ctx
                                              (final (open_session respond w)))))) = true)
          by (rewrite !forallb_app, early_core, Hde, Hge; reflexivity).
        apply (early_in _ _ He) in Hin. discriminate Hin.
    + destruct Hr as [_ Hr2]. rewrite Hr2. intros Hin. exfalso.
      assert (He : forallb early
                     (map Core (events (open_session respond w)) ++
                      xevents (display_sensor_diagnostics respond sys fuel_diag ctx
                                 (final (open_session respond w)))) = true)
        by (rewrite !forallb_app, early_core, Hde; reflexivity).
      apply (early_in _ _ He) in Hin. discriminate Hin.
Qed.

(** X18. The whole program writes to the device only in the calibration
    sequence: every register write of a run is 13 <- 2, 13 <- 3,
    16 <- 190 or the coefficient pair at 28, and there are at most two
    of them. *)
Theorem program_writes (fuel_diag fuel_loop : nat) (argv : list string) (w : W) :
  let m := main respond sys set_float atoi fuel_diag fuel_loop argv w in
  Forall (fun x => calibration_write set_float (fst x))
         (writes (core_events (xevents m))) /\
  (List.length (writes (core_events (xevents m))) <= 2)%nat.
Proof.
  cbv zeta. unfold main.
  pose proof (main_core_events (open_session respond) fuel_diag fuel_loop argv w) as Hm.
  pose proof (open_session_facts w) as Ho.
  cbv zeta in Hm, Ho. destruct Ho as (_ & How & _ & _).
  destruct (result (open_session respond w)) as [code|[port ctx]].
  - rewrite Hm, How. split; [constructor|cbn; lia].
  - destruct Hm as (td & tail & Hev & Hdw & _ & _ & Htail).
    rewrite Hev, !writes_app, How, Hdw. cbn [app].
    destruct Htail as [->|(mode & w2 & r1 & w6 & ->)].
    + split; [constructor|cbn; lia].
    + rewrite !writes_app, sampling_loop_quiet. cbn [writes app].
      rewrite app_nil_r.
      pose proof (execute_calibration_writes ctx mode w2) as Hc. cbv zeta in Hc.
      tauto.
Qed.

(** The diagnostic monitor uses the session context and nothing
    else. *)
Lemma diagnostics_pass_session_traffic (ctx : ctx_t) (n : Z) (w : W) :
  forallb (session_traffic ctx)
          (core_events (xevents (diagnostics_pass respond sys ctx n w))) = true.
Proof.
  unfold diagnostics_pass, show_register, show_float_register, bus.
  cbv zeta; cbv [xbind xret core syscall say lib xresult xevents]. cbn.
  repeat xstep.
  all: match goal with
       | |- context [stop_key ?k] => destruct (stop_key k); cbn
       end.
  all: try (destruct (respond _ (sleep 1)) as [[|?] ?]; cbn).
  all: rewrite ?String.eqb_refl; reflexivity.
Qed.

Lemma monitor_session_traffic (fuel : nat) (ctx : ctx_t) (n : Z) (w : W) :
  forallb (session_traffic ctx)
          (core_events (xevents (monitor respond sys fuel ctx n w))) = true.
Proof.
  revert n w. induction fuel as [|fuel IH]; intros n w; [reflexivity|].
  cbn [monitor]. cbv zeta. cbv [xbind xevents].
  pose proof (diagnostics_pass_session_traffic ctx (n + 1) w) as Hp.
  cbv [xevents] in Hp.
  destruct (diagnostics_pass respond sys ctx (n + 1) w) as [[e w1] t1].
  cbn [snd] in Hp.
  specialize (IH (n + 1) w1). cbv [xevents] in IH.
  destruct e; cbv [xret]; cbn [snd]; rewrite ?app_nil_r; try exact Hp.
  all: destruct (monitor respond sys fuel ctx (n + 1) w1) as [[b w2] t2];
    cbn [snd] in *; rewrite core_events_app, forallb_app, Hp, IH; reflexivity.
Qed.

Lemma display_sensor_diagnostics_session_traffic (fuel : nat) (ctx : ctx_t) (w : W) :
  forallb (session_traffic ctx)
          (core_events (xevents (display_sensor_diagnostics respond sys fuel ctx w))) = true.
Proof.
  unfold display_sensor_diagnostics, bus.
  cbv [xbind xret core syscall say lib xresult xevents].
  destruct (respond w (sleep 2)) as [r0 w0].
  destruct (sys w0 tcgetattr) as [r1 w1].
  destruct (sys w1 (tcsetattr true)) as [r2 w2].
  pose proof (monitor_session_traffic fuel ctx 0 w2) as Hm. cbv [xevents] in Hm.
  destruct (monitor respond sys fuel ctx 0 w2) as [[b w3] t].
  cbn [fst snd] in *.
  destruct b; [destruct (sys w3 (tcsetattr false)) as [r4 w4]|];
    cbn [map app core_events fst snd];
    rewrite ?core_events_app, ?app_nil_r;
    cbn [map app core_events forallb session_traffic andb];
    rewrite ?forallb_app, Hm; reflexivity.
Qed.

Lemma run_session_traffic (fuel_diag fuel_loop : nat) (argv : list string)
      (port : string) (ctx : ctx_t) (w : W) :
  forallb (session_traffic ctx)
          (core_events
             (xevents (run_session respond sys set_float atoi fuel_diag fuel_loop argv
                         port ctx w))) = true.
Proof.
  pose proof (run_session_shape fuel_diag fuel_loop argv port ctx w) as Hr.
  cbv zeta in Hr.
  pose proof (display_sensor_diagnostics_session_traffic fuel_diag ctx w) as Hd.
  destruct (xresult (display_sensor_diagnostics respond sys fuel_diag ctx w)).
  - pose proof (get_calibration_mode_quiet argv
                  (xfinal (display_sensor_diagnostics respond sys fuel_diag ctx w))) as Hg.
    cbv zeta in Hg. destruct Hg as (Hgc & _).
    destruct (xresult (get_calibration_mode sys atoi argv _)) as [mode|code].
    + destruct Hr as [_ Hr]. rewrite Hr.
      rewrite !core_events_app, Hgc, !core_events_core,
        core_events_warning, core_events_header.
      cbn [core_events app].
      rewrite !forallb_app, Hd, execute_calibration_traffic.
      cbn [forallb session_traffic andb]. apply sampling_loop_traffic.
    + destruct Hr as [_ Hr]. rewrite Hr, core_events_app, Hgc, app_nil_r. exact Hd.
  - destruct Hr as [_ Hr]. rewrite Hr. exact Hd.
Qed.

(** X19. The whole run follows the life cycle of the connection slot,
    context by context: at every instant at most one connection is open
    and at most one context is live, every call names the context that
    is live, and the run is left without any context exactly when no
    session was opened; a session once opened stays connected on its
    own context. *)
Theorem whole_run_life_cycle (fuel_diag fuel_loop : nat) (argv : list string) (w : W) :
  let o := open_session respond w in
  let m := main respond sys set_float atoi fuel_diag fuel_loop argv w in
  slot_run Free (core_events (xevents m)) =
    Some match result o with
         | inr (_, ctx) => Open ctx
         | inl _ => Free
         end /\
  (forall n,
      (List.length (open_after (firstn n (core_events (xevents m)))) <= 1)%nat /\
      (List.length (live_after (firstn n (core_events (xevents m)))) <= 1)%nat) /\
  conn_run Idle (core_events (xevents m)) =
    Some match result o with
         | inr _ => Connected
         | inl _ => Idle
         end /\
  at_most_one open_delta (core_events (xevents m)) /\
  at_most_one live_delta (core_events (xevents m)).
Proof.
  cbv zeta.
  assert (H : conn_run Idle
                (core_events
                   (xevents (main respond sys set_float atoi fuel_diag fuel_loop argv w))) =
              Some match result (open_session respond w) with
                   | inr _ => Connected
                   | inl _ => Idle
                   end).
  { unfold main.
    pose proof (main_core_events (open_session respond) fuel_diag fuel_loop argv w) as Hm.
    pose proof (open_session_facts w) as Ho.
    cbv zeta in Hm, Ho. destruct Ho as (Hoc & _).
    destruct (result (open_session respond w)) as [code|[port ctx]].
    - rewrite Hm. exact Hoc.
    - destruct Hm as (td & tail & Hev & _ & _ & Hdc & Htail).
      rewrite Hev, conn_run_app, Hoc. cbv beta iota.
      rewrite conn_run_app, Hdc. cbv beta iota.
      destruct Htail as [->|(mode & w2 & r1 & w6 & ->)]; [reflexivity|].
      rewrite conn_run_app, execute_calibration_stays_connected. cbv beta iota.
      cbn [app conn_run conn_step]. apply sampling_loop_stays_connected. }
  assert (S : slot_run Free
                (core_events
                   (xevents (main respond sys set_float atoi fuel_diag fuel_loop argv w))) =
              Some match result (open_session respond w) with
                   | inr (_, ctx) => Open ctx
                   | inl _ => Free
                   end).
  { unfold main.
    pose proof (main_after_shape (open_session respond) fuel_diag fuel_loop argv w) as Hm.
    pose proof (open_session_slot respond w) as Ho.
    cbv zeta in Hm, Ho. destruct Ho as (tail & _ & _ & Hos).
    destruct (result (open_session respond w)) as [code|[port ctx]].
    - destruct Hm as [_ Hev]. rewrite Hev, core_events_core. exact Hos.
    - destruct Hm as [_ Hev].
      rewrite Hev, core_events_app, core_events_core, slot_run_app, Hos.
      cbv beta iota.
      apply traffic_keeps_slot, run_session_traffic. }
  split; [exact S|]. split; [exact (slot_at_most_one _ _ S)|].
  split; [exact H|]. exact (life_cycle_at_most_one _ _ H).
Qed.

(** *** The log file *)

Lemma rows_before_header_none (a b : list xevent) :
  records (core_events a) = [] ->
  rows_before_header (a ++ Note NoteCsvHeader :: b) = [].
Proof.
  induction a as [|e a IH]; [reflexivity|].
  destruct e as [e|c r|n]; cbn [app core_events rows_before_header].
  - destruct e as [c r|o]; cbn [records]; [exact IH|].
    destruct o; try exact IH; discriminate.
  - exact IH.
  - destruct n; auto.
Qed.

Lemma early_header_free (tr : list xevent) :
  forallb early tr = true -> forallb header_free tr = true.
Proof.
  induction tr as [|e tr IH]; [reflexivity|].
  cbn [forallb]. intros H. apply andb_true_iff in H. destruct H as [He Ht].
  rewrite (IH Ht), andb_true_r.
  destruct e as [e|c r|n]; [reflexivity|destruct c|destruct n];
    try reflexivity; discriminate He.
Qed.

Lemma header_free_spec (tr : list xevent) :
  forallb header_free tr = true ->
  ~ In (Note NoteCsvHeader) tr /\ ~ In (access_csv, Failed) (sys_events tr).
Proof.
  induction tr as [|e tr IH]; [intros _; split; intros []|].
  cbn [forallb]. intros H. apply andb_true_iff in H. destruct H as [He Ht].
  destruct (IH Ht) as [IH1 IH2].
  split.
  - intros [Heq|Hin]; [subst e; discriminate He|exact (IH1 Hin)].
  - destruct e as [e|c r|n]; cbn [sys_events]; [exact IH2| |exact IH2].
    intros [Heq|Hin]; [|exact (IH2 Hin)].
    injection Heq as -> ->. discriminate He.
Qed.

(** X20. The CSV header is written exactly when the log file did not
    exist, and then before any row: the header note is in the trace if
    and only if the file test answered "no such file", and no row
    precedes it. *)
Theorem csv_header_for_new_file (fuel_diag fuel_loop : nat) (argv : list string) (w : W) :
  let m := main respond sys set_float atoi fuel_diag fuel_loop argv w in
  (In (Note NoteCsvHeader) (xevents m) <->
   In (access_csv, Failed) (sys_events (xevents m))) /\
  (In (Note NoteCsvHeader) (xevents m) -> rows_before_header (xevents m) = []).
Proof.
  cbv zeta. unfold main.
  pose proof (main_after_shape (open_session respond) fuel_diag fuel_loop argv w) as Hm.
  cbv zeta in Hm.
  pose proof (open_session_facts w) as Ho. cbv zeta in Ho.
  destruct Ho as (_ & _ & Hor & _).
  assert (Hfree : forall tr, forallb header_free tr = true ->
            (In (Note NoteCsvHeader) tr <-> In (access_csv, Failed) (sys_events tr)) /\
            (In (Note NoteCsvHeader) tr -> rows_before_header tr = [])).
  { intros tr H. apply header_free_spec in H. tauto. }
  destruct (result (open_session respond w)) as [code|[port ctx]].
  - destruct Hm as [_ Hev]. rewrite Hev.
    apply Hfree, early_header_free, early_core.
  - destruct Hm as [_ Hev]. rewrite Hev.
    pose proof (run_session_shape fuel_diag fuel_loop argv port ctx
                  (final (open_session respond w))) as Hr.
    cbv zeta in Hr.
    pose proof (display_sensor_diagnostics_early fuel_diag ctx
                  (final (open_session respond w))) as Hde.
    pose proof (display_sensor_diagnostics_run fuel_diag ctx
                  (final (open_session respond w))) as Hd.
    cbv zeta in Hd. destruct Hd as (_ & _ & _ & Hdr & _).
    destruct (xresult (display_sensor_diagnostics respond sys fuel_diag ctx _)).
    + pose proof (get_calibration_mode_quiet argv
                    (xfinal (display_sensor_diagnostics respond sys fuel_diag ctx
                               (final (open_session respond w))))) as Hg.
      cbv zeta in Hg. destruct Hg as (Hgc & Hge & _).
      destruct (xresult (get_calibration_mode sys atoi argv _)) as [mode|code].
      * destruct Hr as [_ Hr]. rewrite Hr.
        pose proof (execute_calibration_writes ctx mode
                      (xfinal (get_calibration_mode sys atoi argv
                                 (xfinal (display_sensor_diagnostics respond sys
                                            fuel_diag ctx
                                            (final (open_session respond w))))))) as Hc.
        cbv zeta in Hc. destruct Hc as (_ & _ & Hcr).
        set (c := execute_calibration respond set_float ctx mode _) in *.
        set (s1 := respond (final c) (sleep 1)).
        set (a := sys (snd s1) access_csv).
        set (o := sys (snd a) open_csv).
        set (l := sampling_loop respond fuel_loop ctx port (snd o)).
        set (td := xevents (display_sensor_diagnostics respond sys fuel_diag ctx _)) in *.
        set (tg := xevents (get_calibration_mode sys atoi argv _)) in *.
        set (E := map Core (events (open_session respond w))).
        set (F := if result c then [] else [Note NoteCalibrationFailed]).
        assert (HE : forallb header_free E = true)
          by (apply early_header_free, early_core).
        assert (Htd : forallb header_free td = true)
          by (apply early_header_free; exact Hde).
        assert (Htg : forallb header_free tg = true)
          by (apply early_header_free; exact Hge).
        assert (Htc : forallb header_free (map Core (events c)) = true)
          by (apply early_header_free, early_core).
        assert (Htl : forallb header_free (map Core (events l)) = true)
          by (apply early_header_free, early_core).
        assert (HF : forallb header_free F = true)
          by (unfold F; destruct (result c); reflexivity).
        destruct (fst a) eqn:Ea.
        -- (* the file did not exist *)
           assert (Hsplit :
                     E ++ td ++ tg ++ map Core (events c) ++ F ++
                     [Core (Lib (sleep 1) (fst s1)); Sys access_csv Failed;
                      Sys open_csv (fst o)] ++ [Note NoteCsvHeader] ++ map Core (events l) =
                     (E ++ td ++ tg ++ map Core (events c) ++ F ++
                      [Core (Lib (sleep 1) (fst s1)); Sys access_csv Failed;
                       Sys open_csv (fst o)]) ++
                     Note NoteCsvHeader :: map Core (events l))
             by (rewrite <- !app_assoc; reflexivity).
           rewrite Hsplit.
           split; [split|]; intros _.
           ++ rewrite sys_events_app. apply in_or_app. left.
              rewrite !sys_events_app. repeat (apply in_or_app; right).
              cbn. auto.
           ++ apply in_or_app. right. left. reflexivity.
           ++ apply rows_before_header_none.
              rewrite !core_events_app, !records_app.
              unfold E. rewrite !core_events_core, Hor, Hdr, Hgc, Hcr.
              unfold F. destruct (result c); reflexivity.
        -- (* the file existed *)
           apply Hfree.
           rewrite !forallb_app, HE, Htd, Htg, Htc, HF, Htl. reflexivity.
      * destruct Hr as [_ Hr]. rewrite Hr. apply Hfree.
        rewrite !forallb_app, (early_header_free _ (early_core _)),
          (early_header_free _ Hde), (early_header_free _ Hge). reflexivity.
    + destruct Hr as [_ Hr]. rewrite Hr. apply Hfree.
      rewrite !forallb_app, (early_header_free _ (early_core _)),
        (early_header_free _ Hde). reflexivity.
Qed.

End ConsoleProperties.

(** ** The further properties on concrete devices and consoles *)

(** X5 at a device that stores what is written, for the pattern of
    +infinity: the pattern comes back unchanged and the mismatch warning
    is printed. *)
Lemma exact_read_back_witness :
  result (write_float_register storing_device encode "/dev/ttyUSB0"%string 28 0x7F800000 [])
  = true /\
  warnings (events (write_float_register storing_device encode "/dev/ttyUSB0"%string 28
                      0x7F800000 [])) =
  [MsgWarnDiffersFloat 0x7F800000 0x7F800000].
Proof.
  refine (exact_read_back storing_device encode "/dev/ttyUSB0"%string 28 0x7F800000 []
            [0x7F80; 0] _ _).
  - vm_compute. reflexivity.
  - vm_compute. reflexivity.
Defined.

(** X9 at the steady sensor: two cycles with the same count and
    different remembered strings. *)
Lemma sampling_cycle_uses_fresh_reads_witness :
  events (sampling_cycle (stateless steady_sensor) "/dev/ttyUSB0"%string "/dev/ttyUSB0"%string
            {| loop_count := 5; hex_temp := "0x41C8 0x0000"%string;
               hex_raw_ec := "0x414E 0x147B"%string |} tt) =
  events (sampling_cycle (stateless steady_sensor) "/dev/ttyUSB0"%string "/dev/ttyUSB0"%string
            {| loop_count := 5; hex_temp := EmptyString; hex_raw_ec := EmptyString |} tt) /\
  result (sampling_cycle (stateless steady_sensor) "/dev/ttyUSB0"%string "/dev/ttyUSB0"%string
            {| loop_count := 5; hex_temp := "0x41C8 0x0000"%string;
               hex_raw_ec := "0x414E 0x147B"%string |} tt) =
  result (sampling_cycle (stateless steady_sensor) "/dev/ttyUSB0"%string "/dev/ttyUSB0"%string
            {| loop_count := 5; hex_temp := EmptyString; hex_raw_ec := EmptyString |} tt).
Proof.
  destruct (sampling_cycle_uses_fresh_reads (stateless steady_sensor)
              "/dev/ttyUSB0"%string "/dev/ttyUSB0"%string
              {| loop_count := 5; hex_temp := "0x41C8 0x0000"%string;
                 hex_raw_ec := "0x414E 0x147B"%string |}
              {| loop_count := 5; hex_temp := EmptyString; hex_raw_ec := EmptyString |}
              tt eq_refl) as [He Hr].
  split; [exact He|].
  apply Hr. vm_compute. reflexivity.
Defined.

(** X12 on the command line [smart_logger -v --mode 2]. *)
Lemma first_flag_decides_witness :
  get_calibration_mode (console (Done [1]) Failed) atoi_digits
    ["smart_logger"; "-v"; "--mode"; "2"]%string [] =
  (Selected (mode_of_int 2), [], [Note (NoteUsingMode 2)]).
Proof.
  destruct (first_flag_decides (console (Done [1]) Failed) atoi_digits
              "smart_logger"%string ["-v"%string] [] "2"%string [])
    as (H & _).
  - repeat constructor.
  - apply H. vm_compute. split; discriminate.
Defined.

(** X13 without arguments, at a console where 2 is typed. *)
Lemma prompt_decides_witness :
  xresult (get_calibration_mode (console (Done [2]) Failed) atoi_digits
             ["smart_logger"%string] []) = Selected (mode_of_int 2) /\
  sys_events (xevents (get_calibration_mode (console (Done [2]) Failed) atoi_digits
                         ["smart_logger"%string] [])) = [(cin_int, Done [2])] /\
  xfinal (get_calibration_mode (console (Done [2]) Failed) atoi_digits
            ["smart_logger"%string] []) = [].
Proof.
  exact (prompt_decides (console (Done [2]) Failed) atoi_digits ["smart_logger"%string] []
           (Forall_nil _)).
Defined.

Lemma calibration_warning_in (tr : list xevent) :
  existsb is_calibration_warning tr = true -> In (Note NoteCalibrationFailed) tr.
Proof.
  induction tr as [|e tr IH]; [discriminate|].
  cbn [existsb]. intros H. apply orb_true_iff in H. destruct H as [H|H].
  - left. destruct e as [e|c r|n]; try discriminate H.
    destruct n; try discriminate H. reflexivity.
  - right. exact (IH H).
Qed.

(** X17 at a sensor that rejects every write, started as
    [smart_logger --mode 1] with Enter pressed at the first poll. *)
Lemma calibration_failure_is_not_fatal_witness :
  xresult (main (constant read_only_sensor) (console (Done [1]) Failed) encode atoi_digits
             1 1 ["smart_logger"; "--mode"; "1"]%string [Done [10]]) = None /\
  exists pre port ctx (w' : list reply),
    xevents (main (constant read_only_sensor) (console (Done [1]) Failed) encode atoi_digits
               1 1 ["smart_logger"; "--mode"; "1"]%string [Done [10]]) =
    pre ++ map Core (events (sampling_loop (constant read_only_sensor) 1 ctx port w')).
Proof.
  apply (calibration_failure_is_not_fatal (constant read_only_sensor)
           (console (Done [1]) Failed) encode atoi_digits 1 1
           ["smart_logger"; "--mode"; "1"]%string [Done [10]]).
  apply calibration_warning_in. vm_compute. reflexivity.
Defined.

(** X11 at the steady sensor, for two passes. *)
Lemma sample_count_counts_every_pass_witness :
  exists cycles,
    List.length cycles = 2%nat /\
    events (sampling_loop (stateless steady_sensor) 2 "/dev/ttyUSB0"%string
              "/dev/ttyUSB0"%string tt) = List.concat cycles /\
    Forall (cycle_ok "/dev/ttyUSB0"%string) cycles /\
    (forall i tr d,
        nth_error cycles i = Some tr -> In (Out (Display d)) tr ->
        dash_sample_count d = Z.of_nat i + 1 /\
        1 <= dash_sample_count d <= 2147483647).
Proof.
  apply (sample_count_counts_every_pass (stateless steady_sensor) 2
           "/dev/ttyUSB0"%string "/dev/ttyUSB0"%string tt).
  vm_compute. discriminate.
Defined.
